(** * The rule-based NLP extraction pipeline of [agents/nlp_agent.py]

    A shallow embedding of the four extraction tools
    ([IntentExtractionTool], [TimeframeParsingTool],
    [MetricsIdentificationTool], [ConstraintExtractionTool]) and of the
    aggregating [NLPAgent], followed by the properties the specification
    states about them.

    Modelling conventions.
    - A description is a [string] of 8-bit characters.  Characters below 128
      are ASCII; the others are treated as symbols that are neither letters,
      digits nor white space and that [lower] leaves unchanged.  The model
      speaks for descriptions of ASCII characters; a property that would
      fail on other characters names [Py.is_ascii] as a hypothesis.
    - Python integers are [Z].  [int] applied to a run of digits of any
      length is [int_limited], which raises beyond the interpreter's
      limit of 4300 digits; where the pattern allows four digits at most it
      is [Py.int].
    - The confidences are sums of a few decimal constants: these floats are
      idealised as exact rationals [Q], kept in lowest terms ([0.1] is
      [1 # 10]).  The duration adds integers of any size to a quotient:
      this sum is computed in double precision ([B64]), with its rounding
      and its overflow.
    - An exception is an [exn] carried by the [Raise] result; the system
      clock read by [datetime.now()] is an explicit part of the [world]
      threaded through the computation monad [M].
    - [re] patterns are terms of [regex], matched by a backtracking matcher
      with Python's priorities (leftmost alternative first, greedy
      quantifiers longest first, lazy ones shortest first). *)

From Stdlib Require Import Bool Arith ZArith QArith Qround Qpower List Lia Lqa.
From Stdlib Require Import Ascii String.
From Stdlib Require Import DecimalString.
Import ListNotations.

Close Scope Q_scope.
Local Open Scope string_scope.
Local Open Scope list_scope.

(* ------------------------------------------------------------------ *)
(** ** Characters and strings (the fragment of [str] the code uses) *)

Module Py.

Definition code (c : ascii) : nat := nat_of_ascii c.

Definition between (lo hi n : nat) : bool := (lo <=? n)%nat && (n <=? hi)%nat.

Definition is_digit (c : ascii) : bool := between 48 57 (code c).
Definition is_upper (c : ascii) : bool := between 65 90 (code c).
Definition is_lower (c : ascii) : bool := between 97 122 (code c).

(** [\w]: letters, digits and the underscore. *)
Definition is_word (c : ascii) : bool :=
  is_digit c || is_upper c || is_lower c || (code c =? 95)%nat.

(** [str.isspace]: tab, newline, vertical tab, form feed, carriage return,
    the four separators 0x1c..0x1f and the blank. *)
Definition is_space (c : ascii) : bool :=
  between 9 13 (code c) || between 28 31 (code c) || (code c =? 32)%nat.

Definition newline : ascii := ascii_of_nat 10.

Definition lower_char (c : ascii) : ascii :=
  if is_upper c then ascii_of_nat (code c + 32) else c.

(** [s.lower()] *)
Fixpoint lower (s : string) : string :=
  match s with
  | EmptyString => EmptyString
  | String c s' => String (lower_char c) (lower s')
  end.

(** [s.startswith(p)] *)
Fixpoint startswith (p s : string) : bool :=
  match p, s with
  | EmptyString, _ => true
  | String a p', String b s' => Ascii.eqb a b && startswith p' s'
  | String _ _, EmptyString => false
  end.

(** [needle in hay] *)
Fixpoint contains (needle hay : string) : bool :=
  startswith needle hay ||
  match hay with
  | EmptyString => false
  | String _ hay' => contains needle hay'
  end.

(** [any(word in s for word in words)] *)
Definition any_in (words : list string) (s : string) : bool :=
  existsb (fun w => contains w s) words.

Fixpoint rev_string (s acc : string) : string :=
  match s with
  | EmptyString => acc
  | String c s' => rev_string s' (String c acc)
  end.

Definition endswith (suffix s : string) : bool :=
  startswith (rev_string suffix "") (rev_string s "").

Fixpoint lstrip (s : string) : string :=
  match s with
  | String c s' => if is_space c then lstrip s' else s
  | EmptyString => EmptyString
  end.

(** [s.strip()] *)
Definition strip (s : string) : string :=
  rev_string (lstrip (rev_string (lstrip s) "")) "".

(** [s.split()]: the maximal runs of characters that are not white space.
    [cur] is the word being read, reversed. *)
Fixpoint split_aux (s cur : string) : list string :=
  match s with
  | EmptyString =>
      match cur with EmptyString => [] | _ => [rev_string cur ""] end
  | String c s' =>
      if is_space c
      then match cur with
           | EmptyString => split_aux s' ""
           | _ => rev_string cur "" :: split_aux s' ""
           end
      else split_aux s' (String c cur)
  end.

Definition split (s : string) : list string := split_aux s "".

(** [sep.join(l)] *)
Fixpoint join (sep : string) (l : list string) : string :=
  match l with
  | [] => ""
  | [x] => x
  | x :: l' => x ++ sep ++ join sep l'
  end.

(** [s.split(sep)] for a one-character separator. *)
Fixpoint split_on_aux (sep : ascii) (s cur : string) : list string :=
  match s with
  | EmptyString => [rev_string cur ""]
  | String c s' =>
      if Ascii.eqb c sep
      then rev_string cur "" :: split_on_aux sep s' ""
      else split_on_aux sep s' (String c cur)
  end.

Definition split_on (sep : ascii) (s : string) : list string :=
  split_on_aux sep s "".

(** [int(s)] on a string of decimal digits. *)
Fixpoint int_digits (s : string) (acc : Z) : Z :=
  match s with
  | EmptyString => acc
  | String c s' => int_digits s' (10 * acc + Z.of_nat (code c - 48))
  end.

Definition int (s : string) : Z := int_digits s 0.

(** [str(n)] for an integer. *)
Definition str_of_Z (n : Z) : string := NilZero.string_of_int (Z.to_int n).

Definition str_of_nat (n : nat) : string := str_of_Z (Z.of_nat n).

(** the characters of ASCII *)
Definition is_ascii_char (c : ascii) : bool := (code c <? 128)%nat.

Fixpoint is_ascii (s : string) : bool :=
  match s with
  | EmptyString => true
  | String c s' => is_ascii_char c && is_ascii s'
  end.

(** [sys.get_int_max_str_digits()] *)
Definition int_max_str_digits : nat := 4300.

(** [float(s)] on a literal [digits] or [digits.digits], as an exact
    rational. *)
Fixpoint float_frac (s : string) (num den : Z) : Q :=
  match s with
  | EmptyString => Qmake num (Z.to_pos den)
  | String c s' => float_frac s' (10 * num + Z.of_nat (code c - 48)) (10 * den)
  end.

Fixpoint float_lit (s : string) (acc : Z) : Q :=
  match s with
  | EmptyString => inject_Z acc
  | String c s' =>
      if is_digit c then float_lit s' (10 * acc + Z.of_nat (code c - 48))
      else float_frac s' acc 1
  end.

Definition float (s : string) : Q := float_lit s 0.

(** [max(xs, key=key)]: the first element whose key is maximal. *)
Fixpoint max_by_aux {A} (key : A -> nat) (best : A) (xs : list A) : A :=
  match xs with
  | [] => best
  | x :: xs' =>
      if (key best <? key x)%nat then max_by_aux key x xs'
      else max_by_aux key best xs'
  end.

Definition max_by {A} (key : A -> nat) (xs : list A) : option A :=
  match xs with
  | [] => None
  | x :: xs' => Some (max_by_aux key x xs')
  end.

End Py.

(* ------------------------------------------------------------------ *)
(** ** Regular expressions (the fragment of [re] the code uses) *)

Module Re.

(** Character sets: [.], [\d], [\w], [\s] and [[^...]]. *)
Inductive cset : Type :=
| Dot
| Digit
| Word
| Space
| NoneOf (excluded : string).

Fixpoint mem_char (c : ascii) (s : string) : bool :=
  match s with
  | EmptyString => false
  | String a s' => Ascii.eqb a c || mem_char c s'
  end.

Definition in_cset (cs : cset) (c : ascii) : bool :=
  match cs with
  | Dot => negb (Ascii.eqb c Py.newline)
  | Digit => Py.is_digit c
  | Word => Py.is_word c
  | Space => Py.is_space c
  | NoneOf ex => negb (mem_char c ex)
  end.

(** Patterns.  A quantifier other than [?] only ever applies to a character
    set in the patterns of the program, so [Rep] takes a [cset]:
    [Rep c lo hi greedy] is [c{lo,hi}] ([hi = None]: unbounded), lazy when
    [greedy] is [false].  [Grp i r] is the [i]-th capturing group. *)
Inductive regex : Type :=
| Lit (s : string)
| Cls (c : cset)
| Seq (r1 r2 : regex)
| Alt (r1 r2 : regex)
| Opt (r : regex)
| Rep (c : cset) (lo : nat) (hi : option nat) (greedy : bool)
| Grp (i : nat) (r : regex)
| WordB
| Eos.

(** Captured groups, by number. *)
Definition caps : Type := list (nat * string).

Fixpoint get_cap (i : nat) (cs : caps) : string :=
  match cs with
  | [] => ""
  | (j, s) :: cs' => if (i =? j)%nat then s else get_cap i cs'
  end.

Definition set_cap (i : nat) (s : string) (cs : caps) : caps := (i, s) :: cs.

(** The matcher runs on the text that remains, remembers the character
    before it (for [\b]) and calls its continuation on success; a [None]
    from the continuation makes it backtrack. *)
Definition res : Type := option (string * caps).
Definition kont : Type := option ascii -> string -> caps -> res.

Definition orelse (a : res) (b : unit -> res) : res :=
  match a with
  | Some x => Some x
  | None => b tt
  end.

Fixpoint m_lit (l : string) (p : option ascii) (s : string)
  : option (option ascii * string) :=
  match l with
  | EmptyString => Some (p, s)
  | String a l' =>
      match s with
      | String b s' => if Ascii.eqb a b then m_lit l' (Some b) s' else None
      | EmptyString => None
      end
  end.

(** exactly [n] characters of the set *)
Fixpoint m_exactly (c : cset) (n : nat) (p : option ascii) (s : string)
  : option (option ascii * string) :=
  match n with
  | O => Some (p, s)
  | S n' =>
      match s with
      | String a s' => if in_cset c a then m_exactly c n' (Some a) s' else None
      | EmptyString => None
      end
  end.

Definition has_budget (b : option nat) : bool :=
  match b with
  | Some O => false
  | _ => true
  end.

Definition spend (b : option nat) : option nat := option_map pred b.

(** at most [b] more characters of the set, as many as possible first *)
Fixpoint m_greedy (c : cset) (b : option nat) (p : option ascii) (s : string)
  (k : option ascii -> string -> res) : res :=
  match s with
  | String a s' =>
      if in_cset c a && has_budget b
      then orelse (m_greedy c (spend b) (Some a) s' k) (fun _ => k p s)
      else k p s
  | EmptyString => k p s
  end.

(** at most [b] more characters of the set, as few as possible first *)
Fixpoint m_lazy (c : cset) (b : option nat) (p : option ascii) (s : string)
  (k : option ascii -> string -> res) : res :=
  orelse (k p s)
    (fun _ =>
       match s with
       | String a s' =>
           if in_cset c a && has_budget b
           then m_lazy c (spend b) (Some a) s' k
           else None
       | EmptyString => None
       end).

Definition is_word_opt (c : option ascii) : bool :=
  match c with
  | Some a => Py.is_word a
  | None => false
  end.

Definition head (s : string) : option ascii :=
  match s with
  | String a _ => Some a
  | EmptyString => None
  end.

(** [$] without [re.MULTILINE]: the end of the text, or just before a final
    newline. *)
Definition at_end (s : string) : bool :=
  match s with
  | EmptyString => true
  | String a EmptyString => Ascii.eqb a Py.newline
  | _ => false
  end.

Definition extra (hi : option nat) (lo : nat) : option nat :=
  option_map (fun h => h - lo)%nat hi.

Fixpoint m (r : regex) (p : option ascii) (s : string) (cs : caps) (k : kont)
  : res :=
  match r with
  | Lit l =>
      match m_lit l p s with
      | Some (p', s') => k p' s' cs
      | None => None
      end
  | Cls c =>
      match s with
      | String a s' => if in_cset c a then k (Some a) s' cs else None
      | EmptyString => None
      end
  | Seq r1 r2 => m r1 p s cs (fun p' s' cs' => m r2 p' s' cs' k)
  | Alt r1 r2 => orelse (m r1 p s cs k) (fun _ => m r2 p s cs k)
  | Opt r1 => orelse (m r1 p s cs k) (fun _ => k p s cs)
  | Rep c lo hi greedy =>
      match m_exactly c lo p s with
      | Some (p', s') =>
          (if greedy then m_greedy else m_lazy) c (extra hi lo) p' s'
            (fun p'' s'' => k p'' s'' cs)
      | None => None
      end
  | Grp i r1 =>
      m r1 p s cs
        (fun p' s' cs' =>
           k p' s' (set_cap i (substring 0 (length s - length s') s) cs'))
  | WordB =>
      if xorb (is_word_opt p) (is_word_opt (head s)) then k p s cs else None
  | Eos => if at_end s then k p s cs else None
  end.

(** A match: the matched text and the groups. *)
Record rmatch : Type := { whole : string; groups : caps }.

Definition group (i : nat) (x : rmatch) : string := get_cap i (groups x).

(** the pattern matched at the very start of [s] *)
Definition match_here (r : regex) (p : option ascii) (s : string)
  : option rmatch :=
  match m r p s [] (fun _ s' cs => Some (s', cs)) with
  | Some (s', cs) =>
      Some {| whole := substring 0 (length s - length s') s; groups := cs |}
  | None => None
  end.

(** [re.search(r, s)]: the match at the leftmost position that has one. *)
Fixpoint search_from (r : regex) (p : option ascii) (s : string)
  : option rmatch :=
  match match_here r p s with
  | Some x => Some x
  | None =>
      match s with
      | String a s' => search_from r (Some a) s'
      | EmptyString => None
      end
  end.

Definition search (r : regex) (s : string) : option rmatch :=
  search_from r None s.

(** The successive non-overlapping matches, left to right.  [skip] counts
    the characters of the last match still to be passed over.  (After an
    empty match the scan moves one character on; no pattern of the program
    matches the empty string.) *)
Fixpoint scan (r : regex) (p : option ascii) (s : string) (skip : nat)
  {struct s} : list rmatch :=
  match skip with
  | S n =>
      match s with
      | String a s' => scan r (Some a) s' n
      | EmptyString => []
      end
  | O =>
      match match_here r p s with
      | Some x =>
          x :: match s with
               | String a s' => scan r (Some a) s' (pred (length (whole x)))
               | EmptyString => []
               end
      | None =>
          match s with
          | String a s' => scan r (Some a) s' 0
          | EmptyString => []
          end
      end
  end.

(** What [re.findall] puts in its result list for one match: the matched
    text when the pattern has no group, the group when it has one, the
    tuple of the groups when it has several. *)
Inductive found : Type :=
| FStr (s : string)
| FTuple (t : list string).

Fixpoint ngroups (r : regex) : nat :=
  match r with
  | Seq r1 r2 | Alt r1 r2 => ngroups r1 + ngroups r2
  | Opt r1 => ngroups r1
  | Grp _ r1 => S (ngroups r1)
  | _ => 0
  end.

Definition found_of (n : nat) (x : rmatch) : found :=
  match n with
  | 0 => FStr (whole x)
  | 1 => FStr (group 1 x)
  | _ => FTuple (map (fun i => group i x) (seq 1 n))
  end.

Definition findall (r : regex) (s : string) : list found :=
  map (found_of (ngroups r)) (scan r None s 0).

(** [findall] for a pattern whose matches are strings (at most one group) *)
Definition found_str (f : found) : string :=
  match f with
  | FStr s => s
  | FTuple t => Py.join " " t
  end.

(** *** Pattern combinators *)

Fixpoint seqs (rs : list regex) : regex :=
  match rs with
  | [] => Lit ""
  | [r] => r
  | r :: rs' => Seq r (seqs rs')
  end.

Fixpoint alts (rs : list regex) : regex :=
  match rs with
  | [] => Lit ""
  | [r] => r
  | r :: rs' => Alt r (alts rs')
  end.

(** [a|b|c] over literal words *)
Definition words (ws : list string) : regex := alts (map Lit ws).

(** [word(s)?]: a literal with an optional final letter, as in [days?] *)
Definition opt_s (w : string) : regex := Seq (Lit w) (Opt (Lit "s")).

Definition star (c : cset) : regex := Rep c 0 None true.
Definition plus (c : cset) : regex := Rep c 1 None true.
Definition plus_lazy (c : cset) : regex := Rep c 1 None false.

End Re.

(* ------------------------------------------------------------------ *)
(** ** Exceptions, the clock and the computation monad *)

Inductive exn : Type :=
| ValueError (msg : string)
| IndexError (msg : string)
| OverflowError (msg : string)
| OtherError (msg : string).

(** [str(e)] *)
Definition str_exn (e : exn) : string :=
  match e with
  | ValueError msg | IndexError msg | OverflowError msg | OtherError msg =>
      msg
  end.

Inductive result (A : Type) : Type :=
| Val (a : A)
| Raise (e : exn).

Arguments Val {A} a.
Arguments Raise {A} e.

(** [datetime]: a calendar date and a time of day. *)
Record datetime : Type := {
  year : Z; month : Z; day : Z;
  hour : Z; minute : Z; second : Z; microsecond : Z
}.

(** The world a call runs in: [clock n] is what the [n]-th reading of the
    system clock returns, [ticks] counts the readings made so far. *)
Record world : Type := { clock : nat -> datetime; ticks : nat }.

Definition M (A : Type) : Type := world -> result A * world.

Definition ret {A} (a : A) : M A := fun w => (Val a, w).

Definition raise {A} (e : exn) : M A := fun w => (Raise e, w).

Definition bind {A B} (c : M A) (f : A -> M B) : M B :=
  fun w =>
    match c w with
    | (Val a, w') => f a w'
    | (Raise e, w') => (Raise e, w')
    end.

Notation "x <- c ;; k" := (bind c (fun x => k))
  (at level 61, c at next level, right associativity).

(** [try: body / except Exception as e: handler(e)] *)
Definition try_except {A} (body : M A) (handler : exn -> M A) : M A :=
  fun w =>
    match body w with
    | (Val a, w') => (Val a, w')
    | (Raise e, w') => handler e w'
    end.

(** lifting a computation that may raise but does not touch the world *)
Definition lift {A} (o : result A) : M A := fun w => (o, w).

(** [datetime.now()] *)
Definition now : M datetime :=
  fun w => (Val (clock w (ticks w)),
            {| clock := clock w; ticks := S (ticks w) |}).

(** the result of a computation, when it returns one *)
Definition returns {A} (P : A -> Prop) (x : result A * world) : Prop :=
  match fst x with
  | Val a => P a
  | Raise _ => False
  end.

(** [int(s)] on a string of decimal digits of any length: the interpreter
    refuses more than 4300 digits *)
Definition int_limited (s : string) : result Z :=
  if (Py.int_max_str_digits <? String.length s)%nat
  then Raise (ValueError
                ("Exceeds the limit (4300 digits) for integer string "
                 ++ "conversion: value has "
                 ++ Py.str_of_nat (String.length s)
                 ++ " digits; use sys.set_int_max_str_digits() "
                 ++ "to increase the limit"))
  else Val (Py.int s).

(* ------------------------------------------------------------------ *)
(** ** The fragment of [datetime] the code uses *)

Module DT.

Local Open Scope Z_scope.

Definition MINYEAR : Z := 1.
Definition MAXYEAR : Z := 9999.
Definition MAXORDINAL : Z := 3652059.

Definition is_leap (y : Z) : bool :=
  (y mod 4 =? 0) && (negb (y mod 100 =? 0) || (y mod 400 =? 0)).

Definition DAYS_IN_MONTH : list Z :=
  [-1; 31; 28; 31; 30; 31; 30; 31; 31; 30; 31; 30; 31].

Definition DAYS_BEFORE_MONTH : list Z :=
  [-1; 0; 31; 59; 90; 120; 151; 181; 212; 243; 273; 304; 334].

Definition days_before_year (y : Z) : Z :=
  let y := y - 1 in y * 365 + y / 4 - y / 100 + y / 400.

Definition days_in_month (y mth : Z) : Z :=
  if (mth =? 2) && is_leap y then 29
  else nth (Z.to_nat mth) DAYS_IN_MONTH (-1).

Definition days_before_month (y mth : Z) : Z :=
  nth (Z.to_nat mth) DAYS_BEFORE_MONTH (-1)
  + (if (2 <? mth) && is_leap y then 1 else 0).

Definition ymd2ord (y mth d : Z) : Z :=
  days_before_year y + days_before_month y mth + d.

Definition ord2ymd (n : Z) : Z * Z * Z :=
  let n := n - 1 in
  let n400 := n / 146097 in
  let n := n mod 146097 in
  let y := n400 * 400 + 1 in
  let n100 := n / 36524 in
  let n := n mod 36524 in
  let n4 := n / 1461 in
  let n := n mod 1461 in
  let n1 := n / 365 in
  let n := n mod 365 in
  let y := y + n100 * 100 + n4 * 4 + n1 in
  if (n1 =? 4) || (n100 =? 4) then (y - 1, 12, 31)
  else
    let leapyear := (n1 =? 3) && (negb (n4 =? 24) || (n100 =? 3)) in
    let mth := Z.shiftr (n + 50) 5 in
    let preceding :=
      nth (Z.to_nat mth) DAYS_BEFORE_MONTH (-1)
      + (if (2 <? mth) && leapyear then 1 else 0) in
    if n <? preceding
    then
      let mth := mth - 1 in
      let preceding :=
        preceding
        - (nth (Z.to_nat mth) DAYS_IN_MONTH (-1)
           + (if (mth =? 2) && leapyear then 1 else 0)) in
      (y, mth, n - preceding + 1)
    else (y, mth, n - preceding + 1).

Definition valid_date (y mth d : Z) : bool :=
  (MINYEAR <=? y) && (y <=? MAXYEAR) && (1 <=? mth) && (mth <=? 12)
  && (1 <=? d) && (d <=? days_in_month y mth).

(** the [ValueError] raised for a date that does not exist *)
Definition date_error (y mth d : Z) : exn :=
  if negb ((MINYEAR <=? y) && (y <=? MAXYEAR))
  then ValueError ("year " ++ Py.str_of_Z y ++ " is out of range")
  else if negb ((1 <=? mth) && (mth <=? 12))
  then ValueError "month must be in 1..12"
  else ValueError "day is out of range for month".

(** [datetime(year, month, day)]: midnight of that day, [ValueError] when
    there is no such day. *)
Definition make (y mth d : Z) : result datetime :=
  if valid_date y mth d
  then Val {| year := y; month := mth; day := d;
              hour := 0; minute := 0; second := 0; microsecond := 0 |}
  else Raise (date_error y mth d).

(** [dt.replace(year=y, month=mth, day=d)] *)
Definition replace (dt : datetime) (y mth d : Z) : result datetime :=
  if valid_date y mth d
  then Val {| year := y; month := mth; day := d;
              hour := hour dt; minute := minute dt; second := second dt;
              microsecond := microsecond dt |}
  else Raise (date_error y mth d).

Definition toordinal (dt : datetime) : Z :=
  ymd2ord (year dt) (month dt) (day dt).

(** [dt.weekday()]: Monday is 0 *)
Definition weekday (dt : datetime) : Z := (toordinal dt + 6) mod 7.

(** [dt + timedelta(days=n)]: [OverflowError] when the [timedelta] cannot be
    built (the days must fit a C [int], and be a thousand million at most)
    or the sum leaves the years 1 to 9999 *)
Definition add_days (dt : datetime) (n : Z) : result datetime :=
  if (2 ^ 31 <=? n) || (n <? - 2 ^ 31)
  then Raise (OverflowError "Python int too large to convert to C int")
  else if 999999999 <? Z.abs n
  then Raise (OverflowError
                ("days=" ++ Py.str_of_Z n
                 ++ "; must have magnitude <= 999999999"))
  else
    let o := toordinal dt + n in
    if (1 <=? o) && (o <=? MAXORDINAL)
    then
      let '(y, mth, d) := ord2ymd o in
      Val {| year := y; month := mth; day := d;
             hour := hour dt; minute := minute dt; second := second dt;
             microsecond := microsecond dt |}
    else Raise (OverflowError "date value out of range").

(** decimal digits of [n], padded with zeros to at least [width] *)
Definition zpad (width : nat) (n : Z) : string :=
  let s := Py.str_of_Z n in
  String.concat "" (repeat "0" (width - String.length s)) ++ s.

(** [dt.isoformat()] *)
Definition isoformat (dt : datetime) : string :=
  zpad 4 (year dt) ++ "-" ++ zpad 2 (month dt) ++ "-" ++ zpad 2 (day dt)
  ++ "T" ++ zpad 2 (hour dt) ++ ":" ++ zpad 2 (minute dt) ++ ":"
  ++ zpad 2 (second dt)
  ++ (if microsecond dt =? 0 then "" else "." ++ zpad 6 (microsecond dt)).

End DT.

(* ------------------------------------------------------------------ *)
(** ** Floats (idealised as normalised rationals) and dictionaries *)

Module F.

Definition add (a b : Q) : Q := Qred (a + b).
Definition sub (a b : Q) : Q := Qred (a - b).
Definition mul (a b : Q) : Q := Qred (a * b).
Definition div (a b : Q) : Q := Qred (a / b).
Definition of_Z (n : Z) : Q := inject_Z n.
Definition of_nat (n : nat) : Q := inject_Z (Z.of_nat n).

(** [a < b] *)
Definition ltb (a b : Q) : bool := negb (Qle_bool b a).

(** [min(a, b)] and [max(a, b)]: the first argument unless the second is
    strictly smaller (greater). *)
Definition min (a b : Q) : Q := if ltb b a then b else a.
Definition max (a b : Q) : Q := if ltb a b then b else a.

(** [int(x)]: truncation towards zero *)
Definition trunc (x : Q) : Z :=
  if Qle_bool 0 x then Qfloor x else Qceiling x.

(** the closed interval every confidence is meant to lie in *)
Definition unit_interval (x : Q) : Prop := (0 <= x /\ x <= 1)%Q.

End F.

(** Double precision, for the numbers that are not negative: a finite
    double is given by its exact value, and every operation rounds the
    exact result to the nearest double, a tie going to the even one.  No
    number the code computes is small enough to be subnormal. *)
Module B64.

(** a double that is not negative: a finite one, given by its exact value,
    or infinity *)
Inductive t : Type :=
  | Finite (x : Q)
  | Infinity.

Definition pow2 (e : Z) : Q := Qpower 2 e.

(** the largest [k] with [2^k <= x], for a positive [x] *)
Definition ilog2 (x : Q) : Z :=
  let k := (Z.log2 (Qnum x) - Z.log2 (Zpos (Qden x)))%Z in
  if Qle_bool (pow2 k) x then k else (k - 1)%Z.

(** the nearest integer, a tie going to the even one *)
Definition nearest_even (m : Q) : Z :=
  let f := Qfloor m in
  match Qcompare (m - inject_Z f) (1 # 2) with
  | Lt => f
  | Gt => (f + 1)%Z
  | Eq => if Z.even f then f else (f + 1)%Z
  end.

(** the nearest number with 53 significant bits, for [x >= 0] *)
Definition round (x : Q) : Q :=
  if Qle_bool x 0 then 0%Q
  else
    let e := (ilog2 x - 52)%Z in
    Qred (inject_Z (nearest_even (x / pow2 e)) * pow2 e).

(** beyond the largest finite double *)
Definition overflows (x : Q) : bool := Qle_bool (pow2 1024) x.

(** the conversion of an integer [n >= 0] to a double, as in [n + 0.5] *)
Definition of_int (n : Z) : result Q :=
  let x := round (inject_Z n) in
  if overflows x
  then Raise (OverflowError "int too large to convert to float")
  else Val x.

(** [a / b] on integers [a >= 0] and [b > 0] *)
Definition true_div (a b : Z) : result Q :=
  let x := round (inject_Z a / inject_Z b) in
  if overflows x
  then Raise (OverflowError "integer division result too large for a float")
  else Val x.

(** [x + y] on finite doubles that are not negative *)
Definition add (x y : Q) : t :=
  let s := round (x + y) in
  if overflows s then Infinity else Finite s.

(** [x > 0] *)
Definition positive (x : t) : bool :=
  match x with
  | Finite q => negb (Qle_bool q 0)
  | Infinity => true
  end.

(** [int(x)] *)
Definition to_int (x : t) : result Z :=
  match x with
  | Finite q => Val (Qfloor q)
  | Infinity =>
      Raise (OverflowError "cannot convert float infinity to integer")
  end.

End B64.

Module Dict.

(** A [dict] with string keys, in insertion order. *)
Definition t (V : Type) : Type := list (string * V).

Fixpoint get {V} (k : string) (d : t V) : option V :=
  match d with
  | [] => None
  | (k', v) :: d' => if String.eqb k k' then Some v else get k d'
  end.

(** [d[k] = v] *)
Fixpoint set {V} (k : string) (v : V) (d : t V) : t V :=
  match d with
  | [] => [(k, v)]
  | (k', v') :: d' =>
      if String.eqb k k' then (k, v) :: d' else (k', v') :: set k v d'
  end.

Definition keys {V} (d : t V) : list string := map fst d.

(** [d.get(k, default)] *)
Definition get_or {V} (k : string) (default : V) (d : t V) : V :=
  match get k d with
  | Some v => v
  | None => default
  end.

End Dict.

(* ------------------------------------------------------------------ *)
(** ** [IntentExtractionTool] *)

Record IntentResult : Type := {
  domain : string;
  action : string;
  outcome : string;
  context : list string;
  urgency : string;
  i_confidence : Q;
  i_reasoning : string
}.

Module IntentExtractionTool.

Import Re.

Definition domain_patterns : Dict.t (list string) :=
  [ ("fitness", ["workout"; "exercise"; "run"; "gym"; "weight"; "muscle";
                 "cardio"; "marathon"; "fitness"]);
    ("learning", ["learn"; "study"; "course"; "skill"; "education";
                  "training"; "certification"; "language"]);
    ("career", ["job"; "career"; "promotion"; "salary"; "work";
                "professional"; "business"; "interview"; "promoted";
                "developer"; "senior"]);
    ("finance", ["money"; "save"; "budget"; "invest"; "debt"; "financial";
                 "income"; "expense"]);
    ("health", ["health"; "doctor"; "medical"; "diet"; "nutrition"; "sleep";
                "wellness"; "therapy"]);
    ("nutrition", ["eat"; "food"; "diet"; "nutrition"; "meal"; "calories";
                   "protein"; "vegetables"]);
    ("sleep", ["sleep"; "rest"; "bedtime"; "wake"; "hours"; "insomnia";
               "tired"]);
    ("habits", ["habit"; "routine"; "daily"; "practice"; "consistency";
                "discipline"]);
    ("social", ["friends"; "family"; "relationship"; "social"; "network";
                "community"]);
    ("projects", ["project"; "build"; "create"; "develop"; "complete";
                  "finish"; "accomplish"]) ].

(** [sum(1 for keyword in keywords if keyword in description)] *)
Definition score (keywords : list string) (description : string) : nat :=
  List.length (filter (fun keyword => Py.contains keyword description) keywords).

(** the loop filling [domain_scores] *)
Definition domain_scores (description : string)
  (patterns : Dict.t (list string)) : Dict.t nat :=
  fold_left
    (fun scores '(dom, keywords) =>
       let sc := score keywords description in
       if (0 <? sc)%nat then Dict.set dom sc scores else scores)
    patterns [].

Definition _classify_domain (description : string)
  (patterns : Dict.t (list string)) : string :=
  let scores := domain_scores description patterns in
  match Py.max_by (fun dom => Dict.get_or dom 0%nat scores) (Dict.keys scores)
  with
  | Some dom => dom
  | None => "projects"
  end.

Definition verb (ws : list string) : regex :=
  seqs [WordB; Grp 1 (words ws); WordB].

Definition action_patterns : list regex :=
  [ verb ["learn"; "study"; "master"; "understand"];
    verb ["run"; "exercise"; "train"; "workout"];
    verb ["save"; "earn"; "invest"; "budget"];
    verb ["build"; "create"; "develop"; "make"];
    verb ["lose"; "gain"; "improve"; "increase"; "decrease"];
    verb ["complete"; "finish"; "achieve"; "accomplish"];
    verb ["start"; "begin"; "initiate"];
    verb ["read"; "write"; "practice"] ].

(** [for pattern in patterns: match = re.search(...); if match: return
    match.group(1)] *)
Fixpoint first_group (patterns : list regex) (text : string) : option string :=
  match patterns with
  | [] => None
  | r :: rest =>
      match search r text with
      | Some x => Some (group 1 x)
      | None => first_group rest text
      end
  end.

Definition mem_str (s : string) (l : list string) : bool :=
  existsb (String.eqb s) l.

(** the fallback loop over the words of the description *)
Fixpoint verb_like (words : list string) : option string :=
  match words with
  | [] => None
  | word :: rest =>
      if mem_str (Py.lower word) ["want"; "need"; "plan"; "hope"; "aim"; "goal"]
      then verb_like rest
      else if (3 <? String.length word)%nat
              && existsb (fun suf => Py.endswith suf (Py.lower word))
                   ["ing"; "ed"; "er"]
      then Some (Py.lower word)
      else verb_like rest
  end.

Definition _extract_action (description : string) : string :=
  match first_group action_patterns (Py.lower description) with
  | Some a => a
  | None =>
      match verb_like (Py.split description) with
      | Some w => w
      | None => "achieve"
      end
  end.

Definition outcome_pattern (lead : list string) : regex :=
  seqs [ words lead; plus Space; Grp 1 (plus_lazy Dot);
         alts [Lit "."; Eos; Lit "by"; Lit "in"; Lit "within"] ].

Definition outcome_patterns : list regex :=
  [ outcome_pattern ["to"; "want to"; "need to"; "plan to"; "aim to";
                     "goal is to"];
    outcome_pattern ["achieve"; "accomplish"; "complete"; "finish"; "reach"];
    outcome_pattern ["become"; "get"; "obtain"; "gain"] ].

Definition _extract_outcome (description : string) : string :=
  match first_group outcome_patterns (Py.lower description) with
  | Some o => Py.strip o
  | None =>
      let words := Py.split description in
      if (3 <? List.length words)%nat
      then Py.join " " (firstn (Nat.min (List.length words) 8) words)
      else description
  end.

Definition clause_pattern (lead : list string) : regex :=
  seqs [ words lead; plus Space; Grp 1 (plus_lazy Dot); alts [Lit "."; Eos] ].

Definition motivation_patterns : list regex :=
  [ clause_pattern ["because"; "since"; "as"; "for"; "to help"; "in order to"];
    clause_pattern ["so that"; "so I can"; "to be able to"] ].

Definition constraint_patterns : list regex :=
  [ clause_pattern ["but"; "however"; "although"; "despite"; "even though"];
    clause_pattern ["with"; "using"; "through"; "via"] ].

(** [for pattern in patterns: out.extend(re.findall(pattern, text))] *)
Definition findall_strs (patterns : list regex) (text : string) : list string :=
  flat_map (fun r => map found_str (findall r text)) patterns.

(** [[x.strip() for x in xs if x.strip()]] *)
Definition stripped (xs : list string) : list string :=
  map Py.strip
    (filter (fun x => negb (String.eqb (Py.strip x) "")) xs).

Definition _extract_context (description : string) : list string :=
  let context := findall_strs motivation_patterns (Py.lower description) in
  let context :=
    context ++ findall_strs constraint_patterns (Py.lower description) in
  stripped context.

Definition high_urgency_words : list string :=
  ["urgent"; "asap"; "immediately"; "critical"; "emergency"; "deadline";
   "must"].
Definition medium_urgency_words : list string :=
  ["soon"; "quickly"; "important"; "priority"; "need to"; "should"].
Definition low_urgency_words : list string :=
  ["eventually"; "someday"; "when possible"; "would like"; "hope to"].

Definition time_cue (ws : list string) : regex :=
  seqs [WordB; Grp 1 (words ws); WordB].

Definition found_in (r : regex) (text : string) : bool :=
  match search r text with
  | Some _ => true
  | None => false
  end.

Definition _determine_urgency (description : string) : string :=
  let description_lower := Py.lower description in
  if Py.any_in high_urgency_words description_lower then "high"
  else if Py.any_in medium_urgency_words description_lower then "medium"
  else if Py.any_in low_urgency_words description_lower then "low"
  else if found_in (time_cue ["today"; "tomorrow"; "this week"; "next week"])
            description_lower then "high"
  else if found_in (time_cue ["this month"; "next month"; "soon"])
            description_lower then "medium"
  else if found_in (time_cue ["this year"; "next year"; "someday"])
            description_lower then "low"
  else "medium".

Definition vague_words : list string :=
  ["something"; "stuff"; "things"; "whatever"].

Definition _calculate_confidence (description dom act out : string) : Q :=
  let confidence := (5 # 10)%Q in
  let word_count := List.length (Py.split description) in
  let confidence :=
    if (5 <=? word_count)%nat then F.add confidence (1 # 10) else confidence in
  let confidence :=
    if (10 <=? word_count)%nat then F.add confidence (1 # 10) else confidence in
  let confidence :=
    if negb (String.eqb act "achieve") then F.add confidence (1 # 10)
    else confidence in
  let confidence :=
    if (10 <? String.length out)%nat then F.add confidence (1 # 10)
    else confidence in
  let confidence :=
    if negb (String.eqb dom "projects") then F.add confidence (1 # 10)
    else confidence in
  let confidence :=
    if (word_count <? 3)%nat then F.sub confidence (2 # 10) else confidence in
  let confidence :=
    if Py.any_in vague_words (Py.lower description)
    then F.sub confidence (3 # 10) else confidence in
  F.max 0 (F.min 1 confidence).

(** the body of the [try] block of [run] *)
Definition run_body (description : string) : M IntentResult :=
  let dom := _classify_domain (Py.lower description) domain_patterns in
  let act := _extract_action description in
  let out := _extract_outcome description in
  let ctx := _extract_context description in
  let urg := _determine_urgency description in
  let confidence := _calculate_confidence description dom act out in
  ret {| domain := dom; action := act; outcome := out; context := ctx;
         urgency := urg; i_confidence := confidence;
         i_reasoning :=
           "Classified as " ++ dom ++ " based on keywords. Action: " ++ act
           ++ ", Outcome: " ++ out |}.

(** the result of the [except] block of [run] *)
Definition fallback (e : exn) : IntentResult :=
  {| domain := "projects"; action := "achieve"; outcome := "goal completion";
     context := []; urgency := "medium"; i_confidence := (3 # 10)%Q;
     i_reasoning := "Fallback classification due to error: " ++ str_exn e |}.

(** [run] around an arbitrary [try] block *)
Definition run_with (body : string -> M IntentResult) (description : string)
  : M IntentResult :=
  try_except (body description) (fun e => ret (fallback e)).

Definition run : string -> M IntentResult := run_with run_body.

End IntentExtractionTool.

(* ------------------------------------------------------------------ *)
(** ** [TimeframeParsingTool] *)

Record TimeframeResult : Type := {
  startDate : option string;
  endDate : option string;
  duration : Dict.t Z;
  milestones : list string;
  flexibility : string;
  extractedPhrases : list string;
  t_confidence : Q;
  t_error : option string
}.

Module TimeframeParsingTool.

Import Re.
Import IntentExtractionTool (findall_strs, stripped, found_in).

Definition month_names : list string :=
  ["january"; "february"; "march"; "april"; "may"; "june"; "july"; "august";
   "september"; "october"; "november"; "december"].

Definition ordinal_suffix : regex := Opt (words ["st"; "nd"; "rd"; "th"]).

Definition digits (lo hi : nat) : regex := Rep Digit lo (Some hi) true.

Definition clause_end : regex := alts [Lit "."; Eos; Lit ","].

Definition time_patterns : list regex :=
  [ seqs [WordB; words ["by"; "before"; "until"; "deadline"]; plus Space;
          Grp 1 (plus_lazy (NoneOf ".")); clause_end];
    seqs [WordB; words ["in"; "within"; "over"; "during"]; plus Space;
          Grp 1 (seqs [plus Digit; plus Space;
                       alts [opt_s "day"; opt_s "week"; opt_s "month";
                             opt_s "year"]])];
    seqs [WordB; words ["next"; "this"; "coming"]; plus Space;
          Grp 1 (words ["week"; "month"; "year"; "summer"; "winter";
                        "spring"; "fall"])];
    seqs [WordB; words month_names; plus Space; digits 1 2; ordinal_suffix;
          Opt (Lit ","); star Space; Rep Digit 4 (Some 4) false];
    seqs [WordB; digits 1 2; Lit "/"; digits 1 2; Lit "/"; digits 2 4; WordB];
    seqs [WordB; digits 1 2; Lit "-"; digits 1 2; Lit "-"; digits 2 4; WordB];
    seqs [WordB; words ["today"; "tomorrow"; "yesterday"]; WordB];
    seqs [WordB; words ["asap"; "immediately"; "soon"; "eventually"]; WordB] ].

Definition _extract_time_phrases (description : string) : list string :=
  stripped (findall_strs time_patterns (Py.lower description)).

Definition _month_name_to_number (month_name : string) : Z :=
  Dict.get_or (Py.lower month_name) 1%Z
    [ ("january", 1); ("february", 2); ("march", 3); ("april", 4);
      ("may", 5); ("june", 6); ("july", 7); ("august", 8);
      ("september", 9); ("october", 10); ("november", 11);
      ("december", 12) ]%Z.

Definition date_patterns : list regex :=
  [ seqs [WordB;
          Grp 1 (seqs [digits 1 2; Lit "/"; digits 1 2; Lit "/"; digits 2 4]);
          WordB];
    seqs [WordB;
          Grp 1 (seqs [digits 1 2; Lit "-"; digits 1 2; Lit "-"; digits 2 4]);
          WordB];
    seqs [WordB; Grp 1 (words month_names); plus Space; Grp 2 (digits 1 2);
          ordinal_suffix; Opt (Lit ","); star Space;
          Opt (Grp 3 (Rep Digit 4 (Some 4) true))] ].

(** the numeric branch of the [try] block: [MM/DD/YY(YY)] or [MM-DD-YY(YY)];
    a [Val None] is a match that assigns no date *)
Definition numeric_date (date_str : string) : result (option datetime) :=
  let parts :=
    if Py.contains "/" date_str then Py.split_on "/" date_str
    else Py.split_on "-" date_str in
  match parts with
  | [mth; d; y] =>
      let y := Py.int y in
      let y :=
        if (y <? 100)%Z then (y + (if (y <? 50)%Z then 2000 else 1900))%Z
        else y in
      match DT.make y (Py.int mth) (Py.int d) with
      | Val dt => Val (Some dt)
      | Raise e => Raise e
      end
  | _ => Val None
  end.

(** the [try] block run on one match *)
Definition date_of_match (current_year : Z) (mt : found)
  : result (option datetime) :=
  match mt with
  | FTuple [month_name; d; y] =>
      let month_num := _month_name_to_number month_name in
      let y := if String.eqb y "" then current_year else Py.int y in
      match DT.make y month_num (Py.int d) with
      | Val dt => Val (Some dt)
      | Raise e => Raise e
      end
  | FTuple (date_str :: _) => numeric_date date_str
  | FTuple [] => Raise (IndexError "tuple index out of range")
  | FStr date_str => numeric_date date_str
  end.

(** one turn of the inner loop: [except (ValueError, IndexError): continue] *)
Definition date_step (current_year : Z) (end_date : option datetime)
  (mt : found) : M (option datetime) :=
  match date_of_match current_year mt with
  | Val (Some dt) => ret (Some dt)
  | Val None => ret end_date
  | Raise (ValueError _) | Raise (IndexError _) => ret end_date
  | Raise e => raise e
  end.

Fixpoint date_loop (current_year : Z) (end_date : option datetime)
  (matches : list found) : M (option datetime) :=
  match matches with
  | [] => ret end_date
  | mt :: rest =>
      end_date <- date_step current_year end_date mt ;;
      date_loop current_year end_date rest
  end.

Definition relative_cue (phrase : string) : regex :=
  seqs [WordB; Lit phrase; WordB].

Definition in_pattern (unit : string) : regex :=
  seqs [WordB; Lit "in"; plus Space; Grp 1 (plus Digit); plus Space;
        opt_s unit; WordB].

Fixpoint first_cue (table : list (regex * datetime)) (text : string)
  : option datetime :=
  match table with
  | [] => None
  | (r, date_value) :: rest =>
      if found_in r text then Some date_value else first_cue rest text
  end.

Definition _parse_relative_dates (description : string)
  : M (option datetime) :=
  t <- now ;;
  (* the dictionary [relative_patterns], its values evaluated in order *)
  tomorrow <- lift (DT.add_days t 1) ;;
  next_week <- lift (DT.add_days t (1 * 7)) ;;
  this_week <- lift (DT.add_days t (7 - DT.weekday t)) ;;
  next_month <- lift (DT.add_days t 30) ;;
  this_month <- lift (DT.replace t (year t) (month t) 28) ;;
  next_year <- lift (DT.replace t (year t + 1) (month t) (day t)) ;;
  this_year <- lift (DT.replace t (year t) 12 31) ;;
  let relative_patterns :=
    [ (relative_cue "today", t);
      (relative_cue "tomorrow", tomorrow);
      (relative_cue "next week", next_week);
      (relative_cue "this week", this_week);
      (relative_cue "next month", next_month);
      (relative_cue "this month", this_month);
      (relative_cue "next year", next_year);
      (relative_cue "this year", this_year) ] in
  match first_cue relative_patterns (Py.lower description) with
  | Some date_value => ret (Some date_value)
  | None =>
      match search (in_pattern "day") (Py.lower description) with
      | Some x =>
          n <- lift (int_limited (group 1 x)) ;;
          d <- lift (DT.add_days t n) ;; ret (Some d)
      | None =>
      match search (in_pattern "week") (Py.lower description) with
      | Some x =>
          n <- lift (int_limited (group 1 x)) ;;
          d <- lift (DT.add_days t (n * 7)) ;; ret (Some d)
      | None =>
      match search (in_pattern "month") (Py.lower description) with
      | Some x =>
          n <- lift (int_limited (group 1 x)) ;;
          d <- lift (DT.add_days t (n * 30)) ;; ret (Some d)
      | None => ret None
      end end end
  end.

Definition _parse_dates (description : string) (phrases : list string)
  : M (option datetime * option datetime) :=
  let start_date : option datetime := None in
  t <- now ;;
  let current_year := year t in
  end_date <-
    date_loop current_year None
      (flat_map (fun r => findall r (Py.lower description)) date_patterns) ;;
  end_date <-
    match end_date with
    | Some _ => ret end_date
    | None => _parse_relative_dates description
    end ;;
  match end_date, start_date with
  | Some _, None => t' <- now ;; ret (Some t', end_date)
  | _, _ => ret (start_date, end_date)
  end.

Definition duration_patterns : list (regex * string) :=
  [ (seqs [Grp 1 (plus Digit); star Space; opt_s "hour"], "hours");
    (seqs [Grp 1 (plus Digit); star Space; opt_s "day"], "days");
    (seqs [Grp 1 (plus Digit); star Space; opt_s "week"], "weeks");
    (seqs [Grp 1 (plus Digit); star Space; opt_s "month"], "months");
    (seqs [Grp 1 (plus Digit); star Space; opt_s "year"], "years") ].

(** one turn of the loop filling the dictionary [duration] *)
Definition scan_step (description : string) (dur : result (Dict.t Z))
  (entry : regex * string) : result (Dict.t Z) :=
  let '(pattern, unit) := entry in
  match dur with
  | Raise e => Raise e
  | Val dur =>
      match findall pattern (Py.lower description) with
      | mt :: _ =>
          match int_limited (found_str mt) with
          | Val n => Val (Dict.set unit n dur)
          | Raise e => Raise e
          end
      | [] => Val dur
      end
  end.

Definition scan_durations (description : string) : result (Dict.t Z) :=
  fold_left (scan_step description) duration_patterns (Val []).

(** [total_days += hours / 24], a float from here on, and the dictionary
    returned for it: the quotient is taken first, then the integer is
    converted, then the two doubles are added *)
Definition days_of (total_days hours : Z) : result (Dict.t Z) :=
  match B64.true_div hours 24 with
  | Raise e => Raise e
  | Val quotient =>
      match B64.of_int total_days with
      | Raise e => Raise e
      | Val whole =>
          let total_days := B64.add whole quotient in
          if B64.positive total_days
          then
            match B64.to_int total_days with
            | Val n => Val [("days", n)]
            | Raise e => Raise e
            end
          else Val []
      end
  end.

Definition _extract_duration (description : string) : result (Dict.t Z) :=
  match scan_durations description with
  | Raise e => Raise e
  | Val [] => Val []
  | Val dur =>
      let total_days := 0%Z in
      let total_days := (total_days + Dict.get_or "days" 0 dur)%Z in
      let total_days := (total_days + Dict.get_or "weeks" 0 dur * 7)%Z in
      let total_days := (total_days + Dict.get_or "months" 0 dur * 30)%Z in
      let total_days := (total_days + Dict.get_or "years" 0 dur * 365)%Z in
      days_of total_days (Dict.get_or "hours" 0%Z dur)
  end.

Definition milestone_patterns : list regex :=
  [ seqs [words ["milestone"; "checkpoint"; "phase"; "step"]; star Space;
          star Digit; Opt (Lit ":"); star Space;
          Grp 1 (plus_lazy (NoneOf ".")); clause_end];
    seqs [words ["first"; "second"; "third"; "then"; "next"; "finally"];
          plus Space; Grp 1 (plus_lazy (NoneOf ".")); clause_end];
    seqs [alts [seqs [Lit "by"; plus Space; plus Word; plus Space; plus Digit];
                seqs [Lit "in"; plus Space; plus Digit; plus Space; plus Word]];
          plus Space; Grp 1 (plus_lazy (NoneOf ".")); clause_end] ].

Definition _extract_milestones (description : string) : list string :=
  let milestones :=
    flat_map
      (fun r => stripped (map found_str (findall r (Py.lower description))))
      milestone_patterns in
  firstn 5 milestones.

Definition fixed_indicators : list string :=
  ["deadline"; "must"; "required"; "due"; "exactly"; "precisely"].
Definition flexible_indicators : list string :=
  ["around"; "approximately"; "roughly"; "about"; "flexible"; "when possible"].
Definition very_flexible_indicators : list string :=
  ["eventually"; "someday"; "whenever"; "no rush"; "no hurry"].

Definition _determine_flexibility (description : string) : string :=
  let description_lower := Py.lower description in
  if Py.any_in very_flexible_indicators description_lower then "very_flexible"
  else if Py.any_in flexible_indicators description_lower then "flexible"
  else if Py.any_in fixed_indicators description_lower then "fixed"
  else "flexible".

Definition is_some {A} (o : option A) : bool :=
  match o with
  | Some _ => true
  | None => false
  end.

Definition _calculate_timeframe_confidence (phrases : list string)
  (start_date end_date : option datetime) : Q :=
  let confidence := (3 # 10)%Q in
  let confidence :=
    match phrases with
    | [] => confidence
    | _ => F.add confidence (2 # 10)
    end in
  let confidence :=
    if (1 <? List.length phrases)%nat then F.add confidence (1 # 10)
    else confidence in
  let confidence :=
    if is_some start_date then F.add confidence (2 # 10) else confidence in
  let confidence :=
    if is_some end_date then F.add confidence (2 # 10) else confidence in
  F.min 1 confidence.

(** the body of the [try] block of [run] *)
Definition run_body (description : string) : M TimeframeResult :=
  let extracted_phrases := _extract_time_phrases description in
  dates <- _parse_dates description extracted_phrases ;;
  let '(start_date, end_date) := dates in
  dur <- lift (_extract_duration description) ;;
  let ms := _extract_milestones description in
  let flex := _determine_flexibility description in
  ret {| startDate := option_map DT.isoformat start_date;
         endDate := option_map DT.isoformat end_date;
         duration := dur;
         milestones := ms;
         flexibility := flex;
         extractedPhrases := extracted_phrases;
         t_confidence :=
           _calculate_timeframe_confidence extracted_phrases start_date
             end_date;
         t_error := None |}.

(** the result of the [except] block of [run] *)
Definition fallback (e : exn) : TimeframeResult :=
  {| startDate := None; endDate := None; duration := [("days", 30%Z)];
     milestones := []; flexibility := "flexible"; extractedPhrases := [];
     t_confidence := (2 # 10)%Q; t_error := Some (str_exn e) |}.

Definition run_with (body : string -> M TimeframeResult)
  (description : string) : M TimeframeResult :=
  try_except (body description) (fun e => ret (fallback e)).

Definition run : string -> M TimeframeResult := run_with run_body.

End TimeframeParsingTool.

(* ------------------------------------------------------------------ *)
(** ** [MetricsIdentificationTool] *)

(** One metric.  Its [reasoning] text is left out: for an explicit metric it
    interpolates the [repr] of a float. *)
Record MetricRecord : Type := {
  name : string;
  unit : string;
  targetValue : Q;
  currentValue : Q;
  confidence : string
}.

Record MetricsResult : Type := {
  metrics : list MetricRecord;
  m_confidence : Q;
  m_reasoning : string
}.

Module MetricsIdentificationTool.

Import Re.

(** [\d+(?:\.\d+)?] *)
Definition number : regex :=
  seqs [plus Digit; Opt (seqs [Lit "."; plus Digit])].

Definition quantity (units : regex) : regex :=
  seqs [Grp 1 number; star Space; Grp 2 units].

Definition numeric_patterns : list (regex * string * string) :=
  [ (quantity (alts [opt_s "pound"; opt_s "lb"; Lit "kg"; opt_s "kilogram"]),
     "weight", "lbs");
    (quantity (alts [opt_s "mile"; Lit "km"; opt_s "kilometer"]),
     "distance", "miles");
    (quantity (alts [opt_s "hour"; opt_s "hr"]), "time", "hours");
    (quantity (alts [opt_s "minute"; opt_s "min"]), "time", "minutes");
    (quantity (alts [opt_s "dollar"; Lit "$"; Lit "USD"]), "money", "dollars");
    (seqs [Grp 1 number; star Space; alts [Lit "%"; Lit "percent"]],
     "percentage", "percent");
    (quantity (alts [opt_s "time"; opt_s "rep"; opt_s "repetition"]),
     "count", "times");
    (quantity (alts [opt_s "page"; opt_s "chapter"; opt_s "book"]),
     "reading", "pages");
    (quantity (alts [opt_s "word"; opt_s "character"]), "writing", "words") ].

Definition char_str (c : ascii) : string := String c "".

(** [match[0]] and [match[1] if len(match) > 1 else unit]: on a tuple the
    first two groups, on a string its first two characters *)
Definition value_and_unit (mt : found) (default_unit : string)
  : result (string * string) :=
  match mt with
  | FTuple (v :: u :: _) => Val (v, u)
  | FTuple [v] => Val (v, default_unit)
  | FTuple [] => Raise (IndexError "tuple index out of range")
  | FStr (String c0 (String c1 _)) => Val (char_str c0, char_str c1)
  | FStr (String c0 EmptyString) => Val (char_str c0, default_unit)
  | FStr EmptyString => Raise (IndexError "string index out of range")
  end.

Definition explicit_metric (metric_type : string) (vu : string * string)
  : MetricRecord :=
  {| name := metric_type ++ "_target"; unit := snd vu;
     targetValue := Py.float (fst vu); currentValue := 0;
     confidence := "high" |}.

(** the inner loop over the matches of one pattern *)
Fixpoint explicit_loop (metric_type default_unit : string)
  (matches : list found) (acc : list MetricRecord)
  : result (list MetricRecord) :=
  match matches with
  | [] => Val acc
  | mt :: rest =>
      match value_and_unit mt default_unit with
      | Val vu =>
          explicit_loop metric_type default_unit rest
            (acc ++ [explicit_metric metric_type vu])
      | Raise e => Raise e
      end
  end.

(** the outer loop over [numeric_patterns] *)
Fixpoint numeric_loop (patterns : list (regex * string * string))
  (text : string) (acc : list MetricRecord) : result (list MetricRecord) :=
  match patterns with
  | [] => Val acc
  | (pattern, metric_type, default_unit) :: rest =>
      match explicit_loop metric_type default_unit (findall pattern text) acc
      with
      | Val acc' => numeric_loop rest text acc'
      | Raise e => Raise e
      end
  end.

Definition implicit (nm un : string) (target : Q) : MetricRecord :=
  {| name := nm; unit := un; targetValue := target; currentValue := 0;
     confidence := "medium" |}.

Definition _identify_implicit_metrics (description : string)
  : list MetricRecord :=
  let description_lower := Py.lower description in
  let metrics := [] in
  let metrics :=
    if Py.any_in ["workout"; "exercise"; "fitness"; "gym"; "working"; "shape"]
         description_lower
    then metrics ++ [implicit "workout_sessions" "sessions" 12] else metrics in
  let metrics :=
    if Py.any_in ["learn"; "study"; "course"; "skill"] description_lower
    then metrics ++ [implicit "study_hours" "hours" 20] else metrics in
  let metrics :=
    if Py.any_in ["read"; "book"; "chapter"] description_lower
    then metrics ++ [implicit "books_read" "books" 1] else metrics in
  let metrics :=
    if Py.any_in ["daily"; "habit"; "routine"; "every day"] description_lower
    then metrics ++ [implicit "consecutive_days" "days" 30] else metrics in
  let metrics :=
    if Py.any_in ["project"; "build"; "create"; "complete"] description_lower
    then metrics ++ [implicit "completion_percentage" "percent" 100]
    else metrics in
  metrics.

Definition _suggest_default_metrics (description : string)
  : list MetricRecord :=
  [ {| name := "progress_score"; unit := "points"; targetValue := 100;
       currentValue := 0; confidence := "low" |} ].

Definition confidence_scores : Dict.t Q :=
  [("high", (9 # 10)%Q); ("medium", (6 # 10)%Q); ("low", (3 # 10)%Q)].

(** [sum(...)] of floats, from [0] *)
Definition fsum (xs : list Q) : Q := fold_left F.add xs 0%Q.

Definition _calculate_metrics_confidence (ms : list MetricRecord) : Q :=
  match ms with
  | [] => 0%Q
  | _ =>
      let total_confidence :=
        fsum (map (fun metric =>
                     Dict.get_or (confidence metric) (3 # 10)%Q
                       confidence_scores) ms) in
      F.min 1 (F.div total_confidence (F.of_nat (List.length ms)))
  end.

(** the body of the [try] block of [run] *)
Definition run_body (description : string) : M MetricsResult :=
  explicit <- lift (numeric_loop numeric_patterns (Py.lower description) []) ;;
  let ms := explicit ++ _identify_implicit_metrics description in
  let ms :=
    match ms with
    | [] => _suggest_default_metrics description
    | _ => ms
    end in
  ret {| metrics := firstn 5 ms;
         m_confidence := _calculate_metrics_confidence ms;
         m_reasoning :=
           "Identified " ++ Py.str_of_nat (List.length ms)
           ++ " measurable metrics from the description" |}.

Definition fallback_metric : MetricRecord :=
  {| name := "completion_status"; unit := "percent"; targetValue := 100;
     currentValue := 0; confidence := "low" |}.

(** the result of the [except] block of [run] *)
Definition fallback (e : exn) : MetricsResult :=
  {| metrics := [fallback_metric]; m_confidence := (2 # 10)%Q;
     m_reasoning := "Used fallback metrics due to processing error" |}.

Definition run_with (body : string -> M MetricsResult) (description : string)
  : M MetricsResult :=
  try_except (body description) (fun e => ret (fallback e)).

Definition run : string -> M MetricsResult := run_with run_body.

End MetricsIdentificationTool.

(* ------------------------------------------------------------------ *)
(** ** [ConstraintExtractionTool] *)

Record ConstraintRecord : Type := {
  constraint : string;
  category : string;
  severity : string
}.

Record ConstraintsResult : Type := {
  constraints : list ConstraintRecord;
  categories : Dict.t (list string);
  total_count : nat;
  c_confidence : Q;
  c_reasoning : string
}.

Module ConstraintExtractionTool.

Import Re.
Import IntentExtractionTool (stripped).

Definition rest_of_sentence : regex := plus (NoneOf ".").
Definition rest_of_sentence0 : regex := star (NoneOf ".").

(** [lead\s+(clause)] *)
Definition after (lead : list string) (clause : regex) : regex :=
  seqs [words lead; plus Space; Grp 1 clause].

(** [lead\s+(?:link)\s+(clause)] *)
Definition after2 (lead : list regex) (link : list regex) (clause : regex)
  : regex :=
  seqs [alts lead; plus Space; alts link; plus Space; Grp 1 clause].

(** [[match.strip() for match in matches if match.strip()]] over the
    matches of each pattern in turn *)
Definition extract (patterns : list regex) (description : string)
  : list string :=
  flat_map
    (fun r => stripped (map found_str (findall r (Py.lower description))))
    patterns.

(** the same loop when a pattern may have several groups: tuples are joined
    with blanks and kept as they are *)
Definition is_tuple (f : found) : bool :=
  match f with
  | FTuple _ => true
  | FStr _ => false
  end.

Definition extract_joined (patterns : list regex) (description : string)
  : list string :=
  flat_map
    (fun r =>
       let matches := findall r (Py.lower description) in
       match matches with
       | first :: _ =>
           if is_tuple first then map found_str matches
           else stripped (map found_str matches)
       | [] => stripped (map found_str matches)
       end)
    patterns.

Definition time_constraint_patterns : list regex :=
  [ after ["only"; "just"]
      (seqs [plus Digit; plus Space;
             alts [opt_s "hour"; opt_s "minute"; opt_s "day"]; plus Space;
             words ["per"; "each"; "a"]; plus Space; plus Word]);
    after2 [Lit "limited"; Lit "restricted"] [Lit "to"; Lit "by"]
      (seqs [plus (NoneOf "."); Lit "time"; star (NoneOf ".")]);
    after ["busy"; "occupied"; "unavailable"] rest_of_sentence;
    after ["deadline"; "due"] rest_of_sentence;
    Grp 1 (seqs [plus Digit; plus Space; opt_s "hour"; plus Space; Lit "per";
                 plus Space; plus Word]) ].

Definition _extract_time_constraints : string -> list string :=
  extract time_constraint_patterns.

Definition resource_constraint_patterns : list regex :=
  [ after2 [Lit "budget"; Lit "money"; Lit "cost"]
      [Lit "of"; Lit "is"; Lit "limited to"] rest_of_sentence;
    after ["no"; "without"; "lack of"; "limited"]
      (words ["money"; "budget"; "funds"; "equipment"; "tools"; "resources"]);
    after ["can't afford"; "too expensive"; "costly"] rest_of_sentence;
    seqs [words ["need"; "require"; "must have"]; plus Space;
          Grp 1 (words ["equipment"; "tools"; "resources"; "materials"]);
          plus Space; Grp 2 rest_of_sentence] ].

Definition _extract_resource_constraints : string -> list string :=
  extract_joined resource_constraint_patterns.

Definition skill_constraint_patterns : list regex :=
  [ after ["don't know"; "never"; "no experience"; "beginner"; "new to"]
      rest_of_sentence;
    after ["need to learn"; "must learn"; "have to study"] rest_of_sentence;
    seqs [words ["lack"; "missing"; "without"]; plus Space;
          Grp 1 (alts [opt_s "skill"; Lit "knowledge"; Lit "experience"]);
          plus Space; Grp 2 rest_of_sentence0];
    after2 [Lit "difficult"; Lit "hard"; Lit "challenging"]
      [Lit "because"; Lit "since"] rest_of_sentence ].

Definition _extract_skill_constraints : string -> list string :=
  extract_joined skill_constraint_patterns.

Definition external_constraint_patterns : list regex :=
  [ after ["depends on"; "waiting for"; "need approval from"] rest_of_sentence;
    after2 [Lit "weather"; Lit "season"; Lit "location"]
      [Lit "dependent"; Lit "specific"; Lit "limited"] rest_of_sentence0;
    after2 [Lit "others"; Lit "family"; Lit "work"; Lit "job"]
      [opt_s "prevent"; opt_s "limit"; opt_s "restrict"] rest_of_sentence0;
    after2 [Lit "availability"; Lit "schedule"; Lit "calendar"]
      [opt_s "conflict"; opt_s "issue"] rest_of_sentence0 ].

Definition _extract_external_constraints : string -> list string :=
  extract external_constraint_patterns.

Definition personal_constraint_patterns : list regex :=
  [ after2 [Lit "afraid"; Lit "scared"; Lit "worried"; Lit "anxious"]
      [Lit "of"; Lit "about"; Lit "that"] rest_of_sentence;
    after2 [Lit "health"; Lit "medical"; Lit "physical"]
      [opt_s "issue"; opt_s "problem"; opt_s "limitation"] rest_of_sentence0;
    after2 [Lit "motivation"; Lit "discipline"; Lit "willpower"]
      [opt_s "issue"; opt_s "problem"; Lit "lack"] rest_of_sentence0;
    after ["procrastination"; "lazy"; "unmotivated"] rest_of_sentence0 ].

Definition _extract_personal_constraints : string -> list string :=
  extract personal_constraint_patterns.

Definition high_severity_words : list string :=
  ["impossible"; "never"; "can't"; "unable"; "critical"; "major"].
Definition medium_severity_words : list string :=
  ["difficult"; "challenging"; "limited"; "restricted"; "problem"].

Definition _assess_constraint_severity (c description : string) : string :=
  let constraint_lower := Py.lower c in
  if Py.any_in high_severity_words constraint_lower then "high"
  else if Py.any_in medium_severity_words constraint_lower then "medium"
  else "low".

Definition _calculate_constraint_confidence (cs : list ConstraintRecord) : Q :=
  match cs with
  | [] => (3 # 10)%Q
  | _ =>
      let base_confidence := (5 # 10)%Q in
      let constraint_bonus :=
        F.min (4 # 10) (F.mul (F.of_nat (List.length cs)) (1 # 10)) in
      F.min 1 (F.add base_confidence constraint_bonus)
  end.

(** the dictionary [constraints] of the five categories *)
Definition by_category (description : string) : Dict.t (list string) :=
  [ ("time_constraints", _extract_time_constraints description);
    ("resource_constraints", _extract_resource_constraints description);
    ("skill_constraints", _extract_skill_constraints description);
    ("external_constraints", _extract_external_constraints description);
    ("personal_constraints", _extract_personal_constraints description) ].

(** the flattening loop *)
Definition flatten (description : string) (cats : Dict.t (list string))
  : list ConstraintRecord :=
  flat_map
    (fun '(cat, constraint_list) =>
       map (fun c =>
              {| constraint := c; category := cat;
                 severity := _assess_constraint_severity c description |})
           constraint_list)
    cats.

Definition nonempty {A} (l : list A) : bool :=
  match l with
  | [] => false
  | _ => true
  end.

(** the body of the [try] block of [run] *)
Definition run_body (description : string) : M ConstraintsResult :=
  let cats := by_category description in
  let all_constraints := flatten description cats in
  ret {| constraints := all_constraints;
         categories := cats;
         total_count := List.length all_constraints;
         c_confidence := _calculate_constraint_confidence all_constraints;
         c_reasoning :=
           "Identified " ++ Py.str_of_nat (List.length all_constraints)
           ++ " constraints across "
           ++ Py.str_of_nat
                (List.length (filter nonempty (map snd cats)))
           ++ " categories" |}.

(** the result of the [except] block of [run] *)
Definition fallback (e : exn) : ConstraintsResult :=
  {| constraints := []; categories := []; total_count := 0;
     c_confidence := (2 # 10)%Q;
     c_reasoning := "Error extracting constraints: " ++ str_exn e |}.

Definition run_with (body : string -> M ConstraintsResult)
  (description : string) : M ConstraintsResult :=
  try_except (body description) (fun e => ret (fallback e)).

Definition run : string -> M ConstraintsResult := run_with run_body.

End ConstraintExtractionTool.

(* ------------------------------------------------------------------ *)
(** ** [NLPAgent] *)

Record AnalysisReport : Type := {
  original_description : string;
  intent : IntentResult;
  timeframe : TimeframeResult;
  metrics_analysis : MetricsResult;
  constraints_analysis : ConstraintsResult;
  overall_confidence : Q;
  processing_timestamp : string;
  agent_version : string;
  a_error : option string;
  summary : string;
  recommendations : list string
}.

Module NLPAgent.

Definition _calculate_overall_confidence (i : IntentResult)
  (t : TimeframeResult) (m : MetricsResult) (c : ConstraintsResult) : Q :=
  let confidences :=
    [i_confidence i; t_confidence t; m_confidence m; c_confidence c] in
  F.div (MetricsIdentificationTool.fsum confidences)
        (F.of_nat (List.length confidences)).

Definition _generate_analysis_summary (i : IntentResult)
  (t : TimeframeResult) (m : MetricsResult) (overall : Q) : string :=
  let summary_parts :=
    [ ("Goal classified as " ++ domain i ++ " domain with action '"
       ++ action i ++ "'")%string ] in
  let summary_parts :=
    match endDate t with
    | Some (String c rest) =>
        summary_parts ++ [("Target completion by " ++ String c rest)%string]
    | _ =>
        match duration t with
        | [] => summary_parts
        | dur =>
            match Dict.get "days" dur with
            | Some days =>
                summary_parts
                ++ [("Estimated duration: " ++ Py.str_of_Z days
                     ++ " days")%string]
            | None => summary_parts
            end
        end
    end in
  let metric_count := List.length (metrics m) in
  let summary_parts :=
    if (0 <? metric_count)%nat
    then summary_parts
         ++ [("Identified " ++ Py.str_of_nat metric_count
              ++ " measurable metrics")%string]
    else summary_parts in
  let confidence_level :=
    if F.ltb (7 # 10) overall then "high"
    else if F.ltb (4 # 10) overall then "medium" else "low" in
  let summary_parts :=
    summary_parts
    ++ [("Overall analysis confidence: " ++ confidence_level)%string] in
  (Py.join ". " summary_parts ++ ".")%string.

Definition _generate_recommendations (i : IntentResult)
  (t : TimeframeResult) (m : MetricsResult) (c : ConstraintsResult)
  : list string :=
  let recommendations := [] in
  let recommendations :=
    if F.ltb (i_confidence i) (6 # 10)
    then recommendations
         ++ ["Consider providing more specific details about what you want to achieve"]
    else recommendations in
  let recommendations :=
    if F.ltb (t_confidence t) (6 # 10)
    then recommendations
         ++ ["Add specific deadlines or timeframes to make the goal more time-bound"]
    else recommendations in
  let recommendations :=
    if F.ltb (m_confidence m) (6 # 10)
    then recommendations
         ++ ["Include measurable outcomes or success criteria"]
    else recommendations in
  let recommendations :=
    if (total_count c =? 0)%nat
    then recommendations
         ++ ["Consider potential obstacles or constraints that might affect your goal"]
    else recommendations in
  let recommendations :=
    if String.eqb (domain i) "fitness"
    then recommendations
         ++ ["Consider tracking specific metrics like workout frequency or performance improvements"]
    else if String.eqb (domain i) "learning"
    then recommendations
         ++ ["Break down the learning goal into specific skills or knowledge areas"]
    else if String.eqb (domain i) "career"
    then recommendations
         ++ ["Define specific career milestones or skill developments"]
    else recommendations in
  firstn 5 recommendations.

Definition _create_fallback_analysis (description error : string)
  : M AnalysisReport :=
  t <- now ;;
  ret {| original_description := description;
         intent :=
           {| domain := "projects"; action := "achieve";
              outcome := "goal completion"; context := [];
              urgency := "medium"; i_confidence := (2 # 10)%Q;
              i_reasoning := "Fallback analysis due to error: " ++ error |};
         timeframe :=
           {| startDate := None; endDate := None;
              duration := [("days", 30%Z)]; milestones := [];
              flexibility := "flexible"; extractedPhrases := [];
              t_confidence := (2 # 10)%Q; t_error := None |};
         metrics_analysis :=
           {| metrics := [MetricsIdentificationTool.fallback_metric];
              m_confidence := (2 # 10)%Q;
              m_reasoning := "Fallback metrics due to processing error" |};
         constraints_analysis :=
           {| constraints := []; categories := []; total_count := 0;
              c_confidence := (2 # 10)%Q;
              c_reasoning :=
                "No constraints identified due to processing error" |};
         overall_confidence := (2 # 10)%Q;
         processing_timestamp := DT.isoformat t;
         agent_version := "1.0.0";
         a_error := Some error;
         summary :=
           "Analysis failed due to technical error. Manual review recommended.";
         recommendations :=
           ["Retry analysis with simplified description";
            "Consider manual goal creation"] |}.

(** the body of the [try] block of [process_goal_description] *)
Definition process_body (description : string) : M AnalysisReport :=
  intent_analysis <- IntentExtractionTool.run description ;;
  timeframe_analysis <- TimeframeParsingTool.run description ;;
  metrics_analysis <- MetricsIdentificationTool.run description ;;
  constraints_analysis <- ConstraintExtractionTool.run description ;;
  let overall :=
    _calculate_overall_confidence intent_analysis timeframe_analysis
      metrics_analysis constraints_analysis in
  t <- now ;;
  ret {| original_description := description;
         intent := intent_analysis;
         timeframe := timeframe_analysis;
         metrics_analysis := metrics_analysis;
         constraints_analysis := constraints_analysis;
         overall_confidence := overall;
         processing_timestamp := DT.isoformat t;
         agent_version := "1.0.0";
         a_error := None;
         summary :=
           _generate_analysis_summary intent_analysis timeframe_analysis
             metrics_analysis overall;
         recommendations :=
           _generate_recommendations intent_analysis timeframe_analysis
             metrics_analysis constraints_analysis |}.

Definition process_with (body : string -> M AnalysisReport)
  (description : string) : M AnalysisReport :=
  try_except (body description)
    (fun e => _create_fallback_analysis description (str_exn e)).

Definition process_goal_description : string -> M AnalysisReport :=
  process_with process_body.

Definition extract_intent_only : string -> M IntentResult :=
  IntentExtractionTool.run.
Definition extract_timeframe_only : string -> M TimeframeResult :=
  TimeframeParsingTool.run.
Definition extract_metrics_only : string -> M MetricsResult :=
  MetricsIdentificationTool.run.
Definition extract_constraints_only : string -> M ConstraintsResult :=
  ConstraintExtractionTool.run.

End NLPAgent.

(* ------------------------------------------------------------------ *)
(** ** Sample worlds *)

Module Sample.

(** a clock at nine in the morning of the given day that advances by one
    microsecond at each reading *)
Definition ticking (y mth d : Z) : world :=
  {| clock := fun n =>
       {| year := y; month := mth; day := d; hour := 9; minute := 0;
          second := 0; microsecond := Z.of_nat n |};
     ticks := 0 |}.

Definition monday : world := ticking 2025 3 10.
Definition leap_day : world := ticking 2028 2 29.

Definition failing {A} (description : string) : M A :=
  raise (OtherError "boom").

(** a count of 309 digits: [10^308] *)
Definition huge_count : string :=
  String "1"%char (Py.join "" (repeat "0" 308)).

End Sample.

(* ------------------------------------------------------------------ *)
(** ** The model on the examples of the specification *)

Module Examples.

Example marathon_intent :
  returns (fun r => domain r = "fitness" /\ action r = "run")
    (IntentExtractionTool.run
       "I want to run a marathon by October and lose 20 pounds"
       Sample.monday).
Proof. vm_compute. split; reflexivity. Qed.

Example weight_and_distance :
  returns
    (fun r =>
       map (fun m => (name m, unit m, targetValue m)) (metrics r)
       = [ ("weight_target", "pounds", 15%Q);
           ("distance_target", "miles", 5%Q);
           ("consecutive_days", "days", 30%Q) ])
    (MetricsIdentificationTool.run "Lose 15 pounds and run 5 miles daily"
       Sample.monday).
Proof. vm_compute. reflexivity. Qed.

Example deadline_is_fixed :
  TimeframeParsingTool._determine_flexibility
    "Must be completed by the deadline of March 1st" = "fixed".
Proof. vm_compute. reflexivity. Qed.

Example whenever_is_very_flexible :
  TimeframeParsingTool._determine_flexibility
    "Finish this eventually, whenever possible" = "very_flexible".
Proof. vm_compute. reflexivity. Qed.

Example empty_description :
  returns
    (fun a => overall_confidence a = (3 # 10)%Q /\ a_error a = None /\
              List.length (recommendations a) = 4%nat)
    (NLPAgent.process_goal_description "" Sample.monday).
Proof. vm_compute. repeat split. Qed.

(** a percentage is read from a one-group pattern, whose match is a string:
    [match[0]] and [match[1]] are then its first two characters *)
Example percentage_by_characters :
  returns
    (fun r =>
       map (fun m => (name m, unit m, targetValue m)) (metrics r)
       = [("percentage_target", "5", 1%Q)])
    (MetricsIdentificationTool.run "Grow revenue by 15%" Sample.monday).
Proof. vm_compute. reflexivity. Qed.

End Examples.

(* ------------------------------------------------------------------ *)
(** * Properties *)

(** ** The monad *)

Lemma returns_inv {A} (P : A -> Prop) (c : result A * world) :
  returns P c -> exists a w, c = (Val a, w) /\ P a.
Proof.
  destruct c as [[a | e] w]; unfold returns; simpl; intro H.
  - exists a, w. split; [reflexivity | exact H].
  - contradiction.
Qed.

Lemma returns_impl {A} (P Q : A -> Prop) (c : result A * world) :
  (forall a, P a -> Q a) -> returns P c -> returns Q c.
Proof.
  intros HPQ. destruct c as [[a | e] w]; unfold returns; simpl; auto.
Qed.

(** A [try] block whose handler returns a value always returns a value:
    the body's on the normal path, the handler's otherwise. *)
Lemma try_except_returns {A} (P : A -> Prop) (body : M A) (fb : exn -> A) w :
  (forall a w', body w = (Val a, w') -> P a) ->
  (forall e, P (fb e)) ->
  returns P (try_except body (fun e => ret (fb e)) w).
Proof.
  intros Hbody Hfb. unfold try_except, returns, ret.
  destruct (body w) as [[a | e] w'] eqn:E; simpl.
  - eapply Hbody; reflexivity.
  - apply Hfb.
Qed.

Lemma try_except_val {A} (body : M A) (h : exn -> M A) w a w' :
  body w = (Val a, w') -> try_except body h w = (Val a, w').
Proof. intro E. unfold try_except. rewrite E. reflexivity. Qed.

Lemma try_except_raise {A} (body : M A) (h : exn -> M A) w e w' :
  body w = (Raise e, w') -> try_except body h w = h e w'.
Proof. intro E. unfold try_except. rewrite E. reflexivity. Qed.

(* ------------------------------------------------------------------ *)
(** ** Domain classification *)

Section FirstMax.

Context {A : Type} (key : A -> nat).

(** [x] is the first element of [xs] whose key is maximal. *)
Definition first_max (xs : list A) (x : A) : Prop :=
  exists before after,
    xs = before ++ x :: after /\
    (forall y, In y before -> (key y < key x)%nat) /\
    (forall y, In y after -> (key y <= key x)%nat).

Lemma first_max_bound xs x y :
  first_max xs x -> In y xs -> (key y <= key x)%nat.
Proof.
  intros (before & after & -> & Hb & Ha) Hin.
  apply in_app_or in Hin. destruct Hin as [Hin | [<- | Hin]].
  - apply Nat.lt_le_incl, Hb, Hin.
  - apply Nat.le_refl.
  - apply Ha, Hin.
Qed.

Lemma max_by_aux_first_max xs :
  forall best, first_max (best :: xs) (Py.max_by_aux key best xs).
Proof.
  induction xs as [| x xs IH]; intro best; simpl.
  - exists [], []. repeat split; simpl; intros; contradiction.
  - destruct (key best <? key x)%nat eqn:E.
    + apply Nat.ltb_lt in E.
      pose proof (IH x) as Hx.
      assert (Hle : (key x <= key (Py.max_by_aux key x xs))%nat)
        by (eapply first_max_bound; [exact Hx | left; reflexivity]).
      remember (Py.max_by_aux key x xs) as mx eqn:Emx. clear Emx.
      destruct Hx as (before & after & Heq & Hb & Ha).
      exists (best :: before), after. split; [| split].
      * simpl. rewrite Heq. reflexivity.
      * intros y [<- | Hin]; [lia | apply Hb, Hin].
      * exact Ha.
    + apply Nat.ltb_ge in E.
      pose proof (IH best) as Hx.
      remember (Py.max_by_aux key best xs) as mx eqn:Emx. clear Emx.
      destruct Hx as (before & after & Heq & Hb & Ha).
      destruct before as [| b before]; simpl in Heq;
        injection Heq as Hhead Htail.
      * subst mx after. exists [], (x :: xs). split; [| split].
        -- reflexivity.
        -- intros y [].
        -- intros y [<- | Hin]; [exact E | apply Ha, Hin].
      * subst b xs.
        assert (Hlt : (key best < key mx)%nat) by (apply Hb; left; reflexivity).
        exists (best :: x :: before), after. split; [| split].
        -- reflexivity.
        -- intros y [<- | [<- | Hin]]; [exact Hlt | lia |].
           apply Hb. right. exact Hin.
        -- exact Ha.
Qed.

Lemma max_by_first_max xs x :
  Py.max_by key xs = Some x -> first_max xs x.
Proof.
  destruct xs as [| y ys]; simpl; intro H; [discriminate |].
  injection H as <-. apply max_by_aux_first_max.
Qed.

End FirstMax.

Lemma filter_split {A} (p : A -> bool) (xs : list A) :
  forall l1 x l2,
    filter p xs = l1 ++ x :: l2 ->
    exists xs1 xs2,
      xs = xs1 ++ x :: xs2 /\ filter p xs1 = l1 /\ filter p xs2 = l2.
Proof.
  induction xs as [| a xs IH]; intros l1 x l2 H; simpl in H.
  - destruct l1; discriminate.
  - destruct (p a) eqn:Pa.
    + destruct l1 as [| b l1]; simpl in H; injection H as Ha Hrest.
      * subst a. exists [], xs. repeat split. exact Hrest.
      * subst b. destruct (IH _ _ _ Hrest) as (xs1 & xs2 & -> & H1 & H2).
        exists (a :: xs1), xs2. repeat split; [| exact H2].
        simpl. rewrite Pa, H1. reflexivity.
    + destruct (IH _ _ _ H) as (xs1 & xs2 & -> & H1 & H2).
      exists (a :: xs1), xs2. repeat split; [| exact H2].
      simpl. rewrite Pa. exact H1.
Qed.

Lemma filter_none {A} (p : A -> bool) (xs : list A) :
  (forall x, In x xs -> p x = false) -> filter p xs = [].
Proof.
  induction xs as [| a xs IH]; simpl; intro H; [reflexivity |].
  rewrite (H a) by (left; reflexivity). apply IH.
  intros x Hx. apply H. right. exact Hx.
Qed.

Lemma first_max_filter {A} (key : A -> nat) (p : A -> bool) xs x :
  first_max key (filter p xs) x ->
  (forall y, In y xs -> p y = false -> (key y < key x)%nat) ->
  first_max key xs x.
Proof.
  intros (before & after & Heq & Hb & Ha) Hout.
  destruct (filter_split p xs _ _ _ Heq) as (xs1 & xs2 & -> & H1 & H2).
  exists xs1, xs2. split; [reflexivity | split]; intros y Hy.
  - destruct (p y) eqn:Py.
    + apply Hb. rewrite <- H1. apply filter_In. split; assumption.
    + apply Hout; [apply in_or_app; left; exact Hy | exact Py].
  - destruct (p y) eqn:Py.
    + apply Ha. rewrite <- H2. apply filter_In. split; assumption.
    + apply Nat.lt_le_incl.
      apply Hout; [apply in_or_app; right; right; exact Hy | exact Py].
Qed.

Lemma first_max_map {A B} (f : A -> B) (key : B -> nat) (key' : A -> nat)
  xs y :
  first_max key (map f xs) y ->
  (forall x, In x xs -> key (f x) = key' x) ->
  exists x, f x = y /\ first_max key' xs x.
Proof.
  intros (before & after & Heq & Hb & Ha) Hkey.
  apply map_eq_app in Heq. destruct Heq as (xs1 & rest & -> & H1 & Hrest).
  apply map_eq_cons in Hrest. destruct Hrest as (x & xs2 & -> & Hx & H2).
  assert (Kx : key y = key' x).
  { rewrite <- Hx. apply Hkey. apply in_or_app. right. left. reflexivity. }
  exists x. split; [exact Hx |].
  exists xs1, xs2. split; [reflexivity | split]; intros z Hz.
  - rewrite <- Kx, <- (Hkey z) by (apply in_or_app; left; exact Hz).
    apply Hb. rewrite <- H1. apply in_map. exact Hz.
  - rewrite <- Kx, <- (Hkey z) by (apply in_or_app; right; right; exact Hz).
    apply Ha. rewrite <- H2. apply in_map. exact Hz.
Qed.

Module DictFacts.

Lemma set_fresh {V} (k : string) (v : V) (d : Dict.t V) :
  ~ In k (Dict.keys d) -> Dict.set k v d = d ++ [(k, v)].
Proof.
  induction d as [| [k' v'] d IH]; simpl; intro Hnot; [reflexivity |].
  destruct (String.eqb k k') eqn:E.
  - apply String.eqb_eq in E. exfalso. apply Hnot. left. symmetry. exact E.
  - rewrite IH; [reflexivity |]. intro Hin. apply Hnot. right. exact Hin.
Qed.

Lemma get_in {V} (k : string) (v : V) (d : Dict.t V) :
  NoDup (Dict.keys d) -> In (k, v) d -> Dict.get k d = Some v.
Proof.
  induction d as [| [k' v'] d IH]; simpl; intros Hnd Hin; [contradiction |].
  inversion Hnd as [| ? ? Hnotin Hnd']; subst.
  destruct Hin as [Heq | Hin].
  - injection Heq as -> ->. rewrite String.eqb_refl. reflexivity.
  - destruct (String.eqb k k') eqn:E.
    + apply String.eqb_eq in E. subst k'. exfalso. apply Hnotin.
      change k with (fst (k, v)). apply in_map. exact Hin.
    + apply IH; assumption.
Qed.

End DictFacts.

Section Classification.

Import IntentExtractionTool.

Variable text : string.

(** the entry the loop writes for one row of the table *)
Definition scored (row : string * list string) : string * nat :=
  (fst row, score (snd row) text).

Definition scores_positive (row : string * list string) : bool :=
  (0 <? score (snd row) text)%nat.

Lemma domain_scores_acc (patterns : Dict.t (list string)) :
  forall acc : Dict.t nat,
    NoDup (Dict.keys acc ++ Dict.keys patterns) ->
    fold_left
      (fun scores '(dom, keywords) =>
         let sc := score keywords text in
         if (0 <? sc)%nat then Dict.set dom sc scores else scores)
      patterns acc
    = acc ++ map scored (filter scores_positive patterns).
Proof.
  induction patterns as [| [dom kws] rest IH]; intros acc Hnd; simpl.
  - rewrite app_nil_r. reflexivity.
  - unfold scores_positive at 1. simpl.
    assert (Hrest : NoDup (Dict.keys acc ++ Dict.keys rest))
      by (eapply NoDup_remove_1; exact Hnd).
    destruct (0 <? score kws text)%nat eqn:E.
    + rewrite DictFacts.set_fresh.
      * rewrite IH.
        -- rewrite <- app_assoc. reflexivity.
        -- unfold Dict.keys. rewrite map_app. simpl.
           rewrite <- app_assoc. exact Hnd.
      * intro Hin. apply NoDup_remove_2 in Hnd. apply Hnd.
        apply in_or_app. left. exact Hin.
    + apply IH. exact Hrest.
Qed.

Lemma domain_scores_filter (patterns : Dict.t (list string)) :
  NoDup (Dict.keys patterns) ->
  domain_scores text patterns = map scored (filter scores_positive patterns).
Proof.
  intro Hnd. unfold domain_scores. rewrite domain_scores_acc; [reflexivity |].
  exact Hnd.
Qed.

Lemma classify_default (patterns : Dict.t (list string)) :
  NoDup (Dict.keys patterns) ->
  (forall row, In row patterns -> score (snd row) text = 0%nat) ->
  _classify_domain text patterns = "projects".
Proof.
  intros Hnd Hzero. unfold _classify_domain.
  rewrite domain_scores_filter by exact Hnd.
  replace (filter scores_positive patterns) with (@nil (string * list string)).
  - reflexivity.
  - symmetry. apply filter_none. intros row Hin. unfold scores_positive.
    rewrite (Hzero row Hin). reflexivity.
Qed.

Lemma classify_first_max (patterns : Dict.t (list string)) :
  NoDup (Dict.keys patterns) ->
  (exists row, In row patterns /\ (0 < score (snd row) text)%nat) ->
  exists kws,
    first_max (fun row => score (snd row) text) patterns
      (_classify_domain text patterns, kws).
Proof.
  intros Hnd (row0 & Hin0 & Hpos0). unfold _classify_domain.
  rewrite domain_scores_filter by exact Hnd.
  set (kept := filter scores_positive patterns).
  assert (Hkept_nd : NoDup (Dict.keys (map scored kept))).
  { unfold Dict.keys. rewrite map_map. simpl.
    unfold kept. clear - Hnd. unfold Dict.keys in Hnd.
    induction patterns as [| a l IH]; simpl; [constructor |].
    inversion Hnd as [| ? ? Hnotin Hnd']; subst.
    destruct (scores_positive a).
    - simpl. constructor; [| apply IH; exact Hnd'].
      intro Hin. apply Hnotin. apply in_map_iff in Hin.
      destruct Hin as (x & Hx & Hin). apply filter_In in Hin.
      rewrite <- Hx. apply in_map. apply Hin.
    - apply IH. exact Hnd'. }
  destruct (Py.max_by _ (Dict.keys (map scored kept))) as [dom |] eqn:Emax.
  - apply max_by_first_max in Emax.
    unfold Dict.keys in Emax. rewrite map_map in Emax.
    apply (first_max_map _ _ (fun row => score (snd row) text)) in Emax.
    + destruct Emax as ([dom' kws] & Hdom & Hmax). simpl in Hdom. subst dom'.
      exists kws. apply (first_max_filter _ scores_positive); [exact Hmax |].
      intros y Hy Hneg.
      assert (Hkept : In (dom, kws) kept).
      { destruct Hmax as (b & a & Heq & _). rewrite Heq.
        apply in_or_app. right. left. reflexivity. }
      apply filter_In in Hkept. destruct Hkept as [_ Hp].
      unfold scores_positive in Hneg, Hp. simpl in Hp.
      apply Nat.ltb_lt in Hp. apply Nat.ltb_ge in Hneg. simpl. lia.
    + intros row Hrow. unfold Dict.get_or.
      rewrite (DictFacts.get_in (fst (scored row)) (score (snd row) text)).
      * reflexivity.
      * exact Hkept_nd.
      * change (fst (scored row), score (snd row) text) with (scored row).
        apply in_map. exact Hrow.
  - exfalso. unfold Py.max_by in Emax.
    destruct (Dict.keys (map scored kept)) eqn:Ekeys; [| discriminate].
    assert (Hin : In row0 kept).
    { apply filter_In. split; [exact Hin0 |].
      apply Nat.ltb_lt. exact Hpos0. }
    destruct kept; [contradiction | discriminate].
Qed.

End Classification.

Lemma domain_patterns_keys_distinct :
  NoDup (Dict.keys IntentExtractionTool.domain_patterns).
Proof.
  unfold Dict.keys. simpl.
  repeat (constructor; [simpl; intuition discriminate |]). constructor.
Qed.

(** The specification's measure, in its own words: the number of keywords
    of a list that occur as substrings of the text. *)
Definition occurs_in (a s : string) : Prop :=
  exists before after, s = (before ++ a ++ after)%string.

Inductive keyword_count (text : string) : list string -> nat -> Prop :=
| Count_none : keyword_count text [] 0
| Count_hit keyword keywords n :
    occurs_in keyword text -> keyword_count text keywords n ->
    keyword_count text (keyword :: keywords) (S n)
| Count_miss keyword keywords n :
    ~ occurs_in keyword text -> keyword_count text keywords n ->
    keyword_count text (keyword :: keywords) n.

Lemma startswith_prefix (p s : string) :
  Py.startswith p s = true <-> exists rest, s = (p ++ rest)%string.
Proof.
  revert s. induction p as [| a p IH]; intro s; simpl.
  - split; [intros _; exists s; reflexivity | reflexivity].
  - destruct s as [| b s]; split.
    + discriminate.
    + intros (rest & H). discriminate H.
    + intro H. apply andb_true_iff in H. destruct H as [Hab Hp].
      apply Ascii.eqb_eq in Hab. subst b.
      apply IH in Hp. destruct Hp as (rest & ->). exists rest. reflexivity.
    + intros (rest & H). injection H as -> ->.
      apply andb_true_iff. split; [apply Ascii.eqb_refl |].
      apply IH. exists rest. reflexivity.
Qed.

(** [needle in hay] decides whether [needle] occurs in [hay] *)
Lemma contains_occurs (needle hay : string) :
  Py.contains needle hay = true <-> occurs_in needle hay.
Proof.
  split.
  - induction hay as [| c hay IH]; simpl; intro H.
    + rewrite orb_false_r in H. apply startswith_prefix in H.
      destruct H as (rest & ->). exists ""%string, rest. reflexivity.
    + apply orb_true_iff in H. destruct H as [H | H].
      * apply startswith_prefix in H. destruct H as (rest & ->).
        exists ""%string, rest. reflexivity.
      * destruct (IH H) as (before & after & ->).
        exists (String c before), after. reflexivity.
  - intros (before & after & ->).
    induction before as [| c before IH].
    + assert (H : Py.startswith needle (needle ++ after) = true)
        by (apply startswith_prefix; exists after; reflexivity).
      simpl. destruct (needle ++ after)%string; simpl; rewrite H;
        reflexivity.
    + simpl. apply orb_true_iff. right. exact IH.
Qed.

(** the code's score is the specification's count *)
Lemma score_count (text : string) (keywords : list string) (n : nat) :
  keyword_count text keywords n
  <-> n = IntentExtractionTool.score keywords text.
Proof.
  unfold IntentExtractionTool.score. split.
  - induction 1 as [| keyword keywords n Hocc _ IH
                    | keyword keywords n Hocc _ IH]; simpl.
    + reflexivity.
    + apply contains_occurs in Hocc. rewrite Hocc. simpl. congruence.
    + destruct (Py.contains keyword text) eqn:E; [| exact IH].
      exfalso. apply Hocc, contains_occurs, E.
  - intros ->. induction keywords as [| keyword keywords IH]; simpl.
    + constructor.
    + destruct (Py.contains keyword text) eqn:E; simpl.
      * apply Count_hit; [apply contains_occurs, E | exact IH].
      * apply Count_miss; [| exact IH]. intro Hocc.
        apply contains_occurs in Hocc. congruence.
Qed.

(** C5.  Give every row of the table of the ten domains its points: the
    number of its keywords that occur as substrings of the lower-cased
    description.  The domain returned by the intent classifier is the first
    row with the most points: every earlier row has strictly fewer, every
    later row at most as many.  When no row has a point the domain is
    "projects". *)
Theorem classify_domain_first_maximal (description : string) :
  let text := Py.lower description in
  let dom :=
    IntentExtractionTool._classify_domain text
      IntentExtractionTool.domain_patterns in
  List.length IntentExtractionTool.domain_patterns = 10%nat /\
  exists points : string * list string -> nat,
    (forall row n, keyword_count text (snd row) n <-> n = points row) /\
    ((forall row, In row IntentExtractionTool.domain_patterns ->
        points row = 0%nat) ->
     dom = "projects") /\
    ((exists row, In row IntentExtractionTool.domain_patterns /\
        (0 < points row)%nat) ->
     exists kws,
       first_max points IntentExtractionTool.domain_patterns (dom, kws)) /\
    (forall w, returns (fun r => domain r = dom)
                 (IntentExtractionTool.run description w)).
Proof.
  intros text dom. split; [reflexivity |].
  exists (fun row => IntentExtractionTool.score (snd row) text).
  split; [intros row n; apply score_count |].
  split; [| split].
  - apply classify_default. exact domain_patterns_keys_distinct.
  - apply classify_first_max. exact domain_patterns_keys_distinct.
  - intro w. reflexivity.
Qed.

(* ------------------------------------------------------------------ *)
(** ** Confidence values *)

Module FFacts.

Import F.

Lemma ltb_lt a b : ltb a b = true <-> (a < b)%Q.
Proof.
  unfold ltb. rewrite negb_true_iff. split.
  - intro H. apply Qnot_le_lt. intro Hle.
    apply Qle_bool_iff in Hle. congruence.
  - intro H. destruct (Qle_bool b a) eqn:E; [| reflexivity].
    apply Qle_bool_iff in E. exfalso. exact (Qlt_not_le _ _ H E).
Qed.

Lemma ltb_ge a b : ltb a b = false <-> (b <= a)%Q.
Proof.
  unfold ltb. rewrite negb_false_iff. apply Qle_bool_iff.
Qed.

Lemma add_eq a b : (add a b == a + b)%Q.
Proof. apply Qred_correct. Qed.

Lemma sub_eq a b : (sub a b == a - b)%Q.
Proof. apply Qred_correct. Qed.

Lemma mul_eq a b : (mul a b == a * b)%Q.
Proof. apply Qred_correct. Qed.

Lemma div_eq a b : (div a b == a / b)%Q.
Proof. apply Qred_correct. Qed.

Lemma add_nonneg a b : (0 <= a)%Q -> (0 <= b)%Q -> (0 <= add a b)%Q.
Proof.
  intros Ha Hb. rewrite add_eq.
  setoid_replace 0%Q with (0 + 0)%Q by reflexivity.
  apply Qplus_le_compat; assumption.
Qed.

Lemma min_le_l a b : (min a b <= a)%Q.
Proof.
  unfold min. destruct (ltb b a) eqn:E.
  - apply Qlt_le_weak, ltb_lt, E.
  - apply Qle_refl.
Qed.

Lemma min_lower c a b : (c <= a)%Q -> (c <= b)%Q -> (c <= min a b)%Q.
Proof. intros Ha Hb. unfold min. destruct (ltb b a); assumption. Qed.

Lemma max_lower a b : (a <= max a b)%Q.
Proof.
  unfold max. destruct (ltb a b) eqn:E.
  - apply Qlt_le_weak, ltb_lt, E.
  - apply Qle_refl.
Qed.

Lemma max_upper c a b : (a <= c)%Q -> (b <= c)%Q -> (max a b <= c)%Q.
Proof. intros Ha Hb. unfold max. destruct (ltb a b); assumption. Qed.

(** [max(0.0, min(1.0, x))] lies in the unit interval whatever [x] is. *)
Lemma clamp_unit x : unit_interval (max 0 (min 1 x)).
Proof.
  split.
  - apply max_lower.
  - apply max_upper; [discriminate | apply min_le_l].
Qed.

(** [min(1.0, x)] lies in the unit interval when [x] is not negative. *)
Lemma cap_unit x : (0 <= x)%Q -> unit_interval (min 1 x).
Proof.
  intro Hx. split.
  - apply min_lower; [discriminate | exact Hx].
  - apply min_le_l.
Qed.

Lemma of_nat_nonneg n : (0 <= of_nat n)%Q.
Proof.
  unfold of_nat, inject_Z, Qle. simpl. lia.
Qed.

Lemma of_nat_pos n : (0 < n)%nat -> (0 < of_nat n)%Q.
Proof.
  intro H. unfold of_nat, inject_Z, Qlt. simpl. lia.
Qed.

Lemma div_nonneg a b : (0 <= a)%Q -> (0 < b)%Q -> (0 <= div a b)%Q.
Proof.
  intros Ha Hb. rewrite div_eq. apply Qle_shift_div_l; [exact Hb |].
  rewrite Qmult_0_l. exact Ha.
Qed.

Lemma fsum_acc_nonneg (xs : list Q) :
  forall acc, (0 <= acc)%Q -> Forall (fun x => 0 <= x)%Q xs ->
              (0 <= fold_left add xs acc)%Q.
Proof.
  induction xs as [| x xs IH]; simpl; intros acc Hacc Hxs; [exact Hacc |].
  inversion Hxs; subst. apply IH; [apply add_nonneg |]; assumption.
Qed.

Lemma fsum_nonneg (xs : list Q) :
  Forall (fun x => 0 <= x)%Q xs ->
  (0 <= MetricsIdentificationTool.fsum xs)%Q.
Proof. apply fsum_acc_nonneg. discriminate. Qed.

(** the mean of four values of the unit interval *)
Lemma mean4_unit a b c d :
  unit_interval a -> unit_interval b -> unit_interval c -> unit_interval d ->
  unit_interval (div (MetricsIdentificationTool.fsum [a; b; c; d]) (of_nat 4)).
Proof.
  intros [Ha0 Ha1] [Hb0 Hb1] [Hc0 Hc1] [Hd0 Hd1].
  unfold MetricsIdentificationTool.fsum. simpl.
  assert (E : (add (add (add (add 0 a) b) c) d == a + b + c + d)%Q).
  { rewrite !add_eq. ring. }
  split.
  - apply div_nonneg; [| reflexivity].
    rewrite E. lra.
  - rewrite div_eq, E. apply Qle_shift_div_r; [reflexivity |].
    change (of_nat 4) with 4%Q. lra.
Qed.

End FFacts.

Lemma intent_confidence_unit description dom act out :
  F.unit_interval
    (IntentExtractionTool._calculate_confidence description dom act out).
Proof. apply FFacts.clamp_unit. Qed.

Lemma timeframe_confidence_unit phrases start_date end_date :
  F.unit_interval
    (TimeframeParsingTool._calculate_timeframe_confidence phrases start_date
       end_date).
Proof.
  unfold TimeframeParsingTool._calculate_timeframe_confidence.
  apply FFacts.cap_unit.
  destruct phrases as [| p phrases];
    destruct (1 <? List.length _)%nat;
    destruct (TimeframeParsingTool.is_some start_date);
    destruct (TimeframeParsingTool.is_some end_date);
    repeat (apply FFacts.add_nonneg); discriminate.
Qed.

Lemma metric_score_nonneg (c : string) :
  (0 <= Dict.get_or c (3 # 10) MetricsIdentificationTool.confidence_scores)%Q.
Proof.
  unfold Dict.get_or, MetricsIdentificationTool.confidence_scores. simpl.
  repeat destruct (String.eqb c _); discriminate.
Qed.

Lemma metrics_confidence_unit (ms : list MetricRecord) :
  F.unit_interval (MetricsIdentificationTool._calculate_metrics_confidence ms).
Proof.
  unfold MetricsIdentificationTool._calculate_metrics_confidence.
  destruct ms as [| m ms]; [split; discriminate |].
  apply FFacts.cap_unit. apply FFacts.div_nonneg.
  - apply FFacts.fsum_nonneg. apply Forall_forall. intros x Hx.
    apply in_map_iff in Hx. destruct Hx as (metric & <- & _).
    apply metric_score_nonneg.
  - apply FFacts.of_nat_pos. simpl. lia.
Qed.

Lemma constraint_confidence_unit (cs : list ConstraintRecord) :
  F.unit_interval
    (ConstraintExtractionTool._calculate_constraint_confidence cs).
Proof.
  unfold ConstraintExtractionTool._calculate_constraint_confidence.
  destruct cs as [| c cs]; [split; discriminate |].
  apply FFacts.cap_unit. apply FFacts.add_nonneg; [discriminate |].
  apply FFacts.min_lower; [discriminate |].
  rewrite FFacts.mul_eq.
  apply Qmult_le_0_compat; [apply FFacts.of_nat_nonneg | discriminate].
Qed.

(** what the normal path of the timeframe parser returns *)
Lemma timeframe_body_inv description w r w' :
  TimeframeParsingTool.run_body description w = (Val r, w') ->
  exists start_date end_date dur w1,
    TimeframeParsingTool._parse_dates description
      (TimeframeParsingTool._extract_time_phrases description) w
    = (Val (start_date, end_date), w1) /\
    TimeframeParsingTool._extract_duration description = Val dur /\
    w' = w1 /\
    r = {| startDate := option_map DT.isoformat start_date;
           endDate := option_map DT.isoformat end_date;
           duration := dur;
           milestones := TimeframeParsingTool._extract_milestones description;
           flexibility :=
             TimeframeParsingTool._determine_flexibility description;
           extractedPhrases :=
             TimeframeParsingTool._extract_time_phrases description;
           t_confidence :=
             TimeframeParsingTool._calculate_timeframe_confidence
               (TimeframeParsingTool._extract_time_phrases description)
               start_date end_date;
           t_error := None |}.
Proof.
  unfold TimeframeParsingTool.run_body, bind, lift.
  destruct (TimeframeParsingTool._parse_dates _ _ w)
    as [[[start_date end_date] | e] w1]; intro H; [| discriminate].
  destruct (TimeframeParsingTool._extract_duration description)
    as [dur | e]; [| discriminate].
  unfold ret in H. injection H as <- <-.
  exists start_date, end_date, dur, w1. repeat split.
Qed.

(** what the normal path of the metrics identifier returns *)
Lemma metrics_body_inv description w r w' :
  MetricsIdentificationTool.run_body description w = (Val r, w') ->
  exists ms,
    r = {| metrics := firstn 5 ms;
           m_confidence :=
             MetricsIdentificationTool._calculate_metrics_confidence ms;
           m_reasoning :=
             "Identified " ++ Py.str_of_nat (List.length ms)
             ++ " measurable metrics from the description" |}.
Proof.
  unfold MetricsIdentificationTool.run_body, bind, lift.
  destruct (MetricsIdentificationTool.numeric_loop _ _ _) as [explicit | e];
    intro H; [| discriminate].
  unfold ret in H. injection H as <- _. eexists. reflexivity.
Qed.

Lemma intent_run_confidence description w :
  returns (fun r => F.unit_interval (i_confidence r))
    (IntentExtractionTool.run description w).
Proof.
  apply try_except_returns.
  - intros a w' H. unfold IntentExtractionTool.run_body, ret in H.
    injection H as <- _. apply intent_confidence_unit.
  - intro e. split; discriminate.
Qed.

Lemma timeframe_run_confidence description w :
  returns (fun r => F.unit_interval (t_confidence r))
    (TimeframeParsingTool.run description w).
Proof.
  apply try_except_returns.
  - intros a w' H. apply timeframe_body_inv in H.
    destruct H as (s & e & dur & w1 & _ & _ & _ & ->).
    apply timeframe_confidence_unit.
  - intro e. split; discriminate.
Qed.

Lemma metrics_run_confidence description w :
  returns (fun r => F.unit_interval (m_confidence r))
    (MetricsIdentificationTool.run description w).
Proof.
  apply try_except_returns.
  - intros a w' H. apply metrics_body_inv in H. destruct H as (ms & ->).
    apply metrics_confidence_unit.
  - intro e. split; discriminate.
Qed.

Lemma constraints_run_confidence description w :
  returns (fun r => F.unit_interval (c_confidence r))
    (ConstraintExtractionTool.run description w).
Proof.
  apply try_except_returns.
  - intros a w' H. unfold ConstraintExtractionTool.run_body, ret in H.
    injection H as <- _. apply constraint_confidence_unit.
  - intro e. split; discriminate.
Qed.

(** every confidence of a report *)
Definition report_confidences_unit (a : AnalysisReport) : Prop :=
  F.unit_interval (i_confidence (intent a)) /\
  F.unit_interval (t_confidence (timeframe a)) /\
  F.unit_interval (m_confidence (metrics_analysis a)) /\
  F.unit_interval (c_confidence (constraints_analysis a)) /\
  F.unit_interval (overall_confidence a).

(** The aggregator's [try] block returns a report assembled from the
    results of the four tools, whatever property [P] these have. *)
Lemma process_body_inv description w :
  exists ri rt rm rc w1 w2 w3 w4 a,
    IntentExtractionTool.run description w = (Val ri, w1) /\
    TimeframeParsingTool.run description w1 = (Val rt, w2) /\
    MetricsIdentificationTool.run description w2 = (Val rm, w3) /\
    ConstraintExtractionTool.run description w3 = (Val rc, w4) /\
    fst (NLPAgent.process_goal_description description w) = Val a /\
    intent a = ri /\ timeframe a = rt /\ metrics_analysis a = rm /\
    constraints_analysis a = rc /\
    overall_confidence a = NLPAgent._calculate_overall_confidence ri rt rm rc /\
    recommendations a = NLPAgent._generate_recommendations ri rt rm rc.
Proof.
  destruct (returns_inv _ _ (intent_run_confidence description w))
    as (ri & w1 & E1 & _).
  destruct (returns_inv _ _ (timeframe_run_confidence description w1))
    as (rt & w2 & E2 & _).
  destruct (returns_inv _ _ (metrics_run_confidence description w2))
    as (rm & w3 & E3 & _).
  destruct (returns_inv _ _ (constraints_run_confidence description w3))
    as (rc & w4 & E4 & _).
  exists ri, rt, rm, rc, w1, w2, w3, w4.
  unfold NLPAgent.process_goal_description, NLPAgent.process_with,
    NLPAgent.process_body, try_except, bind.
  rewrite E1, E2, E3, E4. simpl.
  eexists. repeat split; try eassumption; reflexivity.
Qed.

(** C1.  Every confidence value lies in the closed interval from 0 to 1:
    the confidence of each of the four extractors' results, on the normal
    path and in the fallback result alike, the four sub-confidences of the
    aggregated report and its overall confidence, and the confidences of the
    aggregator's own fallback report. *)
Theorem confidence_in_unit_interval (description : string) (w : world) :
  returns (fun r => F.unit_interval (i_confidence r))
    (IntentExtractionTool.run description w) /\
  returns (fun r => F.unit_interval (t_confidence r))
    (TimeframeParsingTool.run description w) /\
  returns (fun r => F.unit_interval (m_confidence r))
    (MetricsIdentificationTool.run description w) /\
  returns (fun r => F.unit_interval (c_confidence r))
    (ConstraintExtractionTool.run description w) /\
  returns report_confidences_unit
    (NLPAgent.process_goal_description description w) /\
  (forall e,
     F.unit_interval (i_confidence (IntentExtractionTool.fallback e)) /\
     F.unit_interval (t_confidence (TimeframeParsingTool.fallback e)) /\
     F.unit_interval (m_confidence (MetricsIdentificationTool.fallback e)) /\
     F.unit_interval (c_confidence (ConstraintExtractionTool.fallback e)) /\
     returns report_confidences_unit
       (NLPAgent._create_fallback_analysis description (str_exn e) w)).
Proof.
  split; [apply intent_run_confidence |].
  split; [apply timeframe_run_confidence |].
  split; [apply metrics_run_confidence |].
  split; [apply constraints_run_confidence |].
  split.
  - destruct (process_body_inv description w)
      as (ri & rt & rm & rc & w1 & w2 & w3 & w4 & a
          & E1 & E2 & E3 & E4 & Ea & Hi & Ht & Hm & Hc & Ho & _).
    unfold returns. rewrite Ea.
    pose proof (intent_run_confidence description w) as B1.
    pose proof (timeframe_run_confidence description w1) as B2.
    pose proof (metrics_run_confidence description w2) as B3.
    pose proof (constraints_run_confidence description w3) as B4.
    unfold returns in B1, B2, B3, B4.
    rewrite E1 in B1. rewrite E2 in B2. rewrite E3 in B3. rewrite E4 in B4.
    simpl in B1, B2, B3, B4.
    unfold report_confidences_unit. rewrite Hi, Ht, Hm, Hc, Ho.
    repeat split; try apply B1; try apply B2; try apply B3; try apply B4;
      apply FFacts.mean4_unit; assumption.
  - intro e. unfold F.unit_interval, returns, report_confidences_unit. simpl.
    repeat split; discriminate.
Qed.

(* ------------------------------------------------------------------ *)
(** ** Which extractors read the clock *)

Section ClockReads.

(** the world after [k] more readings of the clock *)
Definition advance (k : nat) (w : world) : world :=
  {| clock := clock w; ticks := ticks w + k |}.

(** two worlds whose next [n] clock readings are the same *)
Definition agree (n : nat) (w w' : world) : Prop :=
  forall i, (i < n)%nat -> clock w (ticks w + i) = clock w' (ticks w' + i).

(** [c] depends on the world through its next [n] clock readings at most,
    and changes the world only by making some of these readings *)
Definition reads_at_most {A} (n : nat) (c : M A) : Prop :=
  forall w w', agree n w w' ->
    exists o k, (k <= n)%nat /\ c w = (o, advance k w)
                /\ c w' = (o, advance k w').

Lemma advance_0 w : advance 0 w = w.
Proof. destruct w. unfold advance. simpl. rewrite Nat.add_0_r. reflexivity. Qed.

Lemma advance_advance k1 k2 w :
  advance k2 (advance k1 w) = advance (k1 + k2) w.
Proof. unfold advance. simpl. rewrite Nat.add_assoc. reflexivity. Qed.

Lemma agree_advance n m k w w' :
  (k <= n)%nat -> agree (n + m) w w' -> agree m (advance k w) (advance k w').
Proof.
  intros Hk H i Hi. unfold advance. simpl.
  rewrite <- !Nat.add_assoc. apply H. lia.
Qed.

Lemma agree_le n n' w w' : (n <= n')%nat -> agree n' w w' -> agree n w w'.
Proof. intros Hle H i Hi. apply H. lia. Qed.

Context {A B : Type}.

Lemma reads_weaken n n' (c : M A) :
  (n <= n')%nat -> reads_at_most n c -> reads_at_most n' c.
Proof.
  intros Hle H w w' Hag.
  destruct (H w w' (agree_le _ _ _ _ Hle Hag)) as (o & k & Hk & E & E').
  exists o, k. repeat split; [lia | exact E | exact E'].
Qed.

Lemma reads_ret (a : A) : reads_at_most 0 (ret a).
Proof.
  intros w w' _. exists (Val a), 0%nat. rewrite !advance_0.
  repeat split. apply Nat.le_refl.
Qed.

Lemma reads_raise (e : exn) : reads_at_most 0 (@raise A e).
Proof.
  intros w w' _. exists (Raise e), 0%nat. rewrite !advance_0.
  repeat split. apply Nat.le_refl.
Qed.

Lemma reads_lift (o : result A) : reads_at_most 0 (lift o).
Proof.
  intros w w' _. exists o, 0%nat. rewrite !advance_0.
  repeat split. apply Nat.le_refl.
Qed.

Lemma reads_bind n m (c : M A) (f : A -> M B) :
  reads_at_most n c -> (forall a, reads_at_most m (f a)) ->
  reads_at_most (n + m) (bind c f).
Proof.
  intros Hc Hf w w' Hag.
  destruct (Hc w w' (agree_le n (n + m) _ _ (Nat.le_add_r n m) Hag))
    as (o & k & Hk & E & E').
  unfold bind. rewrite E, E'. destruct o as [a | e].
  - destruct (Hf a _ _ (agree_advance n m k w w' Hk Hag))
      as (o2 & k2 & Hk2 & E2 & E2').
    exists o2, (k + k2)%nat. rewrite E2, E2', !advance_advance.
    repeat split. lia.
  - exists (Raise e), k. repeat split. lia.
Qed.

End ClockReads.

Lemma reads_now : reads_at_most 1 now.
Proof.
  intros w w' Hag. exists (Val (clock w (ticks w))), 1%nat.
  split; [apply Nat.le_refl |]. unfold now, advance. split.
  - rewrite Nat.add_1_r. reflexivity.
  - rewrite Nat.add_1_r. specialize (Hag 0%nat Nat.lt_0_1).
    rewrite !Nat.add_0_r in Hag. rewrite Hag. reflexivity.
Qed.

Lemma reads_try {A} n m (body : M A) (h : exn -> M A) :
  reads_at_most n body -> (forall e, reads_at_most m (h e)) ->
  reads_at_most (n + m) (try_except body h).
Proof.
  intros Hc Hh w w' Hag.
  destruct (Hc w w' (agree_le n (n + m) _ _ (Nat.le_add_r n m) Hag))
    as (o & k & Hk & E & E').
  unfold try_except. rewrite E, E'. destruct o as [a | e].
  - exists (Val a), k. repeat split. lia.
  - destruct (Hh e _ _ (agree_advance n m k w w' Hk Hag))
      as (o2 & k2 & Hk2 & E2 & E2').
    exists o2, (k + k2)%nat. rewrite E2, E2', !advance_advance.
    repeat split. lia.
Qed.

(** An extractor is pure when its result does not depend on the world and
    it leaves the world as it found it. *)
Definition pure_extractor {A} (f : string -> M A) : Prop :=
  forall description w w',
    fst (f description w) = fst (f description w')
    /\ snd (f description w) = w.

(** Calling an extractor twice in a row on the same description gives the
    same result twice. *)
Definition repeatable {A} (f : string -> M A) : Prop :=
  forall description w,
    fst (f description (snd (f description w))) = fst (f description w).

Lemma reads_0_pure {A} (f : string -> M A) :
  (forall description, reads_at_most 0 (f description)) -> pure_extractor f.
Proof.
  intros H description w w'.
  destruct (H description w w') as (o & k & Hk & E & E').
  - intros i Hi. lia.
  - rewrite E, E'. assert (k = 0)%nat as -> by lia.
    rewrite advance_0. split; reflexivity.
Qed.

Lemma pure_repeatable {A} (f : string -> M A) :
  pure_extractor f -> repeatable f.
Proof. intros H description w. apply H. Qed.

Lemma intent_reads description :
  reads_at_most 0 (IntentExtractionTool.run description).
Proof.
  apply (reads_try 0 0); [apply reads_ret | intro e; apply reads_ret].
Qed.

Lemma metrics_reads description :
  reads_at_most 0 (MetricsIdentificationTool.run description).
Proof.
  apply (reads_try 0 0); [| intro e; apply reads_ret].
  apply (reads_bind 0 0); [apply reads_lift | intro a; apply reads_ret].
Qed.

Lemma constraints_reads description :
  reads_at_most 0 (ConstraintExtractionTool.run description).
Proof.
  apply (reads_try 0 0); [apply reads_ret | intro e; apply reads_ret].
Qed.

Lemma date_loop_reads current_year matches :
  forall end_date,
    reads_at_most 0
      (TimeframeParsingTool.date_loop current_year end_date matches).
Proof.
  induction matches as [| mt rest IH]; intro end_date; simpl.
  - apply reads_ret.
  - apply (reads_bind 0 0); [| exact IH].
    unfold TimeframeParsingTool.date_step.
    destruct (TimeframeParsingTool.date_of_match current_year mt)
      as [[dt |] | []]; first [apply reads_ret | apply reads_raise].
Qed.

Lemma relative_dates_reads description :
  reads_at_most 1 (TimeframeParsingTool._parse_relative_dates description).
Proof.
  unfold TimeframeParsingTool._parse_relative_dates.
  apply (reads_bind 1 0); [apply reads_now | intro t].
  repeat (apply (reads_bind 0 0); [apply reads_lift | intro]).
  destruct (TimeframeParsingTool.first_cue _ _); [apply reads_ret |].
  repeat
    (match goal with
     | |- reads_at_most 0 (match ?x with _ => _ end) => destruct x
     end;
     [repeat (apply (reads_bind 0 0); [apply reads_lift | intro]);
      apply reads_ret |]).
  apply reads_ret.
Qed.

Lemma parse_dates_reads description phrases :
  reads_at_most 3 (TimeframeParsingTool._parse_dates description phrases).
Proof.
  unfold TimeframeParsingTool._parse_dates.
  apply (reads_bind 1 2); [apply reads_now | intro t].
  apply (reads_bind 0 2); [apply date_loop_reads | intro end_date].
  apply (reads_bind 1 1).
  - destruct end_date;
      [apply (reads_weaken 0); [lia | apply reads_ret]
      | apply relative_dates_reads].
  - intros [dt |].
    + apply (reads_bind 1 0); [apply reads_now | intro; apply reads_ret].
    + apply (reads_weaken 0); [lia | apply reads_ret].
Qed.

Lemma timeframe_reads description :
  reads_at_most 3 (TimeframeParsingTool.run description).
Proof.
  apply (reads_try 3 0); [| intro e; apply reads_ret].
  unfold TimeframeParsingTool.run_body.
  apply (reads_bind 3 0); [apply parse_dates_reads |].
  intros [start_date end_date].
  apply (reads_bind 0 0); [apply reads_lift | intro dur; apply reads_ret].
Qed.

(** C2 as it is stated fails: two calls of the timeframe parser in a row on
    "do it tomorrow", under a clock that moves between its readings, return
    different start and end dates. *)
Lemma timeframe_not_repeatable :
  ~ (repeatable IntentExtractionTool.run /\
     repeatable TimeframeParsingTool.run /\
     repeatable MetricsIdentificationTool.run /\
     repeatable ConstraintExtractionTool.run).
Proof.
  intros (_ & H & _). specialize (H "do it tomorrow" Sample.monday).
  vm_compute in H. discriminate H.
Qed.

(** C2, amended.  The intent, metrics and constraint extractors are pure
    functions of the description: their result is the same in every world,
    they leave the world unchanged, and two calls in a row give the same
    result.  The timeframe parser reads the clock, at most three times in a
    call: its result is a function of the description and of these
    readings, so that two calls that are shown the same three readings
    return the same result and read the clock the same number of times. *)
Theorem extractors_pure_up_to_clock :
  (pure_extractor IntentExtractionTool.run /\
   repeatable IntentExtractionTool.run) /\
  (pure_extractor MetricsIdentificationTool.run /\
   repeatable MetricsIdentificationTool.run) /\
  (pure_extractor ConstraintExtractionTool.run /\
   repeatable ConstraintExtractionTool.run) /\
  (forall description w w',
     agree 3 w w' ->
     fst (TimeframeParsingTool.run description w)
     = fst (TimeframeParsingTool.run description w')) /\
  (forall description w w',
     agree 3 w w' ->
     exists k,
       (k <= 3)%nat /\
       snd (TimeframeParsingTool.run description w) = advance k w /\
       snd (TimeframeParsingTool.run description w') = advance k w').
Proof.
  pose proof (reads_0_pure _ intent_reads) as Hi.
  pose proof (reads_0_pure _ metrics_reads) as Hm.
  pose proof (reads_0_pure _ constraints_reads) as Hc.
  split; [split; [exact Hi | apply pure_repeatable, Hi] |].
  split; [split; [exact Hm | apply pure_repeatable, Hm] |].
  split; [split; [exact Hc | apply pure_repeatable, Hc] |].
  split; intros description w w' Hag;
    destruct (timeframe_reads description w w' Hag) as (o & k & Hk & E & E').
  - rewrite E, E'. reflexivity.
  - exists k. rewrite E, E'. repeat split. exact Hk.
Qed.

(* ------------------------------------------------------------------ *)
(** ** The intent classifier never fails *)

(** C3.  The intent classifier returns a result for every description, and
    so does [run] around any [try] block at all; when the block raises, the
    result is the fixed fallback: domain "projects", action "achieve",
    outcome "goal completion", no context, urgency "medium" and confidence
    exactly 0.3. *)
Theorem intent_never_fails (body : string -> M IntentResult)
  (description : string) (w : world) :
  returns (fun _ => True) (IntentExtractionTool.run description w) /\
  returns (fun _ => True)
    (IntentExtractionTool.run_with body description w) /\
  (forall e w',
     body description w = (Raise e, w') ->
     exists r,
       IntentExtractionTool.run_with body description w = (Val r, w') /\
       domain r = "projects" /\ action r = "achieve" /\
       outcome r = "goal completion" /\ context r = [] /\
       urgency r = "medium" /\ i_confidence r = (3 # 10)%Q).
Proof.
  split; [| split].
  - apply try_except_returns; intros; exact I.
  - apply try_except_returns; intros; exact I.
  - intros e w' E. exists (IntentExtractionTool.fallback e).
    unfold IntentExtractionTool.run_with.
    rewrite (try_except_raise _ _ _ _ _ E). repeat split.
Qed.

(** a [try] block that raises, and what [run] makes of it *)
Example intent_fallback_reached :
  fst (IntentExtractionTool.run_with Sample.failing "learn to cook"
         Sample.monday)
  = Val {| domain := "projects"; action := "achieve";
           outcome := "goal completion"; context := []; urgency := "medium";
           i_confidence := (3 # 10)%Q;
           i_reasoning := "Fallback classification due to error: boom" |}.
Proof. reflexivity. Qed.

(* ------------------------------------------------------------------ *)
(** ** Double precision *)

Module B64Facts.

Import B64.
Local Open Scope Q_scope.

Lemma pow2_pos (e : Z) : 0 < pow2 e.
Proof. apply Qpower_0_lt. reflexivity. Qed.

Lemma pow2_of_Z (k : Z) : (0 <= k)%Z -> pow2 k == inject_Z (2 ^ k).
Proof. intro H. unfold pow2. rewrite (Zpower_Qpower 2 k H). reflexivity. Qed.

Lemma pow2_le (a b : Z) : (a <= b)%Z -> pow2 a <= pow2 b.
Proof. intro H. apply Qpower_le_compat_l; [exact H | discriminate]. Qed.

Lemma pow2_lt_inv (a b : Z) : pow2 a < pow2 b -> (a < b)%Z.
Proof. intro H. apply (Qpower_lt_compat_l_inv 2); [exact H | reflexivity]. Qed.

(** [ilog2 x] is a lower bound of the binary logarithm *)
Lemma ilog2_lower (x : Q) : 0 < x -> pow2 (ilog2 x) <= x.
Proof.
  intro Hx. unfold ilog2.
  set (k := (Z.log2 (Qnum x) - Z.log2 (Z.pos (Qden x)))%Z).
  destruct (Qle_bool (pow2 k) x) eqn:E; [apply Qle_bool_iff; exact E |].
  destruct x as [n d]. unfold k. cbn [Qnum Qden]. clear E k.
  assert (Hn : (0 < n)%Z).
  { unfold Qlt in Hx. simpl in Hx. lia. }
  pose proof (Z.log2_nonneg n) as Hln.
  pose proof (Z.log2_nonneg (Z.pos d)) as Hld.
  destruct (Z.log2_spec n Hn) as [Hn1 _].
  destruct (Z.log2_spec (Z.pos d) (Pos2Z.is_pos d)) as [_ Hd2].
  replace (Z.log2 n - Z.log2 (Z.pos d) - 1)%Z
    with (Z.log2 n - Z.succ (Z.log2 (Z.pos d)))%Z by lia.
  unfold pow2. rewrite Qpower_minus by discriminate.
  fold (pow2 (Z.log2 n)). fold (pow2 (Z.succ (Z.log2 (Z.pos d)))).
  rewrite !pow2_of_Z by lia.
  set (A := (2 ^ Z.log2 n)%Z) in *.
  set (B := (2 ^ Z.succ (Z.log2 (Z.pos d)))%Z) in *.
  assert (HB : (0 < B)%Z) by lia.
  apply Qle_shift_div_r.
  - unfold Qlt, inject_Z. simpl. lia.
  - unfold Qle, Qmult, inject_Z. simpl. nia.
Qed.

Lemma floor_bounds (m : Q) :
  inject_Z (Qfloor m) <= m /\ m < inject_Z (Qfloor m) + 1.
Proof.
  split; [apply Qfloor_le |].
  pose proof (Qlt_floor m) as H. rewrite inject_Z_plus in H. exact H.
Qed.

(** rounding to the nearest integer moves a number by a half at most *)
Lemma nearest_even_err (m : Q) :
  m - (1 # 2) <= inject_Z (nearest_even m) /\
  inject_Z (nearest_even m) <= m + (1 # 2).
Proof.
  unfold nearest_even. destruct (floor_bounds m) as [Hlo Hhi].
  destruct (Qcompare_spec (m - inject_Z (Qfloor m)) (1 # 2)) as [E | E | E].
  - destruct (Z.even (Qfloor m)); [split; lra |].
    rewrite inject_Z_plus. change (inject_Z 1) with 1. split; lra.
  - split; lra.
  - rewrite inject_Z_plus. change (inject_Z 1) with 1. split; lra.
Qed.

(** an integer is its own nearest integer *)
Lemma nearest_even_int (m : Q) (z : Z) :
  m == inject_Z z -> nearest_even m = z.
Proof.
  intro H. unfold nearest_even.
  assert (Ef : Qfloor m = z) by (rewrite H; apply Qfloor_Z).
  rewrite Ef.
  assert (Ec : (m - inject_Z z ?= 1 # 2) = Lt) by (apply (proj1 (Qlt_alt _ _)); lra).
  rewrite Ec. reflexivity.
Qed.

Lemma round_eq (x : Q) :
  0 < x ->
  round x == inject_Z (nearest_even (x / pow2 (ilog2 x - 52)))
             * pow2 (ilog2 x - 52).
Proof.
  intro Hx. unfold round.
  replace (Qle_bool x 0) with false.
  - apply Qred_correct.
  - symmetry. apply not_true_iff_false. intro H.
    apply Qle_bool_iff in H. lra.
Qed.

Lemma round_zero : round 0 = 0.
Proof. reflexivity. Qed.

(** the doubles are no more than [2^(k-52)] apart below [2^(k+1)]: below
    [2^48] rounding moves a number by [1/64] at most *)
Lemma round_err (x : Q) :
  0 <= x -> x < pow2 48 ->
  x - (1 # 64) <= round x /\ round x <= x + (1 # 64).
Proof.
  intros H0 H48.
  destruct (Qlt_le_dec 0 x) as [Hx | Hx].
  2:{ assert (E : x == 0) by lra. unfold round.
      replace (Qle_bool x 0) with true; [lra |].
      symmetry. apply Qle_bool_iff. lra. }
  rewrite (round_eq x Hx).
  set (e := (ilog2 x - 52)%Z).
  pose proof (ilog2_lower x Hx) as Hl.
  assert (He : (e <= -5)%Z).
  { assert (ilog2 x < 48)%Z; [| unfold e; lia].
    apply pow2_lt_inv. lra. }
  pose proof (pow2_pos e) as Hp.
  pose proof (pow2_le e (-5) He) as Hp5.
  change (pow2 (-5)) with (/ (2 * (2 * (2 * (2 * 2))))) in Hp5.
  assert (Hp5' : pow2 e <= 1 # 32).
  { eapply Qle_trans; [exact Hp5 |]. unfold Qle. simpl. lia. }
  destruct (nearest_even_err (x / pow2 e)) as [Hlo Hhi].
  set (r := inject_Z (nearest_even (x / pow2 e))) in *.
  assert (Em : x == (x / pow2 e) * pow2 e) by (field; lra).
  set (m := x / pow2 e) in *.
  set (p := pow2 e) in *.
  assert (H1 : (m - (1 # 2)) * p <= r * p)
    by (apply Qmult_le_compat_r; lra).
  assert (H2 : r * p <= (m + (1 # 2)) * p)
    by (apply Qmult_le_compat_r; lra).
  clearbody m p r.
  assert (E1 : (m - (1 # 2)) * p == x - (1 # 2) * p) by (rewrite Em; ring).
  assert (E2 : (m + (1 # 2)) * p == x + (1 # 2) * p) by (rewrite Em; ring).
  rewrite E1 in H1. rewrite E2 in H2. split; lra.
Qed.

Lemma Qred_inject_Z (n : Z) : Qred (inject_Z n) = inject_Z n.
Proof.
  unfold Qred, inject_Z.
  pose proof (Z.ggcd_correct_divisors n 1) as H.
  pose proof (Z.ggcd_gcd n 1) as G.
  destruct (Z.ggcd n 1) as [g [aa bb]]. simpl in *.
  destruct H as [Ha Hb]. rewrite Z.gcd_1_r in G. subst g.
  assert (Eb : bb = 1%Z) by lia. assert (Ea : aa = n) by lia.
  rewrite Eb, Ea. reflexivity.
Qed.

(** an integer below [2^53] is a double *)
Lemma round_int (x : Q) (n : Z) :
  x == inject_Z n -> (0 <= n < 2 ^ 53)%Z -> round x = inject_Z n.
Proof.
  intros Ex [H0 H53].
  destruct (Z.eq_dec n 0) as [-> | Hn].
  { unfold round. replace (Qle_bool x 0) with true; [reflexivity |].
    symmetry. apply Qle_bool_iff. rewrite Ex. apply Qle_refl. }
  assert (Hx : 0 < x).
  { rewrite Ex. unfold Qlt, inject_Z. simpl. lia. }
  unfold round.
  replace (Qle_bool x 0) with false.
  2:{ symmetry. apply not_true_iff_false. intro H.
      apply Qle_bool_iff in H. lra. }
  cbv zeta.
  set (e := (ilog2 x - 52)%Z).
  pose proof (ilog2_lower _ Hx) as Hl.
  assert (He : (e <= 0)%Z).
  { assert (ilog2 x < 53)%Z; [| unfold e; lia].
    apply pow2_lt_inv. rewrite (pow2_of_Z 53) by lia.
    eapply Qle_lt_trans; [exact Hl |].
    rewrite Ex, <- Zlt_Qlt. exact H53. }
  assert (Ep : pow2 e == / inject_Z (2 ^ (- e))).
  { replace e with (- - e)%Z at 1 by lia. unfold pow2.
    rewrite Qpower_opp. fold (pow2 (- e)). rewrite pow2_of_Z by lia.
    reflexivity. }
  assert (Hz : (0 < 2 ^ (- e))%Z) by (apply Z.pow_pos_nonneg; lia).
  assert (Hq : 0 < inject_Z (2 ^ (- e))).
  { unfold Qlt, inject_Z. simpl. lia. }
  assert (Em : x / pow2 e == inject_Z (n * 2 ^ (- e))).
  { rewrite Ex, Ep, inject_Z_mult. field. lra. }
  rewrite (nearest_even_int _ _ Em).
  rewrite <- (Qred_inject_Z n).
  apply Qred_complete. rewrite Ep, inject_Z_mult. field. lra.
Qed.

Lemma overflows_small (x : Q) : x < pow2 49 -> overflows x = false.
Proof.
  intro H. unfold overflows. apply not_true_iff_false. intro C.
  apply Qle_bool_iff in C.
  pose proof (pow2_le 49 1024 ltac:(lia)). lra.
Qed.

Lemma floor_unique (s : Q) (z : Z) :
  inject_Z z <= s -> s < inject_Z z + 1 -> Qfloor s = z.
Proof.
  intros Hlo Hhi.
  pose proof (Qfloor_le s) as H1. pose proof (Qlt_floor s) as H2.
  assert (A : (Qfloor s < z + 1)%Z).
  { rewrite Zlt_Qlt, inject_Z_plus. change (inject_Z 1) with 1. lra. }
  assert (B : (z < Qfloor s + 1)%Z).
  { rewrite Zlt_Qlt. lra. }
  lia.
Qed.

Lemma positive_iff (s : Q) : positive (Finite s) = true <-> 0 < s.
Proof.
  unfold positive. rewrite negb_true_iff. split.
  - intro H. apply Qnot_le_lt. intro C. apply Qle_bool_iff in C. congruence.
  - intro H. apply not_true_iff_false. intro C. apply Qle_bool_iff in C. lra.
Qed.

(** Below [2^47] days the float sum of the whole days and of the hours is
    exact enough: truncating it gives the whole days plus the whole days in
    the hours, and it is positive when the exact total is. *)
Lemma days_exact (D h : Z) :
  (0 <= D)%Z -> (0 <= h)%Z -> (D * 24 + h < 2 ^ 47 * 24)%Z ->
  exists x s,
    true_div h 24 = Val x /\
    of_int D = Val (inject_Z D) /\
    add (inject_Z D) x = Finite s /\
    Qfloor s = (D + h / 24)%Z /\
    (0 < s <-> (0 < D * 24 + h)%Z).
Proof.
  intros HD Hh Hlt.
  pose proof (Z.div_mod h 24 ltac:(lia)) as Hdm.
  pose proof (Z.mod_pos_bound h 24 ltac:(lia)) as Hj.
  set (q := (h / 24)%Z) in *. set (j := (h mod 24)%Z) in *.
  assert (Hq : (0 <= q)%Z) by (apply Z.div_pos; lia).
  assert (P47 : pow2 47 == inject_Z (2 ^ 47)) by (apply pow2_of_Z; lia).
  assert (P48 : pow2 48 == inject_Z (2 ^ 48)) by (apply pow2_of_Z; lia).
  assert (P49 : pow2 49 == inject_Z (2 ^ 49)) by (apply pow2_of_Z; lia).
  assert (I47 : inject_Z (2 ^ 47) == 140737488355328) by reflexivity.
  assert (I48 : inject_Z (2 ^ 48) == 281474976710656) by reflexivity.
  assert (I49 : inject_Z (2 ^ 49) == 562949953421312) by reflexivity.
  set (hq := inject_Z h / inject_Z 24).
  assert (Ehq : hq == inject_Z q + inject_Z j * (1 # 24)).
  { unfold hq. rewrite Hdm at 1. rewrite inject_Z_plus, inject_Z_mult.
    change (inject_Z 24) with 24. field. }
  assert (HqQ : 0 <= inject_Z q) by (unfold Qle, inject_Z; simpl; lia).
  assert (HDQ : 0 <= inject_Z D) by (unfold Qle, inject_Z; simpl; lia).
  assert (Hj0 : 0 <= inject_Z j) by (unfold Qle, inject_Z; simpl; lia).
  assert (Hj23 : inject_Z j <= 23) by (unfold Qle, inject_Z; simpl; lia).
  assert (Htot : inject_Z D + hq < 140737488355328).
  { rewrite Ehq.
    assert (T : (D * 24 + (24 * q + j) < 140737488355328 * 24)%Z)
      by (change 140737488355328%Z with (2 ^ 47)%Z; lia).
    rewrite Zlt_Qlt in T.
    rewrite !inject_Z_plus, !inject_Z_mult in T.
    change (inject_Z 24) with 24 in T.
    change (inject_Z 140737488355328) with 140737488355328 in T.
    lra. }
  assert (Hhq0 : 0 <= hq) by (rewrite Ehq; lra).
  assert (ED : round (inject_Z D) = inject_Z D).
  { apply round_int; [reflexivity |]. split; [exact HD |].
    assert (D < 2 ^ 47)%Z by lia.
    assert (2 ^ 47 < 2 ^ 53)%Z by (apply Z.pow_lt_mono_r; lia). lia. }
  destruct (Z.eq_dec j 0) as [Ej | Ej].
  - (* whole days only *)
    assert (Ex : hq == inject_Z q).
    { rewrite Ehq, Ej. change (inject_Z 0) with 0. field. }
    assert (Hq47 : (q < 2 ^ 47)%Z) by lia.
    assert (H4753 : (2 ^ 47 < 2 ^ 53)%Z) by (apply Z.pow_lt_mono_r; lia).
    assert (Rx : round hq = inject_Z q)
      by (apply round_int; [exact Ex | lia]).
    assert (Rs : round (inject_Z D + inject_Z q) = inject_Z (D + q)).
    { apply round_int; [rewrite inject_Z_plus; reflexivity | lia]. }
    assert (Hsmall : forall z, (0 <= z < 2 ^ 47)%Z ->
                               overflows (inject_Z z) = false).
    { intros z Hz. apply overflows_small. rewrite P49, <- Zlt_Qlt.
      assert (2 ^ 47 < 2 ^ 49)%Z by (apply Z.pow_lt_mono_r; lia). lia. }
    exists (inject_Z q), (inject_Z (D + q)).
    unfold true_div, of_int, add. fold hq.
    rewrite Rx, ED, Rs, !Hsmall by lia.
    repeat split.
    + apply Qfloor_Z.
    + intro H. unfold Qlt, inject_Z in H. simpl in H. lia.
    + intro H. unfold Qlt, inject_Z. simpl. lia.
  - (* a fraction of a day is left *)
    assert (Hj1 : 1 <= inject_Z j) by (unfold Qle, inject_Z; simpl; lia).
    destruct (round_err hq Hhq0) as [Xlo Xhi]; [rewrite P48, I48; lra |].
    set (x := round hq) in *.
    assert (Hy0 : 0 <= inject_Z D + x) by lra.
    destruct (round_err (inject_Z D + x) Hy0) as [Slo Shi];
      [rewrite P48, I48; lra |].
    set (s := round (inject_Z D + x)) in *.
    exists x, s. unfold true_div, of_int, add. fold hq. fold x. fold s.
    rewrite ED.
    rewrite (overflows_small x) by (rewrite P49, I49; lra).
    rewrite (overflows_small (inject_Z D)) by (rewrite P49, I49; lra).
    rewrite (overflows_small s) by (rewrite P49, I49; lra).
    repeat split.
    + apply floor_unique; rewrite inject_Z_plus; lra.
    + intros _. lia.
    + intros _. lra.
Qed.

End B64Facts.

(* ------------------------------------------------------------------ *)
(** ** Duration *)

Section Duration.

Import Re.
Import TimeframeParsingTool.

(** The specification's rule, in its own words.  The count of a unit is the
    number in front of the first place where the unit is named. *)
Definition unit_digits (singular : string) (description : string)
  : option string :=
  match
    findall (seqs [Grp 1 (plus Digit); star Space; opt_s singular])
      (Py.lower description)
  with
  | mt :: _ => Some (found_str mt)
  | [] => None
  end.

Definition unit_count (singular : string) (description : string) : option Z :=
  option_map Py.int (unit_digits singular description).

Definition or_zero (o : option Z) : Z :=
  match o with
  | Some n => n
  | None => 0%Z
  end.

(** [days + weeks*7 + months*30 + years*365 + hours/24], exactly *)
Definition total_days (hours days weeks months years : Z) : Q :=
  F.add (F.of_Z (days + weeks * 7 + months * 30 + years * 365))
        (F.div (F.of_Z hours) 24).

Definition exact_total (description : string) : Q :=
  total_days (or_zero (unit_count "hour" description))
    (or_zero (unit_count "day" description))
    (or_zero (unit_count "week" description))
    (or_zero (unit_count "month" description))
    (or_zero (unit_count "year" description)).

Definition duration_spec (description : string) : Dict.t Z :=
  let hours := unit_count "hour" description in
  let days := unit_count "day" description in
  let weeks := unit_count "week" description in
  let months := unit_count "month" description in
  let years := unit_count "year" description in
  match hours, days, weeks, months, years with
  | None, None, None, None, None => []
  | _, _, _, _, _ =>
      let total :=
        total_days (or_zero hours) (or_zero days) (or_zero weeks)
          (or_zero months) (or_zero years) in
      if F.ltb 0 total then [("days", F.trunc total)] else []
  end.

(** every count is written with 4300 digits at most *)
Definition within_limit (singular : string) (description : string) : bool :=
  match unit_digits singular description with
  | Some digits => (String.length digits <=? Py.int_max_str_digits)%nat
  | None => true
  end.

Definition counts_within_limit (description : string) : bool :=
  forallb (fun singular => within_limit singular description)
    ["hour"; "day"; "week"; "month"; "year"].

End Duration.

Lemma int_digits_nonneg (s : string) :
  forall acc, (0 <= acc)%Z -> (0 <= Py.int_digits s acc)%Z.
Proof.
  induction s as [| c s IH]; cbn [Py.int_digits]; intros acc Hacc;
    [exact Hacc |].
  apply IH. pose proof (Nat2Z.is_nonneg (Py.code c - 48)). lia.
Qed.

Lemma unit_count_nonneg singular description :
  (0 <= or_zero (unit_count singular description))%Z.
Proof.
  unfold unit_count. destruct (unit_digits _ _); cbn [or_zero option_map];
    [| lia].
  apply int_digits_nonneg. lia.
Qed.

Lemma total_days_eq hours days weeks months years :
  (total_days hours days weeks months years
   == inject_Z ((days + weeks * 7 + months * 30 + years * 365) * 24 + hours)
      / inject_Z 24)%Q.
Proof.
  unfold total_days.
  set (n := (days + weeks * 7 + months * 30 + years * 365)%Z).
  rewrite FFacts.add_eq, FFacts.div_eq. unfold F.of_Z.
  rewrite inject_Z_plus, inject_Z_mult. field.
Qed.

(** Truncating the total is integer division of the hours: the other terms
    are whole days already. *)
Lemma trunc_total_days hours days weeks months years :
  (0 <= hours)%Z -> (0 <= days)%Z -> (0 <= weeks)%Z -> (0 <= months)%Z ->
  (0 <= years)%Z ->
  F.trunc (total_days hours days weeks months years)
  = (days + weeks * 7 + months * 30 + years * 365 + hours / 24)%Z.
Proof.
  intros Hh Hd Hw Hm Hy.
  pose proof (total_days_eq hours days weeks months years) as E.
  set (n := (days + weeks * 7 + months * 30 + years * 365)%Z) in *.
  assert (Hn : (0 <= n)%Z) by (unfold n; lia).
  unfold F.trunc.
  assert (Hpos : Qle_bool 0 (total_days hours days weeks months years)
                 = true).
  { apply Qle_bool_iff. rewrite E. apply Qle_shift_div_l; [reflexivity |].
    unfold Qle, inject_Z. simpl. lia. }
  rewrite Hpos, E, <- Zdiv_Qdiv, Z.div_add_l by lia. reflexivity.
Qed.

Lemma total_days_positive hours days weeks months years :
  F.ltb 0 (total_days hours days weeks months years)
  = (0 <? (days + weeks * 7 + months * 30 + years * 365) * 24 + hours)%Z.
Proof.
  pose proof (total_days_eq hours days weeks months years) as E.
  set (n := ((days + weeks * 7 + months * 30 + years * 365) * 24 + hours)%Z)
    in *.
  unfold F.ltb. destruct (Z.ltb_spec 0 n) as [Hn | Hn].
  - apply negb_true_iff, not_true_iff_false. intro C.
    apply Qle_bool_iff in C. rewrite E in C.
    apply (Qmult_le_compat_r _ _ (inject_Z 24)) in C; [| discriminate].
    assert (E24 : (inject_Z n / inject_Z 24 * inject_Z 24 == inject_Z n)%Q)
      by (field; discriminate).
    rewrite E24 in C. unfold Qle, inject_Z in C. simpl in C. lia.
  - apply negb_false_iff, Qle_bool_iff. rewrite E.
    apply Qle_shift_div_r; [reflexivity |].
    unfold Qle, inject_Z. simpl. lia.
Qed.

Lemma total_days_below hours days weeks months years (bound : Z) :
  (total_days hours days weeks months years < inject_Z bound)%Q ->
  ((days + weeks * 7 + months * 30 + years * 365) * 24 + hours
   < bound * 24)%Z.
Proof.
  intro H. rewrite total_days_eq in H.
  set (n := ((days + weeks * 7 + months * 30 + years * 365) * 24 + hours)%Z)
    in *.
  apply (Qmult_lt_compat_r _ _ (inject_Z 24)) in H; [| reflexivity].
  assert (E24 : (inject_Z n / inject_Z 24 * inject_Z 24 == inject_Z n)%Q)
    by (field; discriminate).
  rewrite E24, <- inject_Z_mult, <- Zlt_Qlt in H. exact H.
Qed.

(** below [2^47] days the float sum gives what the exact sum gives *)
Lemma days_of_exact (D h : Z) :
  (0 <= D)%Z -> (0 <= h)%Z -> (D * 24 + h < 2 ^ 47 * 24)%Z ->
  TimeframeParsingTool.days_of D h
  = Val (if (0 <? D * 24 + h)%Z then [("days", (D + h / 24)%Z)] else []).
Proof.
  intros HD Hh Hlt.
  destruct (B64Facts.days_exact D h HD Hh Hlt)
    as (x & s & Ex & Ed & Es & Hfloor & Hpos).
  unfold TimeframeParsingTool.days_of. rewrite Ex, Ed, Es.
  destruct (Z.ltb_spec 0 (D * 24 + h)) as [Hn | Hn].
  - rewrite (proj2 (B64Facts.positive_iff s)) by (apply Hpos; exact Hn).
    cbn [B64.to_int]. rewrite Hfloor. reflexivity.
  - destruct (B64.positive (B64.Finite s)) eqn:P; [| reflexivity].
    apply B64Facts.positive_iff, Hpos in P. lia.
Qed.

Lemma int_limited_ok (digits : string) :
  (String.length digits <=? Py.int_max_str_digits)%nat = true ->
  int_limited digits = Val (Py.int digits).
Proof.
  intro H. unfold int_limited. apply Nat.leb_le in H.
  destruct (Nat.ltb_spec Py.int_max_str_digits (String.length digits));
    [lia | reflexivity].
Qed.

Lemma scan_step_ok description dur singular unit :
  within_limit singular description = true ->
  TimeframeParsingTool.scan_step description (Val dur)
    (Re.seqs [Re.Grp 1 (Re.plus Re.Digit); Re.star Re.Space;
              Re.opt_s singular], unit)
  = Val (match unit_count singular description with
         | Some n => Dict.set unit n dur
         | None => dur
         end).
Proof.
  unfold within_limit, unit_count, unit_digits,
    TimeframeParsingTool.scan_step.
  destruct (Re.findall _ _) as [| mt rest]; [reflexivity |].
  intro H. rewrite (int_limited_ok _ H). reflexivity.
Qed.

(** the rule of the specification, for counts of 4300 digits at most that
    add up to less than [2^47] days *)
Lemma extract_duration_spec (description : string) :
  counts_within_limit description = true ->
  (exact_total description < inject_Z (2 ^ 47))%Q ->
  TimeframeParsingTool._extract_duration description
  = Val (duration_spec description).
Proof.
  intros Hlim Hbound.
  unfold counts_within_limit in Hlim. cbn [forallb] in Hlim.
  repeat (apply andb_true_iff in Hlim; destruct Hlim as [? Hlim]).
  unfold TimeframeParsingTool._extract_duration,
    TimeframeParsingTool.scan_durations,
    TimeframeParsingTool.duration_patterns.
  cbn [fold_left].
  rewrite !scan_step_ok by assumption.
  apply total_days_below in Hbound.
  pose proof (unit_count_nonneg "hour" description) as Hh.
  pose proof (unit_count_nonneg "day" description) as Hd.
  pose proof (unit_count_nonneg "week" description) as Hw.
  pose proof (unit_count_nonneg "month" description) as Hm.
  pose proof (unit_count_nonneg "year" description) as Hy.
  unfold duration_spec.
  destruct (unit_count "hour" description) as [h |],
    (unit_count "day" description) as [d |],
    (unit_count "week" description) as [k |],
    (unit_count "month" description) as [mo |],
    (unit_count "year" description) as [y |];
    cbn [or_zero] in *; try reflexivity;
    cbv zeta;
    rewrite total_days_positive, trunc_total_days by lia;
    cbn [Dict.set Dict.get_or Dict.get String.eqb Ascii.eqb Bool.eqb];
    match goal with
    | |- TimeframeParsingTool.days_of ?D ?hh = _ =>
        rewrite (days_of_exact D hh) by lia
    end;
    match goal with
    | |- Val (if (0 <? ?a)%Z then [("days", ?b)] else [])
         = Val (if (0 <? ?c)%Z then [("days", ?e)] else []) =>
        replace a with c by lia; replace b with e by lia; reflexivity
    end.
Qed.

(** C4 as it is stated fails.  The sum is taken in double precision: from
    [2^53] days on it is rounded, and a count of 309 digits cannot be
    converted at all, which makes the parser take its error path and return
    the default of 30 days.  So does a relative date beyond the year 9999:
    "in 4000000 days" comes back with 30 days. *)
Lemma duration_lost_on_error_path :
  TimeframeParsingTool._extract_duration "9007199254740993 days"
  = Val [("days", 9007199254740992%Z)] /\
  duration_spec "9007199254740993 days" = [("days", 9007199254740993%Z)] /\
  (exists e,
     TimeframeParsingTool._extract_duration (Sample.huge_count ++ " years")
     = Raise e /\
     fst (TimeframeParsingTool.run (Sample.huge_count ++ " years") Sample.monday)
     = Val (TimeframeParsingTool.fallback e)) /\
  returns (fun r => duration r = [("days", 30%Z)] /\
                    duration r <> duration_spec "in 4000000 days" /\
                    t_error r = Some "date value out of range")
    (TimeframeParsingTool.run "in 4000000 days" Sample.monday) /\
  duration_spec "in 4000000 days" = [("days", 4000000%Z)] /\
  ~ (forall description w,
       returns (fun r => duration r = duration_spec description)
         (TimeframeParsingTool.run description w)).
Proof.
  split; [vm_compute; reflexivity |].
  split; [vm_compute; reflexivity |].
  split.
  { eexists. split; vm_compute; reflexivity. }
  split; [vm_compute; repeat split; intro H; discriminate H |].
  split; [vm_compute; reflexivity |].
  intro H. specialize (H "in 4000000 days" Sample.monday).
  vm_compute in H. discriminate H.
Qed.

(** the parser returns the duration [_extract_duration] computes whenever
    its [try] block does not raise, and 30 days when it does *)
Lemma run_duration (description : string) (w : world) (dur : Dict.t Z) :
  TimeframeParsingTool._extract_duration description = Val dur ->
  match TimeframeParsingTool.run_body description w with
  | (Val _, _) =>
      returns (fun r => duration r = dur)
        (TimeframeParsingTool.run description w)
  | (Raise _, _) =>
      returns (fun r => duration r = [("days", 30%Z)])
        (TimeframeParsingTool.run description w)
  end.
Proof.
  intro Hspec.
  unfold TimeframeParsingTool.run, TimeframeParsingTool.run_with,
    try_except, returns.
  destruct (TimeframeParsingTool.run_body description w)
    as [[r | e] w'] eqn:E; simpl; [| reflexivity].
  apply timeframe_body_inv in E.
  destruct E as (s & e & dur' & w1 & _ & Hdur & _ & ->).
  simpl. rewrite Hspec in Hdur. injection Hdur as <-. reflexivity.
Qed.

(** C4, amended.  When every count is written with 4300 digits at most and
    the counts add up to less than [2^47] days, [_extract_duration] follows
    the rule of the specification: the counts of hours, days, weeks, months
    and years are scanned for and, if any is found, added up as
    [days + weeks*7 + months*30 + years*365 + hours/24], truncated, and kept
    only when the total is positive; truncation amounts to the integer
    division of the hours.  The parser returns this duration whenever its
    [try] block does not raise, and the default of 30 days when it does.
    "in 3 weeks" gives 21 days, whatever the clock shows, unless the [try]
    block raises. *)
Theorem duration_normalized (description : string) (w : world) :
  counts_within_limit description = true ->
  (exact_total description < inject_Z (2 ^ 47))%Q ->
  TimeframeParsingTool._extract_duration description
  = Val (duration_spec description) /\
  (duration_spec description = [] \/
   duration_spec description
   = [("days",
       (or_zero (unit_count "day" description)
        + or_zero (unit_count "week" description) * 7
        + or_zero (unit_count "month" description) * 30
        + or_zero (unit_count "year" description) * 365
        + or_zero (unit_count "hour" description) / 24)%Z)]) /\
  match TimeframeParsingTool.run_body description w with
  | (Val _, _) =>
      returns (fun r => duration r = duration_spec description)
        (TimeframeParsingTool.run description w)
  | (Raise _, _) =>
      returns (fun r => duration r = [("days", 30%Z)])
        (TimeframeParsingTool.run description w)
  end /\
  duration_spec "in 3 weeks" = [("days", 21%Z)] /\
  returns (fun r => duration r = [("days", 21%Z)])
    (TimeframeParsingTool.run "in 3 weeks" Sample.monday) /\
  (forall w0,
     match TimeframeParsingTool.run_body "in 3 weeks" w0 with
     | (Val _, _) =>
         returns (fun r => duration r = [("days", 21%Z)])
           (TimeframeParsingTool.run "in 3 weeks" w0)
     | (Raise _, _) =>
         returns (fun r => duration r = [("days", 30%Z)])
           (TimeframeParsingTool.run "in 3 weeks" w0)
     end).
Proof.
  intros Hlim Hbound.
  pose proof (extract_duration_spec description Hlim Hbound) as Hspec.
  split; [exact Hspec |].
  split; [| split; [| split; [| split]]];
    [| apply run_duration; exact Hspec
     | vm_compute; reflexivity
     | vm_compute; reflexivity
     | intro w0; apply run_duration; vm_compute; reflexivity].
  - unfold duration_spec.
    pose proof (unit_count_nonneg "hour" description) as Hh.
    pose proof (unit_count_nonneg "day" description) as Hd.
    pose proof (unit_count_nonneg "week" description) as Hw.
    pose proof (unit_count_nonneg "month" description) as Hm.
    pose proof (unit_count_nonneg "year" description) as Hy.
    rewrite <- (trunc_total_days _ _ _ _ _ Hh Hd Hw Hm Hy).
    destruct (unit_count "hour" description),
      (unit_count "day" description), (unit_count "week" description),
      (unit_count "month" description), (unit_count "year" description);
      try (left; reflexivity);
      match goal with
      | |- context [F.ltb 0 ?t] =>
          destruct (F.ltb 0 t); [right | left]; reflexivity
      end.
Qed.

Lemma duration_normalized_witness :
  TimeframeParsingTool._extract_duration
    "Finish the course in 2 weeks and 36 hours"
  = Val [("days", 15%Z)] /\
  duration_spec "Finish the course in 2 weeks and 36 hours"
  = [("days", 15%Z)] /\
  returns (fun r => duration r = [("days", 15%Z)])
    (TimeframeParsingTool.run "Finish the course in 2 weeks and 36 hours"
       Sample.monday).
Proof.
  destruct (duration_normalized "Finish the course in 2 weeks and 36 hours"
              Sample.monday)
    as (H1 & _ & H3 & _).
  - vm_compute. reflexivity.
  - vm_compute. reflexivity.
  - split; [exact H1 |]. split; [vm_compute; reflexivity |].
    vm_compute in H3. vm_compute. exact H3.
Defined.

(* ------------------------------------------------------------------ *)
(** ** Bounded lists *)

Lemma firstn_at_most {A} (n : nat) (l : list A) :
  (List.length (firstn n l) <= n)%nat.
Proof. rewrite length_firstn. apply Nat.le_min_l. Qed.

Lemma metrics_run_bounded description w :
  returns (fun r => (List.length (metrics r) <= 5)%nat)
    (MetricsIdentificationTool.run description w).
Proof.
  apply try_except_returns.
  - intros a w' H. apply metrics_body_inv in H. destruct H as (ms & ->).
    apply firstn_at_most.
  - intro e. simpl. lia.
Qed.

Lemma milestones_run_bounded description w :
  returns (fun r => (List.length (milestones r) <= 5)%nat)
    (TimeframeParsingTool.run description w).
Proof.
  apply try_except_returns.
  - intros a w' H. apply timeframe_body_inv in H.
    destruct H as (s & e & dur & w1 & _ & _ & _ & ->). apply firstn_at_most.
  - intro e. simpl. lia.
Qed.

(** C6.  The metrics list, the milestones list and the recommendations list
    have at most five elements each: in the results of the metrics
    identifier and of the timeframe parser, in the aggregated report, and in
    the aggregator's fallback report. *)
Theorem lists_at_most_five (description : string) (w : world) :
  returns (fun r => (List.length (metrics r) <= 5)%nat)
    (MetricsIdentificationTool.run description w) /\
  returns (fun r => (List.length (milestones r) <= 5)%nat)
    (TimeframeParsingTool.run description w) /\
  returns
    (fun a =>
       (List.length (metrics (metrics_analysis a)) <= 5)%nat /\
       (List.length (milestones (timeframe a)) <= 5)%nat /\
       (List.length (recommendations a) <= 5)%nat)
    (NLPAgent.process_goal_description description w) /\
  (forall error,
     returns
       (fun a =>
          (List.length (metrics (metrics_analysis a)) <= 5)%nat /\
          (List.length (milestones (timeframe a)) <= 5)%nat /\
          (List.length (recommendations a) <= 5)%nat)
       (NLPAgent._create_fallback_analysis description error w)).
Proof.
  split; [apply metrics_run_bounded |].
  split; [apply milestones_run_bounded |].
  split.
  - destruct (process_body_inv description w)
      as (ri & rt & rm & rc & w1 & w2 & w3 & w4 & a
          & E1 & E2 & E3 & E4 & Ea & Hi & Ht & Hm & Hc & Ho & Hr).
    unfold returns. rewrite Ea.
    pose proof (milestones_run_bounded description w1) as B2.
    pose proof (metrics_run_bounded description w2) as B3.
    unfold returns in B2, B3. rewrite E2 in B2. rewrite E3 in B3.
    simpl in B2, B3. rewrite Hm, Ht, Hr.
    split; [exact B3 | split; [exact B2 | apply firstn_at_most]].
  - intro error. unfold returns. simpl. lia.
Qed.

(* ------------------------------------------------------------------ *)
(** ** The count of constraints *)

(** C7.  [total_count] is the length of [constraints] in the result of
    the constraint extractor for every description, and also in the result
    [run] gives on its error path, whatever raises in its [try] block. *)
Theorem total_count_is_length (description : string) (w : world) :
  returns (fun r => total_count r = List.length (constraints r))
    (ConstraintExtractionTool.run description w) /\
  (forall (body : string -> M ConstraintsResult) e w',
     body description w = (Raise e, w') ->
     returns (fun r => total_count r = List.length (constraints r) /\
                       constraints r = [])
       (ConstraintExtractionTool.run_with body description w)).
Proof.
  split.
  - apply try_except_returns.
    + intros a w' H. unfold ConstraintExtractionTool.run_body, ret in H.
      injection H as <- _. reflexivity.
    + intro e. reflexivity.
  - intros body e w' E. unfold ConstraintExtractionTool.run_with, returns.
    rewrite (try_except_raise _ _ _ _ _ E). simpl. split; reflexivity.
Qed.

(** the error path, reached by a [try] block that raises *)
Example constraints_fallback_reached :
  fst (ConstraintExtractionTool.run_with Sample.failing "no money"
         Sample.monday)
  = Val {| constraints := []; categories := []; total_count := 0;
           c_confidence := (2 # 10)%Q;
           c_reasoning := "Error extracting constraints: boom" |}.
Proof. reflexivity. Qed.

(* ------------------------------------------------------------------ *)
(** ** Confidence of a detailed description against a vague one *)

Section Ordering.

Import Re.

(** the description names an explicit numeric metric: one of the numeric
    patterns of the metrics identifier matches *)
Definition has_explicit_metric (description : string) : bool :=
  existsb
    (fun '(pattern, _, _) =>
       ConstraintExtractionTool.nonempty
         (findall pattern (Py.lower description)))
    MetricsIdentificationTool.numeric_patterns.

(** the description names a concrete date: one of the date patterns of the
    timeframe parser matches *)
Definition has_concrete_date (description : string) : bool :=
  existsb
    (fun pattern =>
       ConstraintExtractionTool.nonempty
         (findall pattern (Py.lower description)))
    TimeframeParsingTool.date_patterns.

Definition word_count (description : string) : nat :=
  List.length (Py.split description).

(** With ten words or more the score is at least 0.4 before clamping:
    0.5 + 0.1 + 0.1, less 0.3 at worst. *)
Lemma long_description_confidence description dom act out :
  (10 <= word_count description)%nat ->
  (4 # 10 <=
   IntentExtractionTool._calculate_confidence description dom act out)%Q.
Proof.
  intro Hwc. unfold IntentExtractionTool._calculate_confidence.
  fold (word_count description).
  assert (H5 : (5 <=? word_count description)%nat = true)
    by (apply Nat.leb_le; lia).
  assert (H10 : (10 <=? word_count description)%nat = true)
    by (apply Nat.leb_le; lia).
  assert (H3 : (word_count description <? 3)%nat = false)
    by (apply Nat.ltb_ge; lia).
  rewrite H5, H10, H3.
  destruct (negb (act =? "achieve")%string);
    destruct (10 <? String.length out)%nat;
    destruct (negb (dom =? "projects")%string);
    destruct (Py.any_in IntentExtractionTool.vague_words (Py.lower description));
    vm_compute; discriminate.
Qed.

Lemma vague_confidence w :
  IntentExtractionTool.run "do stuff" w
  = (Val {| domain := "projects"; action := "achieve"; outcome := "do stuff";
            context := []; urgency := "medium"; i_confidence := 0%Q;
            i_reasoning :=
              "Classified as projects based on keywords. Action: achieve, Outcome: do stuff" |},
     w).
Proof. reflexivity. Qed.

End Ordering.

(** C8.  A description that names an explicit numeric metric and a concrete
    date and has ten words or more gets an intent confidence strictly
    greater than the one "do stuff" gets. *)
Theorem detailed_beats_vague (description : string) (w w' : world) :
  has_explicit_metric description = true ->
  has_concrete_date description = true ->
  (10 <= word_count description)%nat ->
  returns
    (fun vague =>
       returns (fun r => (i_confidence vague < i_confidence r)%Q)
         (IntentExtractionTool.run description w))
    (IntentExtractionTool.run "do stuff" w').
Proof.
  intros _ _ Hwc. rewrite vague_confidence. unfold returns. simpl.
  eapply Qlt_le_trans; [| apply long_description_confidence; exact Hwc].
  reflexivity.
Qed.

Lemma detailed_beats_vague_witness :
  returns
    (fun vague =>
       returns (fun r => (i_confidence vague < i_confidence r)%Q)
         (IntentExtractionTool.run
            "I want to lose 15 pounds by 12/31/2025 and run 5 miles every day"
            Sample.monday))
    (IntentExtractionTool.run "do stuff" Sample.leap_day).
Proof.
  apply detailed_beats_vague.
  - vm_compute. reflexivity.
  - vm_compute. reflexivity.
  - vm_compute. lia.
Defined.

(* ------------------------------------------------------------------ *)
(** ** The aggregator's fallback report *)

(** C9 as it is stated fails: when the aggregator's [try] block raises, the
    intent part of the report has confidence 0.2, not the 0.3 of the intent
    classifier's own fallback, and it is not that fallback. *)
Lemma fallback_report_intent_confidence :
  returns
    (fun a =>
       i_confidence (intent a) = (2 # 10)%Q /\
       ~ (i_confidence (intent a) == 3 # 10)%Q /\
       intent a <> IntentExtractionTool.fallback (OtherError "boom"))
    (NLPAgent.process_with Sample.failing "learn to cook" Sample.monday).
Proof.
  unfold returns. simpl. split; [reflexivity | split].
  - intro H. discriminate H.
  - intro H. discriminate H.
Qed.

(** C9, amended.  When the aggregator's [try] block raises, the report is
    fixed apart from the description, the time stamp and the error message.
    Its four parts have the fields of each extractor's own fallback, except
    that every confidence is 0.2 (the intent part too), the texts of
    [reasoning] differ and the timeframe part carries no error message; the
    overall confidence is 0.2 and there are two generic recommendations. *)
Theorem fallback_report_fixed (body : string -> M AnalysisReport)
  (description : string) (w w' : world) (e : exn) :
  body description w = (Raise e, w') ->
  returns
    (fun a =>
       (domain (intent a) = domain (IntentExtractionTool.fallback e) /\
        action (intent a) = action (IntentExtractionTool.fallback e) /\
        outcome (intent a) = outcome (IntentExtractionTool.fallback e) /\
        context (intent a) = context (IntentExtractionTool.fallback e) /\
        urgency (intent a) = urgency (IntentExtractionTool.fallback e) /\
        i_confidence (intent a) = (2 # 10)%Q) /\
       (timeframe a
        = {| startDate := startDate (TimeframeParsingTool.fallback e);
             endDate := endDate (TimeframeParsingTool.fallback e);
             duration := duration (TimeframeParsingTool.fallback e);
             milestones := milestones (TimeframeParsingTool.fallback e);
             flexibility := flexibility (TimeframeParsingTool.fallback e);
             extractedPhrases :=
               extractedPhrases (TimeframeParsingTool.fallback e);
             t_confidence := t_confidence (TimeframeParsingTool.fallback e);
             t_error := None |}) /\
       (metrics (metrics_analysis a)
        = metrics (MetricsIdentificationTool.fallback e) /\
        m_confidence (metrics_analysis a)
        = m_confidence (MetricsIdentificationTool.fallback e)) /\
       (constraints (constraints_analysis a)
        = constraints (ConstraintExtractionTool.fallback e) /\
        categories (constraints_analysis a)
        = categories (ConstraintExtractionTool.fallback e) /\
        total_count (constraints_analysis a)
        = total_count (ConstraintExtractionTool.fallback e) /\
        c_confidence (constraints_analysis a)
        = c_confidence (ConstraintExtractionTool.fallback e)) /\
       overall_confidence a = (2 # 10)%Q /\
       a_error a = Some (str_exn e) /\
       original_description a = description /\
       summary a
       = "Analysis failed due to technical error. Manual review recommended."
       /\
       recommendations a
       = ["Retry analysis with simplified description";
          "Consider manual goal creation"])
    (NLPAgent.process_with body description w).
Proof.
  intro E. unfold NLPAgent.process_with, returns.
  rewrite (try_except_raise _ _ _ _ _ E). simpl. repeat split.
Qed.

Lemma fallback_report_fixed_witness :
  returns
    (fun a =>
       i_confidence (intent a) = (2 # 10)%Q /\
       overall_confidence a = (2 # 10)%Q /\
       List.length (recommendations a) = 2%nat)
    (NLPAgent.process_with Sample.failing "learn to cook" Sample.monday).
Proof.
  pose proof
    (fallback_report_fixed Sample.failing "learn to cook" Sample.monday
       Sample.monday (OtherError "boom") eq_refl) as H.
  apply (returns_impl _ _ _) with (2 := H).
  intros a ((_ & _ & _ & _ & _ & Hi) & _ & _ & _ & Ho & _ & _ & _ & Hr).
  rewrite Hr. repeat split; assumption.
Defined.

(* ------------------------------------------------------------------ *)
(** ** Start date and end date *)

Lemma reads_self {A} (n : nat) (c : M A) (w : world) :
  reads_at_most n c ->
  exists o k, (k <= n)%nat /\ c w = (o, advance k w).
Proof.
  intro H. destruct (H w w (fun i _ => eq_refl)) as (o & k & Hk & E & _).
  exists o, k. split; assumption.
Qed.

(** [_parse_dates] sets the start date exactly when it has an end date, and
    then to the last reading of the clock. *)
Lemma parse_dates_start_iff_end description phrases w start_date end_date w' :
  TimeframeParsingTool._parse_dates description phrases w
  = (Val (start_date, end_date), w') ->
  (end_date = None -> start_date = None) /\
  (end_date <> None ->
   start_date = Some (clock w (pred (ticks w'))) /\ (0 < ticks w')%nat).
Proof.
  unfold TimeframeParsingTool._parse_dates, bind, now. simpl.
  match goal with
  | |- context [TimeframeParsingTool.date_loop ?y ?e ?ms ?w1] =>
      destruct (reads_self 0 (TimeframeParsingTool.date_loop y e ms) w1
                  (date_loop_reads y ms e)) as (o & k & Hk & ->)
  end.
  destruct o as [[dt |] | e]; [| | discriminate].
  - intro H. injection H as <- <- <-. simpl.
    split; [discriminate | intros _; split; [reflexivity | lia]].
  - match goal with
    | |- context [TimeframeParsingTool._parse_relative_dates ?d ?w1] =>
        destruct (reads_self 1
                    (TimeframeParsingTool._parse_relative_dates d) w1
                    (relative_dates_reads d)) as (o & k2 & Hk2 & ->)
    end.
    destruct o as [[dt |] | e]; [| | discriminate].
    + intro H. injection H as <- <- <-. simpl.
      split; [discriminate | intros _; split; [reflexivity | lia]].
    + intro H. injection H as <- <- <-.
      split; [reflexivity | intro C; contradiction C; reflexivity].
Qed.

(** C10.  In the result of the timeframe parser's [try] block (the path
    [run] takes when nothing raises), [startDate] is set exactly when
    [endDate] is; it is then the last reading of the clock, one made after
    the end date was found. *)
Theorem start_date_iff_end_date (description : string) (w w' : world)
  (r : TimeframeResult) :
  TimeframeParsingTool.run_body description w = (Val r, w') ->
  TimeframeParsingTool.run description w = (Val r, w') /\
  (startDate r <> None <-> endDate r <> None) /\
  (endDate r <> None ->
   startDate r = Some (DT.isoformat (clock w (pred (ticks w'))))).
Proof.
  intro E. split.
  - apply try_except_val. exact E.
  - apply timeframe_body_inv in E.
    destruct E as (start_date & end_date & dur & w1 & Hp & _ & -> & ->).
    simpl.
    apply parse_dates_start_iff_end in Hp. destruct Hp as [Hnone Hsome].
    destruct end_date as [dt |].
    + destruct Hsome as [-> _]; [discriminate |]. simpl.
      split; [split; discriminate | reflexivity].
    + rewrite Hnone by reflexivity. simpl.
      split; [split; intro C; exact C | intro C; contradiction C; reflexivity].
Qed.

Lemma start_date_iff_end_date_witness :
  let r :=
    {| startDate := Some "2025-03-10T09:00:00.000002";
       endDate := Some "2025-03-11T09:00:00.000001";
       duration := []; milestones := []; flexibility := "flexible";
       extractedPhrases := ["tomorrow"]; t_confidence := (9 # 10)%Q;
       t_error := None |} in
  TimeframeParsingTool.run "do it tomorrow" Sample.monday
  = (Val r, advance 3 Sample.monday) /\
  (startDate r <> None <-> endDate r <> None) /\
  (endDate r <> None ->
   startDate r
   = Some (DT.isoformat
             (clock Sample.monday (pred (ticks (advance 3 Sample.monday)))))).
Proof.
  intro r.
  apply (start_date_iff_end_date "do it tomorrow" Sample.monday
           (advance 3 Sample.monday) r).
  vm_compute. reflexivity.
Defined.

(* ------------------------------------------------------------------ *)
(* ------------------------------------------------------------------ *)
(** * Further properties of the extraction tools *)

(** ** The intent classifier *)

Lemma some_row_scores_or_none (text : string)
  (patterns : Dict.t (list string)) :
  (exists row, In row patterns /\
     (0 < IntentExtractionTool.score (snd row) text)%nat) \/
  (forall row, In row patterns ->
     IntentExtractionTool.score (snd row) text = 0%nat).
Proof.
  induction patterns as [| row rest IH].
  - right. intros row [].
  - destruct (IntentExtractionTool.score (snd row) text) eqn:E.
    + destruct IH as [(r & Hin & Hpos) | Hzero].
      * left. exists r. split; [right; exact Hin | exact Hpos].
      * right. intros r [<- | Hin]; [exact E | apply Hzero, Hin].
    + left. exists row. split; [left; reflexivity | rewrite E; lia].
Qed.

Lemma first_max_in {A} (key : A -> nat) (xs : list A) (x : A) :
  first_max key xs x -> In x xs.
Proof.
  intros (before & after & -> & _). apply in_or_app. right. left. reflexivity.
Qed.

Lemma score_positive_keyword (keywords : list string) (text : string) :
  (0 < IntentExtractionTool.score keywords text)%nat ->
  exists keyword, In keyword keywords /\ Py.contains keyword text = true.
Proof.
  unfold IntentExtractionTool.score. intro H.
  destruct (filter _ keywords) as [| keyword rest] eqn:E;
    [simpl in H; lia |].
  assert (Hin : In keyword (filter (fun k => Py.contains k text) keywords))
    by (rewrite E; left; reflexivity).
  apply filter_In in Hin. exists keyword. exact Hin.
Qed.

Lemma classify_domain_supported (text : string) :
  let dom :=
    IntentExtractionTool._classify_domain text
      IntentExtractionTool.domain_patterns in
  In dom (Dict.keys IntentExtractionTool.domain_patterns) /\
  (dom <> "projects" ->
   exists keywords keyword,
     In (dom, keywords) IntentExtractionTool.domain_patterns /\
     In keyword keywords /\ Py.contains keyword text = true).
Proof.
  intro dom.
  destruct (some_row_scores_or_none text IntentExtractionTool.domain_patterns)
    as [Hsome | Hnone].
  - pose proof Hsome as (row0 & Hin0 & Hpos0).
    destruct (classify_first_max text _ domain_patterns_keys_distinct Hsome)
      as (kws & Hmax).
    fold dom in Hmax.
    pose proof (first_max_in _ _ _ Hmax) as Hrow.
    split.
    + unfold Dict.keys. change dom with (fst (dom, kws)).
      apply in_map. exact Hrow.
    + intros _.
      pose proof (first_max_bound _ _ _ _ Hmax Hin0) as Hle.
      cbn [snd] in Hle.
      destruct (score_positive_keyword kws text) as (keyword & Hk & Hc);
        [lia |].
      exists kws, keyword. repeat split; assumption.
  - unfold dom.
    rewrite (classify_default text _ domain_patterns_keys_distinct Hnone).
    split; [| intro C; contradiction C; reflexivity].
    unfold Dict.keys. simpl. intuition.
Qed.

(** The domain is always one of the ten declared domains, and a domain
    other than "projects" is only ever returned on the evidence of one of
    its own keywords occurring in the lower-cased description. *)
Theorem domain_declared_and_supported (description : string) (w : world) :
  returns
    (fun r =>
       In (domain r) (Dict.keys IntentExtractionTool.domain_patterns) /\
       (domain r <> "projects" ->
        exists keywords keyword,
          In (domain r, keywords) IntentExtractionTool.domain_patterns /\
          In keyword keywords /\
          Py.contains keyword (Py.lower description) = true))
    (IntentExtractionTool.run description w).
Proof.
  apply try_except_returns.
  - intros a w' H. unfold IntentExtractionTool.run_body, ret in H.
    injection H as <- _. cbn [domain].
    apply classify_domain_supported.
  - intro e. cbn [domain IntentExtractionTool.fallback]. split.
    + unfold Dict.keys. simpl. intuition.
    + intro C. contradiction C. reflexivity.
Qed.

Lemma calculate_confidence_caps (description dom act out : string) :
  let c :=
    IntentExtractionTool._calculate_confidence description dom act out in
  (Py.any_in IntentExtractionTool.vague_words (Py.lower description) = true ->
   (c <= 7 # 10)%Q) /\
  ((word_count description < 3)%nat -> (c <= 6 # 10)%Q) /\
  (Py.any_in IntentExtractionTool.vague_words (Py.lower description) = false ->
   (3 <= word_count description)%nat -> (5 # 10 <= c)%Q).
Proof.
  unfold IntentExtractionTool._calculate_confidence.
  fold (word_count description).
  destruct (Nat.leb_spec 5 (word_count description));
    destruct (Nat.leb_spec 10 (word_count description));
    destruct (Nat.ltb_spec (word_count description) 3);
    try (exfalso; lia);
    destruct (negb (act =? "achieve")%string);
    destruct (10 <? String.length out)%nat;
    destruct (negb (dom =? "projects")%string);
    destruct (Py.any_in IntentExtractionTool.vague_words
                (Py.lower description));
    cbv zeta; (split; [| split]); intros;
    first [exfalso; lia | exfalso; discriminate | vm_compute; discriminate].
Qed.

(** Read off [_calculate_confidence]: a vague word caps the confidence at
    0.7, fewer than three words cap it at 0.6, and a description of three
    words or more without a vague word never scores below 0.5. *)
Theorem intent_confidence_caps (description : string) (w : world) :
  returns
    (fun r =>
       (Py.any_in IntentExtractionTool.vague_words (Py.lower description)
        = true -> (i_confidence r <= 7 # 10)%Q) /\
       ((word_count description < 3)%nat -> (i_confidence r <= 6 # 10)%Q) /\
       (Py.any_in IntentExtractionTool.vague_words (Py.lower description)
        = false -> (3 <= word_count description)%nat ->
        (5 # 10 <= i_confidence r)%Q))
    (IntentExtractionTool.run description w).
Proof.
  unfold returns.
  destruct (IntentExtractionTool.run description w) as [o w'] eqn:E.
  unfold IntentExtractionTool.run, IntentExtractionTool.run_with,
    IntentExtractionTool.run_body, try_except, ret in E.
  injection E as <- _. cbn [fst i_confidence].
  apply calculate_confidence_caps.
Qed.

(** ** The timeframe parser *)

Lemma timeframe_confidence_by_dates (phrases : list string)
  (start_date end_date : option datetime) :
  (start_date = None <-> end_date = None) ->
  end_date <> None <->
  (7 # 10 <=
   TimeframeParsingTool._calculate_timeframe_confidence phrases start_date
     end_date)%Q.
Proof.
  intros Hiff.
  destruct start_date as [s |], end_date as [e |];
    try (exfalso; destruct Hiff as [H1 H2];
         first [specialize (H1 eq_refl) | specialize (H2 eq_refl)];
         discriminate);
    destruct phrases as [| p [| q rest]]; vm_compute;
    split; intro H;
    first [discriminate | exfalso; apply H; reflexivity].
Qed.

(** The confidence of the timeframe parser tells whether an end date was
    found: it is 0.7 or more exactly when [endDate] is set, whatever the
    number of time phrases, and also on the error path. *)
Theorem timeframe_confidence_reveals_end_date (description : string)
  (w : world) :
  returns
    (fun r => endDate r <> None <-> (7 # 10 <= t_confidence r)%Q)
    (TimeframeParsingTool.run description w).
Proof.
  apply try_except_returns.
  - intros r w' H. apply timeframe_body_inv in H.
    destruct H as (start_date & end_date & dur & w1 & Hp & _ & _ & ->).
    cbn [endDate t_confidence].
    apply parse_dates_start_iff_end in Hp. destruct Hp as [Hnone Hsome].
    rewrite <- (timeframe_confidence_by_dates
                  (TimeframeParsingTool._extract_time_phrases description)
                  start_date end_date).
    + destruct end_date; simpl; split; intro H;
        first [discriminate | exact H | exfalso; apply H; reflexivity].
    + split; [| exact Hnone]. intro Hs.
      destruct end_date as [dt |]; [| reflexivity].
      destruct Hsome as [Hs' _]; [discriminate |]. congruence.
  - intro e. cbn [endDate t_confidence TimeframeParsingTool.fallback].
    split; intro H; [exfalso; apply H; reflexivity |].
    vm_compute in H. exfalso. apply H. reflexivity.
Qed.

(** what one turn of the date loop leaves in [end_date] *)
Definition pick_date (current_year : Z) (end_date : option datetime)
  (mt : Re.found) : option datetime :=
  match TimeframeParsingTool.date_of_match current_year mt with
  | Val (Some dt) => Some dt
  | _ => end_date
  end.

Lemma make_raises_value_error y mth d e :
  DT.make y mth d = Raise e -> exists msg, e = ValueError msg.
Proof.
  unfold DT.make, DT.date_error. destruct (DT.valid_date y mth d);
    [discriminate |].
  intro H. injection H as <-.
  destruct (negb _); [eexists; reflexivity |].
  destruct (negb _); eexists; reflexivity.
Qed.

Lemma numeric_date_raises_value_error date_str e :
  TimeframeParsingTool.numeric_date date_str = Raise e ->
  exists msg, e = ValueError msg.
Proof.
  unfold TimeframeParsingTool.numeric_date.
  destruct (if Py.contains "/" date_str then _ else _)
    as [| mth [| d [| y [| ? ?]]]]; try discriminate.
  destruct (DT.make _ _ _) eqn:E; [discriminate |].
  intro H. injection H as <-. eapply make_raises_value_error. exact E.
Qed.

(** The only exceptions the [try] block of the date loop can meet are those
    its [except] clause catches. *)
Lemma date_of_match_raises current_year mt e :
  TimeframeParsingTool.date_of_match current_year mt = Raise e ->
  exists msg, e = ValueError msg \/ e = IndexError msg.
Proof.
  unfold TimeframeParsingTool.date_of_match.
  destruct mt as [date_str | [| a [| b [| c [| ? ?]]]]].
  - intro H. apply numeric_date_raises_value_error in H.
    destruct H as (msg & ->). exists msg. left. reflexivity.
  - intro H. injection H as <-. eexists. right. reflexivity.
  - intro H. apply numeric_date_raises_value_error in H.
    destruct H as (msg & ->). exists msg. left. reflexivity.
  - intro H. apply numeric_date_raises_value_error in H.
    destruct H as (msg & ->). exists msg. left. reflexivity.
  - destruct (DT.make _ _ _) eqn:E; [discriminate |].
    intro H. injection H as <-. apply make_raises_value_error in E.
    destruct E as (msg & ->). exists msg. left. reflexivity.
  - intro H. apply numeric_date_raises_value_error in H.
    destruct H as (msg & ->). exists msg. left. reflexivity.
Qed.

Lemma date_step_picks current_year end_date mt w :
  TimeframeParsingTool.date_step current_year end_date mt w
  = (Val (pick_date current_year end_date mt), w).
Proof.
  unfold TimeframeParsingTool.date_step, pick_date.
  destruct (TimeframeParsingTool.date_of_match current_year mt)
    as [[dt |] | e] eqn:E; try reflexivity.
  apply date_of_match_raises in E. destruct E as (msg & [-> | ->]);
    reflexivity.
Qed.

(** the date loop never raises and does not touch the world: it folds
    [pick_date] over the matches *)
Lemma date_loop_folds current_year matches :
  forall end_date w,
    TimeframeParsingTool.date_loop current_year end_date matches w
    = (Val (fold_left (pick_date current_year) matches end_date), w).
Proof.
  induction matches as [| mt rest IH]; intros end_date w; simpl.
  - reflexivity.
  - unfold bind. rewrite date_step_picks. apply IH.
Qed.

Lemma fold_pick_none current_year matches :
  (forall mt dt, In mt matches ->
     TimeframeParsingTool.date_of_match current_year mt <> Val (Some dt)) ->
  forall end_date,
    fold_left (pick_date current_year) matches end_date = end_date.
Proof.
  induction matches as [| mt rest IH]; intros Hnone end_date; simpl.
  - reflexivity.
  - rewrite IH by (intros m dt Hin; apply Hnone; right; exact Hin).
    unfold pick_date.
    destruct (TimeframeParsingTool.date_of_match current_year mt)
      as [[dt |] | e] eqn:E; try reflexivity.
    exfalso. apply (Hnone mt dt); [left; reflexivity | exact E].
Qed.

(** the matches of the three date patterns, in the order the loop visits
    them *)
Definition date_matches (description : string) : list Re.found :=
  flat_map (fun r => Re.findall r (Py.lower description))
    TimeframeParsingTool.date_patterns.

(** the end date the explicit dates of a description give, if any *)
Definition explicit_end_date (current_year : Z) (description : string)
  : option datetime :=
  fold_left (pick_date current_year) (date_matches description) None.

Lemma advance_S w :
  {| clock := clock w; ticks := S (ticks w) |} = advance 1 w.
Proof. unfold advance. rewrite Nat.add_1_r. reflexivity. Qed.

Lemma parse_dates_explicit description phrases w dt :
  explicit_end_date (year (clock w (ticks w))) description = Some dt ->
  TimeframeParsingTool._parse_dates description phrases w
  = (Val (Some (clock w (S (ticks w))), Some dt), advance 2 w).
Proof.
  intro H. unfold TimeframeParsingTool._parse_dates, bind, now.
  cbv beta iota zeta.
  rewrite date_loop_folds. fold (date_matches description).
  fold (explicit_end_date (year (clock w (ticks w))) description).
  rewrite H. cbv beta iota zeta. unfold ret. cbn [clock ticks].
  unfold advance. do 2 f_equal. lia.
Qed.

(** With an explicit date that parses, only the duration can make the
    timeframe parser fail, whatever the clock shows.  When the duration is
    computed the parser returns the result of its [try] block: the end date
    is that date, the start date is the second reading of the clock, and
    the confidence is 0.7 at least.  When the duration raises (a count of
    more than 4300 digits, a sum beyond the doubles) the parser returns its
    fallback, dates included.  The clock is read exactly twice. *)
Theorem explicit_date_fails_on_duration_only (description : string)
  (w : world) (dt : datetime) :
  explicit_end_date (year (clock w (ticks w))) description = Some dt ->
  match TimeframeParsingTool._extract_duration description with
  | Val dur =>
      exists r,
        TimeframeParsingTool.run description w = (Val r, advance 2 w) /\
        endDate r = Some (DT.isoformat dt) /\
        startDate r = Some (DT.isoformat (clock w (S (ticks w)))) /\
        t_error r = None /\
        duration r = dur /\
        (7 # 10 <= t_confidence r)%Q
  | Raise e =>
      TimeframeParsingTool.run description w
      = (Val (TimeframeParsingTool.fallback e), advance 2 w)
  end.
Proof.
  intro H.
  unfold TimeframeParsingTool.run, TimeframeParsingTool.run_with, try_except,
    TimeframeParsingTool.run_body, bind.
  rewrite (parse_dates_explicit _ _ _ _ H). cbv beta iota zeta. unfold lift.
  destruct (TimeframeParsingTool._extract_duration description) as [dur | e];
    [| reflexivity].
  unfold ret.
  eexists. split; [reflexivity |]. cbn [endDate startDate t_error duration
    t_confidence option_map]. repeat split.
  unfold TimeframeParsingTool._calculate_timeframe_confidence.
  cbn [TimeframeParsingTool.is_some].
  destruct (TimeframeParsingTool._extract_time_phrases description)
    as [| p [| q rest]]; vm_compute; discriminate.
Qed.

Lemma explicit_date_fails_on_duration_only_witness :
  (exists r,
     TimeframeParsingTool.run "Submit the thesis by 12/31/2028"
       Sample.leap_day
     = (Val r, advance 2 Sample.leap_day) /\
     endDate r = Some "2028-12-31T00:00:00" /\
     startDate r = Some "2028-02-29T09:00:00.000001" /\
     t_error r = None /\
     duration r = [] /\
     (7 # 10 <= t_confidence r)%Q) /\
  TimeframeParsingTool.run
    ("Submit by 12/31/2028, " ++ Sample.huge_count ++ " years late")
    Sample.monday
  = (Val (TimeframeParsingTool.fallback
            (OverflowError "int too large to convert to float")),
     advance 2 Sample.monday).
Proof.
  split.
  - pose proof (explicit_date_fails_on_duration_only
                  "Submit the thesis by 12/31/2028" Sample.leap_day
                  {| year := 2028; month := 12; day := 31; hour := 0;
                     minute := 0; second := 0; microsecond := 0 |}) as H.
    vm_compute in H. vm_compute. apply H. reflexivity.
  - pose proof (explicit_date_fails_on_duration_only
                  ("Submit by 12/31/2028, " ++ Sample.huge_count
                   ++ " years late")
                  Sample.monday
                  {| year := 2028; month := 12; day := 31; hour := 0;
                     minute := 0; second := 0; microsecond := 0 |}) as H.
    vm_compute in H. vm_compute. apply H. reflexivity.
Defined.

(** The end date [_parse_dates] returns is the date of the last match that
    parses, in the order the loop visits the matches: all matches of
    [MM/DD/YYYY], then all of [MM-DD-YYYY], then all dates with a month
    name.  Matches that do not parse are skipped, and a date with a month
    name overrides every numeric date, wherever it stands in the
    description.  The parser reports this end date whenever the duration
    is computed. *)
Theorem last_parsed_date_wins (description : string) (w : world)
  (earlier later : list Re.found) (mt : Re.found) (dt : datetime) :
  date_matches description = earlier ++ mt :: later ->
  TimeframeParsingTool.date_of_match (year (clock w (ticks w))) mt
  = Val (Some dt) ->
  (forall mt' dt', In mt' later ->
     TimeframeParsingTool.date_of_match (year (clock w (ticks w))) mt'
     <> Val (Some dt')) ->
  (forall phrases,
     TimeframeParsingTool._parse_dates description phrases w
     = (Val (Some (clock w (S (ticks w))), Some dt), advance 2 w)) /\
  (forall dur,
     TimeframeParsingTool._extract_duration description = Val dur ->
     returns (fun r => endDate r = Some (DT.isoformat dt) /\
                       t_error r = None)
       (TimeframeParsingTool.run description w)).
Proof.
  intros Hm Hmt Hlater.
  assert (H : explicit_end_date (year (clock w (ticks w))) description
              = Some dt).
  { unfold explicit_end_date. rewrite Hm, fold_left_app. simpl.
    rewrite fold_pick_none by exact Hlater.
    unfold pick_date. rewrite Hmt. reflexivity. }
  split; [intro phrases; apply parse_dates_explicit; exact H |].
  intros dur Hdur.
  unfold returns, TimeframeParsingTool.run, TimeframeParsingTool.run_with,
    try_except, TimeframeParsingTool.run_body, bind.
  rewrite (parse_dates_explicit _ _ _ _ H). cbv beta iota zeta.
  unfold lift. rewrite Hdur. unfold ret.
  cbn [fst endDate t_error option_map]. split; reflexivity.
Qed.

Lemma last_parsed_date_wins_witness :
  (forall phrases,
     TimeframeParsingTool._parse_dates
       "Finish by March 5, 2025, not February 30, 2025, at the latest 1/2/2026"
       phrases Sample.monday
     = (Val (Some (clock Sample.monday 1),
             Some {| year := 2025; month := 3; day := 5; hour := 0;
                     minute := 0; second := 0; microsecond := 0 |}),
        advance 2 Sample.monday)) /\
  returns (fun r => endDate r = Some "2025-03-05T00:00:00" /\ t_error r = None)
    (TimeframeParsingTool.run
       "Finish by March 5, 2025, not February 30, 2025, at the latest 1/2/2026"
       Sample.monday).
Proof.
  destruct (last_parsed_date_wins
              "Finish by March 5, 2025, not February 30, 2025, at the latest 1/2/2026"
              Sample.monday
              [Re.FStr "1/2/2026"] [Re.FTuple ["february"; "30"; "2025"]]
              (Re.FTuple ["march"; "5"; "2025"])
              {| year := 2025; month := 3; day := 5; hour := 0; minute := 0;
                 second := 0; microsecond := 0 |})
    as [Hdates Hrun].
  - vm_compute. reflexivity.
  - vm_compute. reflexivity.
  - intros mt' dt' [<- | []]. vm_compute. discriminate.
  - split; [exact Hdates |].
    exact (Hrun [] ltac:(vm_compute; reflexivity)).
Defined.

Lemma leap_next_not_leap (y : Z) :
  DT.is_leap y = true -> DT.is_leap (y + 1) = false.
Proof.
  unfold DT.is_leap. intro H. apply andb_true_iff in H. destruct H as [H4 _].
  apply Z.eqb_eq in H4. apply andb_false_iff. left. apply Z.eqb_neq.
  Z.div_mod_to_equations. lia.
Qed.

Lemma replace_next_year_on_leap_day (t : datetime) :
  month t = 2%Z -> day t = 29%Z -> DT.is_leap (year t) = true ->
  exists e, DT.replace t (year t + 1) (month t) (day t) = Raise e.
Proof.
  intros Hm Hd Hl. unfold DT.replace.
  assert (Hv : DT.valid_date (year t + 1) (month t) (day t) = false).
  { unfold DT.valid_date, DT.days_in_month. rewrite Hm, Hd.
    rewrite (leap_next_not_leap _ Hl).
    change ((2 =? 2)%Z && false) with false.
    change (nth (Z.to_nat 2) DT.DAYS_IN_MONTH (-1)%Z) with 28%Z.
    change (29 <=? 28)%Z with false. apply andb_false_r. }
  rewrite Hv. eexists. reflexivity.
Qed.

Lemma relative_dates_raise_on_leap_day description w :
  let t := clock w (ticks w) in
  month t = 2%Z -> day t = 29%Z -> DT.is_leap (year t) = true ->
  exists e w',
    TimeframeParsingTool._parse_relative_dates description w = (Raise e, w').
Proof.
  intros t Hm Hd Hl.
  unfold TimeframeParsingTool._parse_relative_dates, bind, now, lift.
  cbv beta iota zeta. fold t.
  destruct (DT.add_days t 1); [| eexists; eexists; reflexivity].
  destruct (DT.add_days t (1 * 7)); [| eexists; eexists; reflexivity].
  destruct (DT.add_days t (7 - DT.weekday t));
    [| eexists; eexists; reflexivity].
  destruct (DT.add_days t 30); [| eexists; eexists; reflexivity].
  destruct (DT.replace t (year t) (month t) 28);
    [| eexists; eexists; reflexivity].
  destruct (replace_next_year_on_leap_day t Hm Hd Hl) as (e & ->).
  eexists. eexists. reflexivity.
Qed.

(** On the 29th of February the table of relative dates cannot be built
    ([now.replace(year=now.year+1)] has no such day): every description
    without an explicit date that parses gets the fallback result of the
    timeframe parser, with no dates, the default duration of 30 days and
    confidence 0.2, whatever relative cue it contains. *)
Theorem leap_day_defeats_relative_dates (description : string) (w : world) :
  let t := clock w (S (ticks w)) in
  month t = 2%Z -> day t = 29%Z -> DT.is_leap (year t) = true ->
  explicit_end_date (year (clock w (ticks w))) description = None ->
  exists e,
    fst (TimeframeParsingTool.run description w)
    = Val (TimeframeParsingTool.fallback e).
Proof.
  intros t Hm Hd Hl Hnone.
  unfold TimeframeParsingTool.run, TimeframeParsingTool.run_with, try_except,
    TimeframeParsingTool.run_body, bind at 1.
  unfold TimeframeParsingTool._parse_dates, bind, now.
  cbv beta iota zeta.
  rewrite date_loop_folds. fold (date_matches description).
  fold (explicit_end_date (year (clock w (ticks w))) description).
  rewrite Hnone. cbv beta iota zeta.
  destruct (relative_dates_raise_on_leap_day description
              {| clock := clock w; ticks := S (ticks w) |} Hm Hd Hl)
    as (e & w' & ->).
  exists e. reflexivity.
Qed.

Lemma leap_day_defeats_relative_dates_witness :
  exists e,
    fst (TimeframeParsingTool.run "finish the draft tomorrow"
           Sample.leap_day)
    = Val (TimeframeParsingTool.fallback e).
Proof.
  apply leap_day_defeats_relative_dates; vm_compute; reflexivity.
Defined.

(** ** Lists of phrases *)

Lemma stripped_nonempty (xs : list string) (s : string) :
  In s (IntentExtractionTool.stripped xs) -> s <> "".
Proof.
  unfold IntentExtractionTool.stripped. intro H.
  apply in_map_iff in H. destruct H as (x & <- & Hin).
  apply filter_In in Hin. destruct Hin as [_ Hne].
  apply negb_true_iff, String.eqb_neq in Hne. exact Hne.
Qed.

Lemma firstn_In {A} (n : nat) (l : list A) (x : A) :
  In x (firstn n l) -> In x l.
Proof.
  revert l. induction n as [| n IH]; intros [| a l]; simpl; try contradiction.
  intros [<- | H]; [left; reflexivity | right; apply IH, H].
Qed.

(** ** The constraint extractor *)

Lemma flatten_texts description (cats : Dict.t (list string)) :
  map constraint (ConstraintExtractionTool.flatten description cats)
  = List.concat (map snd cats).
Proof.
  unfold ConstraintExtractionTool.flatten.
  induction cats as [| [cat l] rest IH]; simpl; [reflexivity |].
  rewrite map_app, IH, map_map. simpl. rewrite map_id. reflexivity.
Qed.

Lemma flatten_in description (cats : Dict.t (list string)) c :
  In c (ConstraintExtractionTool.flatten description cats) ->
  exists l,
    In (category c, l) cats /\ In (constraint c) l /\
    severity c
    = ConstraintExtractionTool._assess_constraint_severity (constraint c)
        description.
Proof.
  unfold ConstraintExtractionTool.flatten. intro H.
  apply in_flat_map in H. destruct H as ([cat l] & Hcat & Hin).
  apply in_map_iff in Hin. destruct Hin as (text & <- & Htext).
  exists l. simpl. repeat split; assumption.
Qed.

Lemma severity_level (c description : string) :
  In (ConstraintExtractionTool._assess_constraint_severity c description)
     ["high"; "medium"; "low"].
Proof.
  unfold ConstraintExtractionTool._assess_constraint_severity.
  destruct (Py.any_in _ _); [left; reflexivity |].
  destruct (Py.any_in _ _); [right; left; reflexivity |].
  right; right; left; reflexivity.
Qed.

Lemma by_category_keys description :
  Dict.keys (ConstraintExtractionTool.by_category description)
  = ["time_constraints"; "resource_constraints"; "skill_constraints";
     "external_constraints"; "personal_constraints"].
Proof. reflexivity. Qed.

(** the constraint extractor never takes its error path *)
Lemma constraints_run_normal description w :
  ConstraintExtractionTool.run description w
  = (Val
       (let cats := ConstraintExtractionTool.by_category description in
        let all_constraints :=
          ConstraintExtractionTool.flatten description cats in
        {| constraints := all_constraints;
           categories := cats;
           total_count := List.length all_constraints;
           c_confidence :=
             ConstraintExtractionTool._calculate_constraint_confidence
               all_constraints;
           c_reasoning :=
             "Identified " ++ Py.str_of_nat (List.length all_constraints)
             ++ " constraints across "
             ++ Py.str_of_nat
                  (List.length
                     (filter ConstraintExtractionTool.nonempty
                        (map snd cats)))
             ++ " categories" |}),
     w).
Proof. reflexivity. Qed.

(** The two views of the constraints agree.  [categories] always has the
    five category names as keys, in their fixed order; [constraints] lists
    the texts of the categories one category after the other; every record
    names the category its text is filed under and has one of the three
    severities; and [total_count] adds up the sizes of the categories. *)
Theorem constraints_match_categories (description : string) (w : world) :
  returns
    (fun r =>
       Dict.keys (categories r)
       = ["time_constraints"; "resource_constraints"; "skill_constraints";
          "external_constraints"; "personal_constraints"] /\
       map constraint (constraints r) = List.concat (map snd (categories r)) /\
       total_count r
       = list_sum (map (fun l => List.length l) (map snd (categories r))) /\
       (forall c, In c (constraints r) ->
          In (constraint c) (Dict.get_or (category c) [] (categories r)) /\
          In (severity c) ["high"; "medium"; "low"]))
    (ConstraintExtractionTool.run description w).
Proof.
  unfold returns. rewrite constraints_run_normal.
  cbv zeta. cbn [fst categories constraints total_count].
  split; [apply by_category_keys |].
  split; [apply flatten_texts |].
  split.
  - rewrite <- (length_map constraint), flatten_texts.
    generalize (map snd (ConstraintExtractionTool.by_category description)).
    intro ls. induction ls as [| l ls IH]; simpl; [reflexivity |].
    rewrite length_app, IH. reflexivity.
  - intros c Hc. apply flatten_in in Hc.
    destruct Hc as (l & Hcat & Htext & Hsev). split.
    + unfold Dict.get_or. rewrite (DictFacts.get_in (category c) l).
      * exact Htext.
      * rewrite by_category_keys.
        repeat (constructor; [simpl; intuition discriminate |]). constructor.
      * exact Hcat.
    + rewrite Hsev. apply severity_level.
Qed.

Lemma constraint_confidence_by_count (cs : list ConstraintRecord) :
  let c := ConstraintExtractionTool._calculate_constraint_confidence cs in
  (cs = [] -> c = (3 # 10)%Q) /\
  (cs <> [] -> (6 # 10 <= c)%Q /\ (c <= 9 # 10)%Q) /\
  ((4 <= List.length cs)%nat -> c = (9 # 10)%Q).
Proof.
  unfold ConstraintExtractionTool._calculate_constraint_confidence.
  destruct cs as [| c1 [| c2 [| c3 [| c4 rest]]]].
  - repeat split; intros; try reflexivity; try (simpl in *; lia).
    all: exfalso; apply H; reflexivity.
  - cbv zeta. split; [discriminate |].
    split; [intros _; vm_compute; split; discriminate | simpl; lia].
  - cbv zeta. split; [discriminate |].
    split; [intros _; vm_compute; split; discriminate | simpl; lia].
  - cbv zeta. split; [discriminate |].
    split; [intros _; vm_compute; split; discriminate | simpl; lia].
  - cbv zeta. split; [discriminate |].
    set (n := List.length (c1 :: c2 :: c3 :: c4 :: rest)).
    assert (Hn : (4 <= n)%nat) by (unfold n; simpl; lia).
    assert (Hmin : F.min (4 # 10) (F.mul (F.of_nat n) (1 # 10)) = (4 # 10)%Q).
    { unfold F.min.
      replace (F.ltb (F.mul (F.of_nat n) (1 # 10)) (4 # 10)) with false;
        [reflexivity |].
      symmetry. apply FFacts.ltb_ge. rewrite FFacts.mul_eq.
      unfold F.of_nat, inject_Z, Qle, Qmult. simpl. lia. }
    rewrite Hmin.
    split; [intros _; vm_compute; split; discriminate |].
    intros _. vm_compute. reflexivity.
Qed.

(** The confidence of the constraint extractor is 0.3 exactly when it found
    nothing; otherwise it is at least 0.6 and never more than 0.9, which it
    reaches with four constraints. *)
Theorem constraint_confidence_levels (description : string) (w : world) :
  returns
    (fun r =>
       (constraints r = [] <-> c_confidence r = (3 # 10)%Q) /\
       (constraints r <> [] ->
        (6 # 10 <= c_confidence r)%Q /\ (c_confidence r <= 9 # 10)%Q) /\
       ((4 <= total_count r)%nat -> c_confidence r = (9 # 10)%Q))
    (ConstraintExtractionTool.run description w).
Proof.
  unfold returns. rewrite constraints_run_normal.
  cbv zeta. cbn [fst constraints c_confidence total_count].
  destruct (constraint_confidence_by_count
              (ConstraintExtractionTool.flatten description
                 (ConstraintExtractionTool.by_category description)))
    as (H0 & H1 & H4).
  split; [| split; assumption].
  split; [exact H0 |]. intro Hc.
  destruct (ConstraintExtractionTool.flatten _ _) as [| c cs];
    [reflexivity |].
  exfalso. destruct H1 as [Hlo _]; [discriminate |].
  rewrite Hc in Hlo. vm_compute in Hlo. apply Hlo. reflexivity.
Qed.

(* ------------------------------------------------------------------ *)
(** ** What a match of a pattern looks like *)

Module ReFacts.

Import Re.

Local Open Scope string_scope.

Lemma sapp_assoc (a b c : string) : (a ++ b) ++ c = a ++ (b ++ c).
Proof. induction a as [| x a IH]; simpl; [reflexivity | rewrite IH; reflexivity]. Qed.

Lemma sapp_nil_r (a : string) : a ++ "" = a.
Proof. induction a as [| x a IH]; simpl; [reflexivity | rewrite IH; reflexivity]. Qed.

Lemma slength_app (a b : string) :
  String.length (a ++ b) = (String.length a + String.length b)%nat.
Proof. induction a as [| x a IH]; simpl; [reflexivity | rewrite IH; reflexivity]. Qed.

Lemma substring_prefix (w s : string) :
  substring 0 (String.length w) (w ++ s) = w.
Proof.
  induction w as [| x w IH]; simpl.
  - destruct s; reflexivity.
  - rewrite IH. reflexivity.
Qed.

Lemma consumed_prefix (w s : string) :
  substring 0 (String.length (w ++ s) - String.length s) (w ++ s) = w.
Proof.
  rewrite slength_app, Nat.add_sub. apply substring_prefix.
Qed.

(** every character of [w] is in the set *)
Fixpoint all_in (c : cset) (w : string) : Prop :=
  match w with
  | EmptyString => True
  | String a w' => in_cset c a = true /\ all_in c w'
  end.

Lemma all_in_app c (w1 w2 : string) :
  all_in c w1 -> all_in c w2 -> all_in c (w1 ++ w2).
Proof.
  induction w1 as [| a w1 IH]; simpl; [auto |].
  intros [Ha H1] H2. split; [exact Ha | apply IH; assumption].
Qed.

(** [matches r w cs cs']: the text [w] is one the pattern [r] can consume,
    turning the captured groups [cs] into [cs'].  (The zero-width tests
    are recorded as consuming nothing; what they test is left out.) *)
Inductive matches : regex -> string -> caps -> caps -> Prop :=
| M_Lit l cs : matches (Lit l) l cs cs
| M_Cls c a cs : in_cset c a = true -> matches (Cls c) (String a "") cs cs
| M_Seq r1 r2 w1 w2 cs cs1 cs2 :
    matches r1 w1 cs cs1 -> matches r2 w2 cs1 cs2 ->
    matches (Seq r1 r2) (w1 ++ w2) cs cs2
| M_AltL r1 r2 w cs cs' : matches r1 w cs cs' -> matches (Alt r1 r2) w cs cs'
| M_AltR r1 r2 w cs cs' : matches r2 w cs cs' -> matches (Alt r1 r2) w cs cs'
| M_OptSome r w cs cs' : matches r w cs cs' -> matches (Opt r) w cs cs'
| M_OptNone r cs : matches (Opt r) "" cs cs
| M_Rep c lo hi greedy w cs :
    all_in c w -> (lo <= String.length w)%nat ->
    matches (Rep c lo hi greedy) w cs cs
| M_Grp i r w cs cs' :
    matches r w cs cs' -> matches (Grp i r) w cs (set_cap i w cs')
| M_WordB cs : matches WordB "" cs cs
| M_Eos cs : matches Eos "" cs cs.

Lemma m_lit_sound l : forall p s p' s',
  m_lit l p s = Some (p', s') -> s = l ++ s'.
Proof.
  induction l as [| a l IH]; intros p s p' s' H; simpl in H.
  - injection H as _ <-. reflexivity.
  - destruct s as [| b s]; [discriminate |].
    destruct (Ascii.eqb a b) eqn:E; [| discriminate].
    apply Ascii.eqb_eq in E. subst b. simpl. f_equal. eapply IH. exact H.
Qed.

Lemma m_exactly_sound c n : forall p s p' s',
  m_exactly c n p s = Some (p', s') ->
  exists w, s = w ++ s' /\ all_in c w /\ String.length w = n.
Proof.
  induction n as [| n IH]; intros p s p' s' H; simpl in H.
  - injection H as _ <-. exists "". repeat split.
  - destruct s as [| a s]; [discriminate |].
    destruct (in_cset c a) eqn:E; [| discriminate].
    destruct (IH _ _ _ _ H) as (w & -> & Hall & Hlen).
    exists (String a w). simpl. repeat split; [exact E | exact Hall |].
    rewrite Hlen. reflexivity.
Qed.

Lemma m_greedy_sound c (k : option ascii -> string -> res) x s :
  forall b p,
    m_greedy c b p s k = Some x ->
    exists w s' p', s = w ++ s' /\ all_in c w /\ k p' s' = Some x.
Proof.
  induction s as [| a s IH]; intros b p H; simpl in H.
  - exists "", "", p. repeat split. exact H.
  - destruct (in_cset c a && has_budget b) eqn:E.
    + unfold orelse in H.
      destruct (m_greedy c (spend b) (Some a) s k) as [y |] eqn:Eg.
      * injection H as <-.
        destruct (IH _ _ Eg) as (w & s' & p' & -> & Hall & Hk).
        exists (String a w), s', p'. simpl. repeat split; try assumption.
        apply andb_true_iff in E. apply E.
      * exists "", (String a s), p. repeat split. exact H.
    + exists "", (String a s), p. repeat split. exact H.
Qed.

Lemma m_lazy_sound c (k : option ascii -> string -> res) x s :
  forall b p,
    m_lazy c b p s k = Some x ->
    exists w s' p', s = w ++ s' /\ all_in c w /\ k p' s' = Some x.
Proof.
  induction s as [| a s IH]; intros b p H; simpl in H; unfold orelse in H.
  - destruct (k p "") as [y |] eqn:Ek; [| discriminate].
    injection H as <-. exists "", "", p. repeat split. exact Ek.
  - destruct (k p (String a s)) as [y |] eqn:Ek.
    + injection H as <-. exists "", (String a s), p. repeat split. exact Ek.
    + destruct (in_cset c a && has_budget b) eqn:E; [| discriminate].
      destruct (IH _ _ H) as (w & s' & p' & -> & Hall & Hk).
      exists (String a w), s', p'. simpl. repeat split; try assumption.
      apply andb_true_iff in E. apply E.
Qed.

(** Soundness of the matcher: whenever it succeeds, it has consumed a text
    the pattern matches and called its continuation on the rest. *)
Theorem m_sound r : forall p s cs k x,
  m r p s cs k = Some x ->
  exists w s' p' cs',
    s = w ++ s' /\ matches r w cs cs' /\ k p' s' cs' = Some x.
Proof.
  induction r as [l | c | r1 IH1 r2 IH2 | r1 IH1 r2 IH2 | r1 IH1
                  | c lo hi greedy | i r1 IH1 | |];
    intros p s cs k x H; simpl in H.
  - destruct (m_lit l p s) as [[p' s'] |] eqn:E; [| discriminate].
    apply m_lit_sound in E. exists l, s', p', cs.
    repeat split; [exact E | constructor | exact H].
  - destruct s as [| a s]; [discriminate |].
    destruct (in_cset c a) eqn:E; [| discriminate].
    exists (String a ""), s, (Some a), cs.
    repeat split; [constructor; exact E | exact H].
  - destruct (IH1 _ _ _ _ _ H) as (w1 & s1 & p1 & cs1 & -> & M1 & H1).
    destruct (IH2 _ _ _ _ _ H1) as (w2 & s2 & p2 & cs2 & -> & M2 & H2).
    exists (w1 ++ w2), s2, p2, cs2. rewrite sapp_assoc.
    repeat split; [econstructor; eassumption | exact H2].
  - unfold orelse in H. destruct (m r1 p s cs k) as [y |] eqn:E.
    + injection H as <-.
      destruct (IH1 _ _ _ _ _ E) as (w & s' & p' & cs' & -> & M1 & H1).
      exists w, s', p', cs'. repeat split; [apply M_AltL; exact M1 | exact H1].
    + destruct (IH2 _ _ _ _ _ H) as (w & s' & p' & cs' & -> & M2 & H2).
      exists w, s', p', cs'. repeat split; [apply M_AltR; exact M2 | exact H2].
  - unfold orelse in H. destruct (m r1 p s cs k) as [y |] eqn:E.
    + injection H as <-.
      destruct (IH1 _ _ _ _ _ E) as (w & s' & p' & cs' & -> & M1 & H1).
      exists w, s', p', cs'.
      repeat split; [apply M_OptSome; exact M1 | exact H1].
    + exists "", s, p, cs. repeat split; [apply M_OptNone | exact H].
  - destruct (m_exactly c lo p s) as [[p1 s1] |] eqn:E; [| discriminate].
    apply m_exactly_sound in E. destruct E as (w0 & -> & Hall0 & Hlen0).
    assert (Hrest : exists w s' p',
               s1 = w ++ s' /\ all_in c w /\ k p' s' cs = Some x).
    { destruct greedy.
      - apply m_greedy_sound in H. exact H.
      - apply m_lazy_sound in H. exact H. }
    destruct Hrest as (w1 & s2 & p2 & -> & Hall1 & Hk).
    exists (w0 ++ w1), s2, p2, cs. rewrite sapp_assoc.
    repeat split; [| exact Hk].
    constructor; [apply all_in_app; assumption |].
    rewrite slength_app. lia.
  - destruct (IH1 _ _ _ _ _ H) as (w & s' & p' & cs' & -> & M1 & H1).
    rewrite consumed_prefix in H1.
    exists w, s', p', (set_cap i w cs').
    repeat split; [constructor; exact M1 | exact H1].
  - destruct (xorb _ _); [| discriminate].
    exists "", s, p, cs. repeat split; [constructor | exact H].
  - destruct (at_end s); [| discriminate].
    exists "", s, p, cs. repeat split; [constructor | exact H].
Qed.

(** [x] is a match of [r] somewhere in [s] *)
Definition match_in (r : regex) (s : string) (x : rmatch) : Prop :=
  exists before after,
    s = before ++ whole x ++ after /\ matches r (whole x) [] (groups x).

Lemma match_here_sound r p s x :
  match_here r p s = Some x ->
  exists after, s = whole x ++ after /\ matches r (whole x) [] (groups x).
Proof.
  unfold match_here.
  destruct (m r p s [] _) as [[s' cs] |] eqn:E; [| discriminate].
  intro H. injection H as <-. simpl.
  apply m_sound in E. destruct E as (w & s1 & p1 & cs1 & -> & M & Hk).
  injection Hk as <- <-. rewrite consumed_prefix.
  exists s1. split; [reflexivity | exact M].
Qed.

Lemma search_from_sound r : forall s p x,
  search_from r p s = Some x -> match_in r s x.
Proof.
  induction s as [| a s IH]; intros p x H; simpl in H.
  - destruct (match_here r p "") as [y |] eqn:E; [| discriminate].
    injection H as <-. apply match_here_sound in E.
    destruct E as (after & Hs & M). exists "", after. split; assumption.
  - destruct (match_here r p (String a s)) as [y |] eqn:E.
    + injection H as <-. apply match_here_sound in E.
      destruct E as (after & Hs & M). exists "", after. split; assumption.
    + destruct (IH _ _ H) as (before & after & -> & M).
      exists (String a before), after. split; [reflexivity | exact M].
Qed.

Lemma search_sound r s x : search r s = Some x -> match_in r s x.
Proof. apply search_from_sound. Qed.

Lemma scan_sound r : forall s p skip x,
  In x (scan r p s skip) -> match_in r s x.
Proof.
  induction s as [| a s IH]; intros p skip x H.
  - destruct skip as [| n]; simpl in H; [| contradiction].
    destruct (match_here r p "") as [y |] eqn:E; [| contradiction].
    destruct H as [<- | []]. apply match_here_sound in E.
    destruct E as (after & Hs & M). exists "", after. split; assumption.
  - assert (Hlater : forall p' skip',
               In x (scan r p' s skip') -> match_in r (String a s) x).
    { intros p' skip' Hin. destruct (IH _ _ _ Hin) as (before & after & -> & M).
      exists (String a before), after. split; [reflexivity | exact M]. }
    destruct skip as [| n]; simpl in H; [| eapply Hlater; exact H].
    destruct (match_here r p (String a s)) as [y |] eqn:E.
    + destruct H as [<- | H]; [| eapply Hlater; exact H].
      apply match_here_sound in E.
      destruct E as (after & Hs & M). exists "", after. split; assumption.
    + eapply Hlater. exact H.
Qed.

Lemma findall_sound r s f :
  In f (findall r s) ->
  exists x, match_in r s x /\ f = found_of (ngroups r) x.
Proof.
  unfold findall. intro H. apply in_map_iff in H.
  destruct H as (x & <- & Hin). exists x. split; [| reflexivity].
  eapply scan_sound. exact Hin.
Qed.

(** a choice between literal words matches one of the words *)
Lemma alts_lit_sound (a : string) (ws : list string) :
  forall w cs cs',
    matches (alts (map Lit (a :: ws))) w cs cs' ->
    In w (a :: ws) /\ cs' = cs.
Proof.
  revert a. induction ws as [| b ws IH]; intros a w cs cs' H.
  - simpl in H. inversion H; subst. split; [left; reflexivity | reflexivity].
  - change (alts (map Lit (a :: b :: ws)))
      with (Alt (Lit a) (alts (map Lit (b :: ws)))) in H.
    inversion H as [| | | ? ? ? ? ? M | ? ? ? ? ? M | | | | | |]; subst.
    + inversion M; subst. split; [left; reflexivity | reflexivity].
    + destruct (IH _ _ _ _ M) as [Hin ->].
      split; [right; exact Hin | reflexivity].
Qed.

Lemma words_sound (ws : list string) w cs cs' :
  ws <> [] -> matches (words ws) w cs cs' -> In w ws /\ cs' = cs.
Proof.
  destruct ws as [| a ws]; [intro C; contradiction C; reflexivity |].
  intros _. apply alts_lit_sound.
Qed.

End ReFacts.

Module PatternFacts.

Import Re ReFacts.

Local Open Scope string_scope.

(** a pattern without capturing groups leaves the groups as they are *)
Lemma matches_no_group r w cs cs' :
  matches r w cs cs' -> ngroups r = 0%nat -> cs' = cs.
Proof.
  induction 1 as [| | r1 r2 w1 w2 cs cs1 cs2 _ IH1 _ IH2
                  | r1 r2 w cs cs' _ IH | r1 r2 w cs cs' _ IH
                  | r w cs cs' _ IH | | | i r w cs cs' _ IH | |];
    simpl; intro Hn; try reflexivity; try discriminate.
  - rewrite IH2, IH1 by lia. reflexivity.
  - apply IH. lia.
  - apply IH. lia.
  - apply IH. exact Hn.
Qed.

Lemma matches_seq r1 r2 w cs cs' :
  matches (Seq r1 r2) w cs cs' ->
  exists w1 w2 cs1,
    w = w1 ++ w2 /\ matches r1 w1 cs cs1 /\ matches r2 w2 cs1 cs'.
Proof.
  intro H. inversion H; subst. eexists _, _, _. repeat split; eassumption.
Qed.

Lemma matches_grp i r w cs cs' :
  matches (Grp i r) w cs cs' ->
  exists cs1, matches r w cs cs1 /\ cs' = set_cap i w cs1.
Proof.
  intro H. inversion H; subst. eexists. split; [eassumption | reflexivity].
Qed.

(** [\b(w1|w2|...)\b]: the group holds one of the words *)
Lemma verb_sound (ws : list string) (s : string) (x : rmatch) :
  ws <> [] -> match_in (IntentExtractionTool.verb ws) s x ->
  In (group 1 x) ws.
Proof.
  intros Hne (before & after & _ & M).
  unfold IntentExtractionTool.verb in M.
  change (seqs [WordB; Grp 1 (words ws); WordB])
    with (Seq WordB (Seq (Grp 1 (words ws)) WordB)) in M.
  apply matches_seq in M. destruct M as (w1 & w2 & cs1 & _ & M1 & M).
  apply matches_no_group in M1; [| reflexivity]. subst cs1.
  apply matches_seq in M. destruct M as (w3 & w4 & cs3 & _ & M3 & M4).
  apply matches_no_group in M4; [| reflexivity].
  apply matches_grp in M3. destruct M3 as (cs5 & M5 & ->).
  apply words_sound in M5; [| exact Hne]. destruct M5 as [Hin ->].
  unfold group. rewrite M4. simpl. exact Hin.
Qed.

Lemma lower_length (s : string) :
  String.length (Py.lower s) = String.length s.
Proof. induction s as [| a s IH]; simpl; [reflexivity | rewrite IH; reflexivity]. Qed.

End PatternFacts.

(** ** The action of a goal *)

(** the verbs the eight action patterns look for *)
Definition listed_verbs : list string :=
  ["learn"; "study"; "master"; "understand";
   "run"; "exercise"; "train"; "workout";
   "save"; "earn"; "invest"; "budget";
   "build"; "create"; "develop"; "make";
   "lose"; "gain"; "improve"; "increase"; "decrease";
   "complete"; "finish"; "achieve"; "accomplish";
   "start"; "begin"; "initiate";
   "read"; "write"; "practice"].

Lemma first_group_listed (text a : string) :
  IntentExtractionTool.first_group IntentExtractionTool.action_patterns text
  = Some a ->
  In a listed_verbs.
Proof.
  unfold IntentExtractionTool.action_patterns.
  cbn [IntentExtractionTool.first_group].
  repeat
    match goal with
    | |- match Re.search (IntentExtractionTool.verb ?ws) text with _ => _ end
         = Some a -> _ =>
        let E := fresh "E" in
        destruct (Re.search (IntentExtractionTool.verb ws) text) eqn:E;
        [ intro H; injection H as <-;
          apply ReFacts.search_sound, PatternFacts.verb_sound in E;
          [ unfold listed_verbs; simpl in E |- *; intuition | discriminate ]
        | ]
    end.
  discriminate.
Qed.

Lemma verb_like_word (words : list string) (a : string) :
  IntentExtractionTool.verb_like words = Some a ->
  exists word,
    In word words /\ a = Py.lower word /\ (3 < String.length word)%nat /\
    existsb (fun suf => Py.endswith suf (Py.lower word)) ["ing"; "ed"; "er"]
    = true.
Proof.
  induction words as [| word rest IH];
    cbn [IntentExtractionTool.verb_like]; [discriminate |].
  destruct (IntentExtractionTool.mem_str _ _).
  - intro H. destruct (IH H) as (x & Hin & Hx). exists x.
    split; [right; exact Hin | exact Hx].
  - match goal with
    | |- (if ?c then _ else _) = _ -> _ => destruct c eqn:E
    end.
    + intro H. injection H as <-. exists word.
      apply andb_true_iff in E. destruct E as [E1 E2].
      apply Nat.ltb_lt in E1.
      repeat split; [left; reflexivity | exact E1 | exact E2].
    + intro H. destruct (IH H) as (x & Hin & Hx). exists x.
      split; [right; exact Hin | exact Hx].
Qed.

(** The action is one of the 31 listed verbs, or else a lower-cased word of
    the description that has more than three characters and ends in "ing",
    "ed" or "er", or else "achieve"; it is never empty. *)
Theorem action_listed_or_verb_like (description : string) (w : world) :
  returns
    (fun r =>
       (In (action r) listed_verbs \/
        exists word,
          In word (Py.split description) /\ action r = Py.lower word /\
          (3 < String.length word)%nat /\
          existsb (fun suf => Py.endswith suf (Py.lower word))
            ["ing"; "ed"; "er"] = true) /\
       action r <> "")
    (IntentExtractionTool.run description w).
Proof.
  apply try_except_returns.
  - intros a w' H. unfold IntentExtractionTool.run_body, ret in H.
    injection H as <- _. cbn [action].
    unfold IntentExtractionTool._extract_action.
    destruct (IntentExtractionTool.first_group _ _) as [a |] eqn:E.
    + apply first_group_listed in E. split; [left; exact E |].
      intro C. rewrite C in E. unfold listed_verbs in E. simpl in E.
      intuition discriminate.
    + destruct (IntentExtractionTool.verb_like _) as [a |] eqn:Ev.
      * apply verb_like_word in Ev.
        destruct Ev as (word & Hin & -> & Hlen & Hend).
        split; [right; exists word; repeat split; assumption |].
        intro C. apply (f_equal String.length) in C.
        rewrite PatternFacts.lower_length in C. simpl in C. lia.
      * split; [left; unfold listed_verbs; simpl; intuition | discriminate].
  - intro e. cbn [action IntentExtractionTool.fallback].
    split; [left; unfold listed_verbs; simpl; intuition | discriminate].
Qed.

(** ** The metrics identifier *)

Module MetricFacts.

Import Re ReFacts PatternFacts MetricsIdentificationTool.

Local Open Scope string_scope.

(** [\d+(?:\.\d+)?] matches a text that starts with a digit *)
Lemma number_sound w cs cs' :
  matches number w cs cs' ->
  cs' = cs /\ exists c rest, w = String c rest /\ Py.is_digit c = true.
Proof.
  intro M. split; [eapply matches_no_group; [exact M | reflexivity] |].
  unfold number in M.
  change (seqs [plus Digit; Opt (seqs [Lit "."; plus Digit])])
    with (Seq (Rep Digit 1 None true) (Opt (Seq (Lit ".") (plus Digit)))) in M.
  apply matches_seq in M. destruct M as (w1 & w2 & cs1 & -> & M1 & _).
  inversion M1 as [| | | | | | | ? ? ? ? ? ? Hall Hlen | | |]; subst.
  destruct w1 as [| c rest]; [simpl in Hlen; lia |].
  destruct Hall as [Hc _]. exists c, (rest ++ w2). split; [reflexivity | exact Hc].
Qed.

(** a match of the percentage pattern, whose only group is the number *)
Lemma percent_group s x :
  match_in
    (seqs [Grp 1 number; star Space; alts [Lit "%"; Lit "percent"]]) s x ->
  exists c rest, group 1 x = String c rest /\ Py.is_digit c = true.
Proof.
  intros (before & after & _ & M).
  change (seqs [Grp 1 number; star Space; alts [Lit "%"; Lit "percent"]])
    with (Seq (Grp 1 number)
            (Seq (star Space) (Alt (Lit "%") (Lit "percent")))) in M.
  apply matches_seq in M. destruct M as (w1 & w2 & cs1 & _ & M1 & M2).
  apply matches_no_group in M2; [| reflexivity].
  apply matches_grp in M1. destruct M1 as (cs0 & Mn & ->).
  apply number_sound in Mn. destruct Mn as (-> & c & rest & -> & Hc).
  exists c, rest. unfold group. rewrite M2. simpl. split; [reflexivity | exact Hc].
Qed.

(** what [re.findall] returns for each of the nine numeric patterns: pairs
    for the eight patterns with two groups, strings that start with a digit
    for the percentage pattern with one *)
Definition usable (metric_type : string) (mt : found) : Prop :=
  (metric_type <> "percentage" /\ exists g1 g2, mt = FTuple [g1; g2]) \/
  (metric_type = "percentage" /\
   exists c rest, mt = FStr (String c rest) /\ Py.is_digit c = true).

Lemma numeric_matches_usable (text : string) pattern metric_type unit_ mt :
  In (pattern, metric_type, unit_) numeric_patterns ->
  In mt (findall pattern text) ->
  usable metric_type mt.
Proof.
  unfold numeric_patterns. intros Hp Hmt.
  repeat (destruct Hp as [Hp | Hp];
          [ injection Hp as <- <- <-;
            first
              [ (* the percentage pattern *)
                right; split; [reflexivity |];
                apply findall_sound in Hmt; destruct Hmt as (x & Hx & ->);
                apply percent_group in Hx; destruct Hx as (c & rest & Hg & Hc);
                exists c, rest; split; [| exact Hc];
                change (found_of _ x) with (FStr (group 1 x));
                rewrite Hg; reflexivity
              | (* a pattern with two groups *)
                left; split; [discriminate |];
                unfold findall in Hmt; apply in_map_iff in Hmt;
                destruct Hmt as (x & <- & _);
                exists (group 1 x), (group 2 x); reflexivity ]
          | ]).
  contradiction.
Qed.

Lemma usable_value metric_type unit_ mt :
  usable metric_type mt -> exists vu, value_and_unit mt unit_ = Val vu.
Proof.
  intros [(_ & g1 & g2 & ->) | (_ & c & rest & -> & _)].
  - eexists. reflexivity.
  - destruct rest; eexists; reflexivity.
Qed.

(** the inner loop adds one metric for each match *)
Lemma explicit_loop_adds metric_type unit_ (ms : list found) :
  (forall mt, In mt ms -> usable metric_type mt) ->
  forall acc,
  exists added,
    explicit_loop metric_type unit_ ms acc = Val (acc ++ added)%list /\
    List.length added = List.length ms /\
    (forall m, In m added ->
       exists mt vu,
         In mt ms /\ value_and_unit mt unit_ = Val vu /\
         m = explicit_metric metric_type vu).
Proof.
  induction ms as [| mt ms IH]; intros Hok acc.
  - exists []. rewrite app_nil_r. repeat split. intros m [].
  - cbn [explicit_loop].
    destruct (usable_value metric_type unit_ mt (Hok mt (or_introl eq_refl)))
      as (vu & Hvu).
    rewrite Hvu.
    destruct (IH (fun m H => Hok m (or_intror H))
                (acc ++ [explicit_metric metric_type vu])%list)
      as (added & -> & Hlen & Hall).
    exists (explicit_metric metric_type vu :: added).
    rewrite <- app_assoc. split; [reflexivity | split].
    + simpl. rewrite Hlen. reflexivity.
    + intros m [<- | Hin].
      * exists mt, vu. repeat split; [left; reflexivity | exact Hvu].
      * destruct (Hall m Hin) as (mt' & vu' & Hin' & Hv & ->).
        exists mt', vu'. repeat split; [right; exact Hin' | exact Hv].
Qed.

(** the outer loop: it never raises, adds nothing exactly when no pattern
    matches, and every metric it adds comes from a match of its pattern *)
Lemma numeric_loop_adds (text : string)
  (patterns : list (regex * string * string)) :
  (forall p t u mt, In (p, t, u) patterns -> In mt (findall p text) ->
                    usable t mt) ->
  forall acc,
  exists added,
    numeric_loop patterns text acc = Val (acc ++ added)%list /\
    (added = [] <->
     forall p t u, In (p, t, u) patterns -> findall p text = []) /\
    (forall m, In m added ->
       exists p t u mt vu,
         In (p, t, u) patterns /\ In mt (findall p text) /\ usable t mt /\
         value_and_unit mt u = Val vu /\ m = explicit_metric t vu).
Proof.
  induction patterns as [| [[p t] u] rest IH]; intros Hok acc.
  - exists []. rewrite app_nil_r. split; [reflexivity | split].
    + split; [intros _ p t u [] | reflexivity].
    + intros m [].
  - cbn [numeric_loop].
    destruct (explicit_loop_adds t u (findall p text)
                (fun mt H => Hok p t u mt (or_introl eq_refl) H) acc)
      as (added1 & -> & Hlen1 & Hall1).
    destruct (IH (fun p' t' u' mt H => Hok p' t' u' mt (or_intror H))
                (acc ++ added1)%list)
      as (added2 & -> & Hnil2 & Hall2).
    exists (added1 ++ added2)%list. rewrite <- app_assoc.
    split; [reflexivity | split].
    + split.
      * intros Hnil p' t' u' [Heq | Hin].
        -- injection Heq as <- <- <-.
           apply app_eq_nil in Hnil. destruct Hnil as [Hn1 _].
           rewrite Hn1 in Hlen1. simpl in Hlen1.
           destruct (findall p text); [reflexivity | discriminate].
        -- apply app_eq_nil in Hnil. destruct Hnil as [_ Hn2].
           apply (proj1 Hnil2 Hn2 p' t' u' Hin).
      * intro Hnone.
        assert (H1 : added1 = []).
        { rewrite (Hnone p t u (or_introl eq_refl)) in Hlen1.
          destruct added1; [reflexivity | discriminate]. }
        assert (H2 : added2 = []).
        { apply Hnil2. intros p' t' u' Hin.
          apply (Hnone p' t' u' (or_intror Hin)). }
        rewrite H1, H2. reflexivity.
    + intros m Hin. apply in_app_or in Hin. destruct Hin as [Hin | Hin].
      * destruct (Hall1 m Hin) as (mt & vu & Hmt & Hv & ->).
        exists p, t, u, mt, vu.
        repeat split;
          [left; reflexivity | exact Hmt
           | apply (Hok p t u mt (or_introl eq_refl) Hmt) | exact Hv].
      * destruct (Hall2 m Hin) as (p' & t' & u' & mt & vu & Hp & Hrest).
        exists p', t', u', mt, vu. split; [right; exact Hp | exact Hrest].
Qed.

End MetricFacts.

Module MetricFacts2.

Import Re ReFacts PatternFacts MetricsIdentificationTool MetricFacts.

Lemma float_frac_nonneg s : forall num den,
  (0 <= num)%Z -> (0 <= Py.float_frac s num den)%Q.
Proof.
  induction s as [| c s IH]; intros num den Hnum; cbn [Py.float_frac].
  - unfold Qle. simpl. lia.
  - apply IH. pose proof (Nat2Z.is_nonneg (Py.code c - 48)). lia.
Qed.

Lemma float_lit_nonneg s : forall acc,
  (0 <= acc)%Z -> (0 <= Py.float_lit s acc)%Q.
Proof.
  induction s as [| c s IH]; intros acc Hacc; cbn [Py.float_lit].
  - unfold inject_Z, Qle. simpl. lia.
  - destruct (Py.is_digit c).
    + apply IH. pose proof (Nat2Z.is_nonneg (Py.code c - 48)). lia.
    + apply float_frac_nonneg. exact Hacc.
Qed.

Lemma float_nonneg s : (0 <= Py.float s)%Q.
Proof. apply float_lit_nonneg. lia. Qed.

(** [float] of a single character is a digit's value at most *)
Lemma float_of_char (c : ascii) : (Py.float (char_str c) <= 9)%Q.
Proof.
  unfold Py.float, char_str. cbn [Py.float_lit Py.float_frac].
  destruct (Py.is_digit c) eqn:E.
  - unfold Py.is_digit, Py.between in E. apply andb_true_iff in E.
    destruct E as [_ E]. apply Nat.leb_le in E.
    unfold inject_Z, Qle. simpl. lia.
  - unfold Qle. simpl. lia.
Qed.

Lemma numeric_types pattern metric_type unit_ :
  In (pattern, metric_type, unit_) numeric_patterns ->
  In metric_type
     ["weight"; "distance"; "time"; "money"; "percentage"; "count";
      "reading"; "writing"].
Proof.
  unfold numeric_patterns. intro H.
  repeat (destruct H as [H | H];
          [injection H as _ <- _; simpl; tauto |]).
  contradiction.
Qed.

Lemma implicit_metrics_medium description m :
  In m (_identify_implicit_metrics description) ->
  confidence m = "medium" /\ currentValue m = 0%Q /\
  (0 <= targetValue m)%Q /\
  In (name m)
     ["workout_sessions"; "study_hours"; "books_read"; "consecutive_days";
      "completion_percentage"].
Proof.
  unfold _identify_implicit_metrics.
  repeat destruct (Py.any_in _ (Py.lower description));
    simpl; intro H;
    repeat (destruct H as [<- | H];
            [simpl; repeat split; first [discriminate | tauto] |]);
    contradiction.
Qed.

Lemma score_bounds (c : string) :
  (3 # 10 <= Dict.get_or c (3 # 10) confidence_scores)%Q.
Proof.
  unfold Dict.get_or, confidence_scores. simpl.
  repeat destruct (String.eqb c _); discriminate.
Qed.

Lemma score_found (c : string) :
  c = "high" \/ c = "medium" ->
  (6 # 10 <= Dict.get_or c (3 # 10) confidence_scores)%Q.
Proof. intros [-> | ->]; vm_compute; discriminate. Qed.

(** a sum of [n] floats, each [lo] at least, is [n * lo] at least *)
Lemma fsum_acc_lower (lo : Q) (xs : list Q) :
  Forall (fun x => lo <= x)%Q xs ->
  forall acc,
    (acc + lo * F.of_nat (List.length xs) <= fold_left F.add xs acc)%Q.
Proof.
  induction 1 as [| x xs Hx _ IH]; intro acc; cbn [List.length fold_left].
  - change (F.of_nat 0) with 0%Q. rewrite Qmult_0_r, Qplus_0_r.
    apply Qle_refl.
  - eapply Qle_trans; [| apply IH]. rewrite FFacts.add_eq.
    unfold F.of_nat. rewrite Nat2Z.inj_succ, <- Z.add_1_r, inject_Z_plus.
    change (inject_Z 1) with 1%Q. rewrite Qmult_plus_distr_r, Qmult_1_r.
    generalize (lo * inject_Z (Z.of_nat (List.length xs)))%Q. intro z. lra.
Qed.

Lemma mean_lower (lo : Q) (xs : list Q) :
  xs <> [] -> Forall (fun x => lo <= x)%Q xs ->
  (lo <= F.div (fsum xs) (F.of_nat (List.length xs)))%Q.
Proof.
  intros Hne Hall. rewrite FFacts.div_eq.
  assert (Hpos : (0 < F.of_nat (List.length xs))%Q).
  { apply FFacts.of_nat_pos. destruct xs; [contradiction Hne; reflexivity |].
    simpl. lia. }
  apply Qle_shift_div_l; [exact Hpos |].
  pose proof (fsum_acc_lower lo xs Hall 0%Q) as H. unfold fsum.
  rewrite Qplus_0_l in H. exact H.
Qed.

Lemma metrics_confidence_lower (lo : Q) (ms : list MetricRecord) :
  ms <> [] -> (lo <= 1)%Q ->
  (forall m, In m ms ->
     (lo <= Dict.get_or (confidence m) (3 # 10) confidence_scores)%Q) ->
  (lo <= _calculate_metrics_confidence ms)%Q.
Proof.
  intros Hne Hlo Hall. unfold _calculate_metrics_confidence.
  destruct ms as [| m0 ms0] eqn:Ems; [contradiction Hne; reflexivity |].
  rewrite <- Ems in *. apply FFacts.min_lower; [exact Hlo |].
  rewrite <- (length_map (fun metric =>
                 Dict.get_or (confidence metric) (3 # 10)%Q
                   confidence_scores)).
  apply mean_lower.
  - rewrite Ems. discriminate.
  - apply Forall_forall. intros x Hx. apply in_map_iff in Hx.
    destruct Hx as (m & <- & Hm). apply Hall. exact Hm.
Qed.

(** the explicit metrics of a description, as the loops leave them *)
Lemma explicit_metrics (description : string) :
  exists explicit,
    numeric_loop numeric_patterns (Py.lower description) [] = Val explicit /\
    (explicit = [] <-> has_explicit_metric description = false) /\
    (forall m, In m explicit ->
       exists p t u mt vu,
         In (p, t, u) numeric_patterns /\
         In mt (findall p (Py.lower description)) /\ usable t mt /\
         value_and_unit mt u = Val vu /\ m = explicit_metric t vu).
Proof.
  destruct (numeric_loop_adds (Py.lower description) numeric_patterns
              (numeric_matches_usable (Py.lower description)) [])
    as (added & Hrun & Hnil & Hall).
  exists added. split; [exact Hrun | split; [| exact Hall]].
  rewrite Hnil. unfold has_explicit_metric. split.
  - intro Hnone. apply not_true_is_false. intro Hex.
    apply existsb_exists in Hex. destruct Hex as ([[p t] u] & Hin & Hne).
    rewrite (Hnone p t u Hin) in Hne. discriminate.
  - intros Hex p t u Hin.
    destruct (findall p (Py.lower description)) as [| mt l] eqn:E;
      [reflexivity |].
    exfalso.
    assert (Htrue : existsb
              (fun '(pattern, _, _) =>
                 ConstraintExtractionTool.nonempty
                   (findall pattern (Py.lower description)))
              numeric_patterns = true).
    { apply existsb_exists. exists (p, t, u). split; [exact Hin |].
      rewrite E. reflexivity. }
    rewrite Htrue in Hex. discriminate.
Qed.

(** the metrics identifier never takes its error path *)
Lemma metrics_run_normal description w :
  exists explicit,
    numeric_loop numeric_patterns (Py.lower description) [] = Val explicit /\
    let ms :=
      match (explicit ++ _identify_implicit_metrics description)%list with
      | [] => _suggest_default_metrics description
      | found => found
      end in
    let r :=
      {| metrics := firstn 5 ms;
         m_confidence := _calculate_metrics_confidence ms;
         m_reasoning :=
           "Identified " ++ Py.str_of_nat (List.length ms)
           ++ " measurable metrics from the description" |} in
    run_body description w = (Val r, w) /\ run description w = (Val r, w).
Proof.
  destruct (explicit_metrics description) as (explicit & Hrun & _).
  exists explicit. split; [exact Hrun |]. cbv zeta.
  assert (Hbody : run_body description w
                  = (Val {| metrics :=
                              firstn 5
                                match (explicit
                                       ++ _identify_implicit_metrics
                                            description)%list with
                                | [] => _suggest_default_metrics description
                                | found => found
                                end;
                            m_confidence :=
                              _calculate_metrics_confidence
                                match (explicit
                                       ++ _identify_implicit_metrics
                                            description)%list with
                                | [] => _suggest_default_metrics description
                                | found => found
                                end;
                            m_reasoning :=
                              "Identified "
                              ++ Py.str_of_nat
                                   (List.length
                                      match (explicit
                                             ++ _identify_implicit_metrics
                                                  description)%list with
                                      | [] =>
                                          _suggest_default_metrics description
                                      | found => found
                                      end)
                              ++ " measurable metrics from the description"
                         |}, w)).
  { unfold run_body, bind, lift. rewrite Hrun. unfold ret.
    destruct (explicit ++ _identify_implicit_metrics description)%list;
      reflexivity. }
  split; [exact Hbody |].
  unfold run, run_with. apply try_except_val. exact Hbody.
Qed.

End MetricFacts2.

Section MetricsProperties.

Import Re MetricsIdentificationTool MetricFacts MetricFacts2.

(** where each metric of the list comes from *)
Lemma metric_origin description explicit m :
  (forall m, In m explicit ->
     exists p t u mt vu,
       In (p, t, u) numeric_patterns /\
       In mt (findall p (Py.lower description)) /\ usable t mt /\
       value_and_unit mt u = Val vu /\ m = explicit_metric t vu) ->
  In m match (explicit ++ _identify_implicit_metrics description)%list with
       | [] => _suggest_default_metrics description
       | found => found
       end ->
  (exists p t u mt vu,
     In (p, t, u) numeric_patterns /\
     In mt (findall p (Py.lower description)) /\ usable t mt /\
     value_and_unit mt u = Val vu /\ m = explicit_metric t vu) \/
  In m (_identify_implicit_metrics description) \/
  ((explicit ++ _identify_implicit_metrics description)%list = [] /\
   In m (_suggest_default_metrics description)).
Proof.
  intros Hexp Hin.
  destruct (explicit ++ _identify_implicit_metrics description)%list
    as [| m0 l] eqn:E.
  - right. right. split; [reflexivity | exact Hin].
  - rewrite <- E in Hin. apply in_app_or in Hin.
    destruct Hin as [Hin | Hin]; [left; apply Hexp, Hin | right; left; exact Hin].
Qed.

Lemma explicit_metric_name pattern metric_type unit_ vu :
  In (pattern, metric_type, unit_) numeric_patterns ->
  name (explicit_metric metric_type vu) <> "completion_status" /\
  (name (explicit_metric metric_type vu) = "percentage_target" ->
   metric_type = "percentage").
Proof.
  intro H. apply numeric_types in H. simpl in H.
  repeat (destruct H as [<- | H];
          [simpl; split; [discriminate | first [reflexivity | discriminate]] |]).
  contradiction.
Qed.

(** The metrics identifier never takes its error path, so the fallback
    metric "completion_status" is never returned.  It always returns between
    one and five metrics, each with a current value of 0 and a target that
    is not negative, and a confidence of 0.3 at least. *)
Theorem metrics_never_fall_back (description : string) (w : world) :
  exists r,
    run description w = (Val r, w) /\
    run_body description w = (Val r, w) /\
    (1 <= List.length (metrics r) <= 5)%nat /\
    (forall m, In m (metrics r) ->
       name m <> "completion_status" /\ currentValue m = 0%Q /\
       (0 <= targetValue m)%Q /\
       In (confidence m) ["high"; "medium"; "low"]) /\
    (3 # 10 <= m_confidence r)%Q.
Proof.
  destruct (explicit_metrics description) as (explicit & Hrun & _ & Hexp).
  destruct (metrics_run_normal description w) as (explicit' & Hrun' & H).
  rewrite Hrun in Hrun'. injection Hrun' as <-.
  cbv zeta in H. destruct H as [Hbody Hr].
  eexists. split; [exact Hr | split; [exact Hbody |]].
  cbn [metrics m_confidence].
  set (ms := match (explicit ++ _identify_implicit_metrics description)%list
             with
             | [] => _suggest_default_metrics description
             | found => found
             end).
  assert (Hne : ms <> []).
  { unfold ms.
    destruct (explicit ++ _identify_implicit_metrics description)%list;
      discriminate. }
  split; [| split].
  - rewrite length_firstn.
    destruct ms as [| m0 l]; [contradiction Hne; reflexivity |].
    cbn [List.length]. lia.
  - intros m Hin. apply firstn_In in Hin.
    destruct (metric_origin description explicit m Hexp Hin)
      as [(p & t & u & mt & vu & Hp & _ & _ & _ & ->)
         | [Himp | [_ [<- | []]]]].
    + destruct (explicit_metric_name p t u vu Hp) as [Hname _].
      repeat split; [exact Hname | apply float_nonneg | left; reflexivity].
    + destruct (implicit_metrics_medium description m Himp)
        as (Hc & Hv & Ht & Hn).
      repeat split; [| exact Hv | exact Ht | rewrite Hc; simpl; tauto].
      intro C. rewrite C in Hn. simpl in Hn. intuition discriminate.
    + simpl. repeat split; [discriminate | discriminate | tauto].
  - apply metrics_confidence_lower; [exact Hne | discriminate |].
    intros m _. apply score_bounds.
Qed.

(** whether the description names anything measurable: an explicit numeric
    metric or one of the implicit-metric keywords *)
Definition measurable (description : string) : bool :=
  has_explicit_metric description
  || ConstraintExtractionTool.nonempty
       (_identify_implicit_metrics description).

Lemma metrics_found_or_default (description : string) (w : world) :
  returns
    (fun r =>
       (measurable description = false ->
        metrics r = _suggest_default_metrics description /\
        m_confidence r = (3 # 10)%Q) /\
       (measurable description = true ->
        (forall m, In m (metrics r) ->
           (confidence m = "high" \/ confidence m = "medium") /\
           name m <> "progress_score") /\
        (6 # 10 <= m_confidence r)%Q))
    (run description w).
Proof.
  destruct (explicit_metrics description) as (explicit & Hrun & Hnil & Hexp).
  destruct (metrics_run_normal description w) as (explicit' & Hrun' & H).
  rewrite Hrun in Hrun'. injection Hrun' as <-.
  cbv zeta in H. destruct H as [_ Hr].
  unfold returns. rewrite Hr. cbn [fst metrics m_confidence].
  unfold measurable. split.
  - intro Hm. apply orb_false_iff in Hm. destruct Hm as [He Hi].
    apply Hnil in He. subst explicit.
    destruct (_identify_implicit_metrics description); [| discriminate].
    split; reflexivity.
  - intro Hm.
    assert (Hfound : (explicit ++ _identify_implicit_metrics description)%list
                     <> []).
    { intro C. apply app_eq_nil in C. destruct C as [C1 C2].
      apply Hnil in C1. rewrite C1, C2 in Hm. discriminate. }
    assert (Hall : forall m,
               In m (explicit ++ _identify_implicit_metrics description)%list ->
               (confidence m = "high" \/ confidence m = "medium") /\
               name m <> "progress_score").
    { intros m Hin. apply in_app_or in Hin. destruct Hin as [Hin | Hin].
      - destruct (Hexp m Hin) as (p & t & u & mt & vu & Hp & _ & _ & _ & ->).
        split; [left; reflexivity |].
        apply numeric_types in Hp. simpl in Hp.
        repeat (destruct Hp as [<- | Hp]; [simpl; discriminate |]).
        contradiction.
      - destruct (implicit_metrics_medium description m Hin)
          as (Hc & _ & _ & Hn).
        split; [right; exact Hc |].
        intro C. rewrite C in Hn. simpl in Hn. intuition discriminate. }
    destruct (explicit ++ _identify_implicit_metrics description)%list
      as [| m0 l] eqn:E; [contradiction Hfound; reflexivity |].
    split.
    + intros m Hin. apply firstn_In in Hin. apply Hall. exact Hin.
    + apply metrics_confidence_lower; [discriminate | discriminate |].
      intros m Hin. apply score_found. apply Hall. exact Hin.
Qed.

(** The default metric "progress_score" is returned only when nothing
    measurable is found, and then alone, with confidence 0.3.  When
    something is found every metric has confidence "high" or "medium" and
    the overall metrics confidence is 0.6 at least. *)
Theorem default_metric_only_when_nothing_found (description : string)
  (w : world) :
  returns
    (fun r =>
       (measurable description = false ->
        metrics r = _suggest_default_metrics description /\
        m_confidence r = (3 # 10)%Q) /\
       (measurable description = true ->
        (forall m, In m (metrics r) ->
           (confidence m = "high" \/ confidence m = "medium") /\
           name m <> "progress_score") /\
        (6 # 10 <= m_confidence r)%Q))
    (run description w).
Proof. apply metrics_found_or_default. Qed.

End MetricsProperties.

(** ** The aggregator *)

Section AggregatorProperties.

(** The aggregator's [try] block never raises: the four tools are run in
    turn, the clock is read once more for the time stamp, and the report is
    assembled from their results. *)
Lemma process_normal (description : string) (w : world) :
  exists ri rt rm rc k,
    (k <= 3)%nat /\
    IntentExtractionTool.run description w = (Val ri, w) /\
    TimeframeParsingTool.run description w = (Val rt, advance k w) /\
    MetricsIdentificationTool.run description w = (Val rm, w) /\
    ConstraintExtractionTool.run description w = (Val rc, w) /\
    NLPAgent.process_goal_description description w
    = (Val {| original_description := description;
              intent := ri; timeframe := rt; metrics_analysis := rm;
              constraints_analysis := rc;
              overall_confidence :=
                NLPAgent._calculate_overall_confidence ri rt rm rc;
              processing_timestamp :=
                DT.isoformat (clock w (ticks w + k));
              agent_version := "1.0.0";
              a_error := None;
              summary :=
                NLPAgent._generate_analysis_summary ri rt rm
                  (NLPAgent._calculate_overall_confidence ri rt rm rc);
              recommendations :=
                NLPAgent._generate_recommendations ri rt rm rc |},
       advance (S k) w).
Proof.
  assert (Hi : exists ri, forall w0,
             IntentExtractionTool.run description w0 = (Val ri, w0)).
  { eexists. intro w0. reflexivity. }
  destruct Hi as (ri & Hi).
  destruct (reads_self 3 _ w (timeframe_reads description))
    as (ot & k & Hk & Ht).
  assert (Hrt : exists rt, ot = Val rt).
  { pose proof (timeframe_run_confidence description w) as H.
    unfold returns in H. rewrite Ht in H. simpl in H.
    destruct ot as [rt | e]; [exists rt; reflexivity | contradiction]. }
  destruct Hrt as (rt & ->).
  assert (Hm : exists rm, forall w0,
             MetricsIdentificationTool.run description w0 = (Val rm, w0)).
  { destruct (MetricFacts2.metrics_run_normal description w)
      as (explicit & Hrun & _).
    eexists. intro w0.
    destruct (MetricFacts2.metrics_run_normal description w0)
      as (explicit' & Hrun' & H).
    rewrite Hrun in Hrun'. injection Hrun' as <-.
    cbv zeta in H. apply H. }
  destruct Hm as (rm & Hm).
  assert (Hc : exists rc, forall w0,
             ConstraintExtractionTool.run description w0 = (Val rc, w0)).
  { eexists. intro w0. apply constraints_run_normal. }
  destruct Hc as (rc & Hc).
  exists ri, rt, rm, rc, k.
  split; [exact Hk |]. split; [apply Hi |]. split; [exact Ht |].
  split; [apply Hm |]. split; [apply Hc |].
  unfold NLPAgent.process_goal_description, NLPAgent.process_with,
    NLPAgent.process_body, try_except, bind.
  rewrite Hi, Ht, Hm, Hc. unfold now, ret. cbn [clock ticks advance].
  do 2 f_equal. unfold advance. f_equal. lia.
Qed.

(** The aggregator never uses its fallback report: for every description
    and whatever the clock shows it returns a report without [error], whose
    four parts are what the four tools return on their own; a failure of the
    timeframe parser stays inside the timeframe part.  It reads the clock at
    most four times, the last time for the time stamp. *)
Theorem aggregator_never_falls_back (description : string) (w : world) :
  exists a k,
    (k <= 3)%nat /\
    NLPAgent.process_goal_description description w
    = (Val a, advance (S k) w) /\
    a_error a = None /\
    original_description a = description /\
    fst (IntentExtractionTool.run description w) = Val (intent a) /\
    fst (TimeframeParsingTool.run description w) = Val (timeframe a) /\
    fst (MetricsIdentificationTool.run description w)
    = Val (metrics_analysis a) /\
    fst (ConstraintExtractionTool.run description w)
    = Val (constraints_analysis a) /\
    processing_timestamp a = DT.isoformat (clock w (ticks w + k)).
Proof.
  destruct (process_normal description w)
    as (ri & rt & rm & rc & k & Hk & Hi & Ht & Hm & Hc & Hp).
  eexists. exists k. split; [exact Hk |]. split; [exact Hp |].
  cbn [a_error original_description intent timeframe metrics_analysis
       constraints_analysis processing_timestamp].
  rewrite Hi, Ht, Hm, Hc. repeat split.
Qed.

(** a report made on the 29th of February: the timeframe part is the
    fallback of the timeframe parser, the report itself is not a fallback *)
Example report_on_leap_day :
  returns
    (fun a => a_error a = None /\
              t_error (timeframe a) = Some "day is out of range for month" /\
              domain (intent a) = "learning")
    (NLPAgent.process_goal_description "learn to cook by next week"
       Sample.leap_day).
Proof. vm_compute. repeat split. Qed.

Definition obstacles_advice : string :=
  "Consider potential obstacles or constraints that might affect your goal".
Definition measurable_advice : string :=
  "Include measurable outcomes or success criteria".
Definition fitness_advice : string :=
  "Consider tracking specific metrics like workout frequency or performance improvements".
Definition learning_advice : string :=
  "Break down the learning goal into specific skills or knowledge areas".
Definition career_advice : string :=
  "Define specific career milestones or skill developments".

Lemma recommendations_triggers (i : IntentResult) (t : TimeframeResult)
  (m : MetricsResult) (c : ConstraintsResult) :
  let recs := NLPAgent._generate_recommendations i t m c in
  (In obstacles_advice recs <-> total_count c = 0%nat) /\
  (In measurable_advice recs <-> F.ltb (m_confidence m) (6 # 10) = true) /\
  (In fitness_advice recs <-> domain i = "fitness") /\
  (In learning_advice recs <-> domain i = "learning") /\
  (In career_advice recs <-> domain i = "career").
Proof.
  unfold NLPAgent._generate_recommendations, obstacles_advice,
    measurable_advice, fitness_advice, learning_advice, career_advice.
  destruct (F.ltb (i_confidence i) (6 # 10));
    destruct (F.ltb (t_confidence t) (6 # 10));
    destruct (F.ltb (m_confidence m) (6 # 10));
    destruct (Nat.eqb_spec (total_count c) 0);
    destruct (String.eqb_spec (domain i) "fitness") as [Hf | Hf];
    try (destruct (String.eqb_spec (domain i) "learning") as [Hl | Hl]);
    try (destruct (String.eqb_spec (domain i) "career") as [Hc | Hc]);
    cbv zeta; cbn [app firstn In];
    repeat split; intro H;
    repeat match goal with
           | H : _ \/ _ |- _ => destruct H as [H | H]
           end;
    first [ assumption | discriminate | contradiction | congruence
          | tauto ].
Qed.

Lemma constraints_count_zero description w w' rc :
  ConstraintExtractionTool.run description w = (Val rc, w') ->
  (total_count rc = 0%nat <-> constraints rc = []).
Proof.
  rewrite constraints_run_normal. cbv zeta.
  match goal with
  | |- (Val ?r0, _) = _ -> _ => set (r := r0)
  end.
  intro H. assert (E : rc = r) by congruence. subst rc. unfold r.
  cbn [total_count constraints].
  destruct (ConstraintExtractionTool.flatten _ _); split; intro C;
    first [reflexivity | discriminate].
Qed.

(** Which recommendations a report carries.  The list is never cut short
    (at most five are ever made), so: the advice to consider obstacles is
    there exactly when no constraint was found, the advice to include
    measurable outcomes exactly when nothing measurable was found, and the
    advice for the fitness, learning or career domain exactly when that is
    the domain of the goal. *)
Theorem recommendations_follow_findings (description : string) (w : world) :
  returns
    (fun a =>
       (In obstacles_advice (recommendations a) <->
        constraints (constraints_analysis a) = []) /\
       (In measurable_advice (recommendations a) <->
        measurable description = false) /\
       (In fitness_advice (recommendations a) <->
        domain (intent a) = "fitness") /\
       (In learning_advice (recommendations a) <->
        domain (intent a) = "learning") /\
       (In career_advice (recommendations a) <->
        domain (intent a) = "career"))
    (NLPAgent.process_goal_description description w).
Proof.
  destruct (process_normal description w)
    as (ri & rt & rm & rc & k & Hk & Hi & Ht & Hm & Hc & Hp).
  unfold returns. rewrite Hp.
  cbn [fst recommendations constraints_analysis intent].
  destruct (recommendations_triggers ri rt rm rc)
    as (Hobs & Hmeas & Hfit & Hlearn & Hcareer).
  split; [| split; [| split; [| split]]]; try assumption.
  - rewrite Hobs. apply (constraints_count_zero description w w). exact Hc.
  - rewrite Hmeas.
    pose proof (metrics_found_or_default description w) as Hfound.
    unfold returns in Hfound. rewrite Hm in Hfound.
    cbn [fst] in Hfound. destruct Hfound as [Hnone Hsome].
    destruct (measurable description).
    + destruct (Hsome eq_refl) as [_ Hge].
      apply FFacts.ltb_ge in Hge. rewrite Hge. split; discriminate.
    + destruct (Hnone eq_refl) as [_ ->]. split; reflexivity.
Qed.

End AggregatorProperties.

(** ** Explicit dates *)

Lemma date_of_match_calendar_day (current_year : Z) (mt : Re.found)
  (dt : datetime) :
  TimeframeParsingTool.date_of_match current_year mt = Val (Some dt) ->
  DT.valid_date (year dt) (month dt) (day dt) = true /\
  (hour dt, minute dt, second dt, microsecond dt) = (0, 0, 0, 0)%Z /\
  ((year dt < 100)%Z -> exists month_name d y, mt = Re.FTuple [month_name; d; y]).
Proof.
  assert (Hmake : forall y mth d dt0,
             DT.make y mth d = Val dt0 ->
             DT.valid_date (year dt0) (month dt0) (day dt0) = true /\
             (hour dt0, minute dt0, second dt0, microsecond dt0)
             = (0, 0, 0, 0)%Z /\ year dt0 = y).
  { intros y mth d dt0. unfold DT.make.
    destruct (DT.valid_date y mth d) eqn:E; [| discriminate].
    intro H. injection H as <-. simpl. repeat split. exact E. }
  assert (Hnum : forall s dt0,
             TimeframeParsingTool.numeric_date s = Val (Some dt0) ->
             DT.valid_date (year dt0) (month dt0) (day dt0) = true /\
             (hour dt0, minute dt0, second dt0, microsecond dt0)
             = (0, 0, 0, 0)%Z /\ (100 <= year dt0)%Z).
  { intros s dt0. unfold TimeframeParsingTool.numeric_date.
    destruct (if Py.contains "/" s then _ else _)
      as [| mth [| d [| y [| ? ?]]]]; try discriminate.
    destruct (DT.make _ _ _) as [dt1 |] eqn:E; [| discriminate].
    intro H. injection H as <-.
    destruct (Hmake _ _ _ _ E) as (Hv & Hmid & Hy).
    repeat split; [exact Hv | exact Hmid |]. rewrite Hy.
    pose proof (int_digits_nonneg y 0 (Z.le_refl 0)) as Hpos.
    fold (Py.int y) in Hpos.
    destruct (Py.int y <? 100)%Z eqn:E100; [| apply Z.ltb_ge in E100; lia].
    destruct (Py.int y <? 50)%Z; lia. }
  unfold TimeframeParsingTool.date_of_match.
  destruct mt as [date_str | [| a [| b [| c [| ? ?]]]]]; intro H;
    try discriminate;
    try (destruct (Hnum _ _ H) as (Hv & Hmid & Hy);
         repeat split; [exact Hv | exact Hmid | intro; exfalso; lia]).
  destruct (DT.make _ _ _) as [dt1 |] eqn:E; [| discriminate].
  injection H as <-. destruct (Hmake _ _ _ _ E) as (Hv & Hmid & _).
  repeat split; [exact Hv | exact Hmid |].
  intros _. exists a, b, c. reflexivity.
Qed.

Lemma fold_pick_origin current_year matches :
  forall end_date dt,
    fold_left (pick_date current_year) matches end_date = Some dt ->
    end_date = Some dt \/
    exists mt, In mt matches /\
      TimeframeParsingTool.date_of_match current_year mt = Val (Some dt).
Proof.
  induction matches as [| mt rest IH]; intros end_date dt H; simpl in H.
  - left. exact H.
  - destruct (IH _ _ H) as [E | (mt' & Hin & Hmt)].
    + unfold pick_date in E.
      destruct (TimeframeParsingTool.date_of_match current_year mt)
        as [[dt1 |] | e] eqn:Emt;
        try (left; exact E).
      right. exists mt. split; [left; reflexivity |]. rewrite Emt, E.
      reflexivity.
    + right. exists mt'. split; [right; exact Hin | exact Hmt].
Qed.

(** The end date an explicit date gives is a day of the calendar, at
    midnight, read from one of the matches of the date patterns.  When that
    match was written with digits only ([MM/DD/YY] or [MM-DD-YYYY]) the year
    is never below 100, since a year under 100 is moved into 1950 to 2049:
    an end date in the first century was written with a month name. *)
Theorem explicit_date_is_calendar_day (current_year : Z)
  (description : string) (dt : datetime) :
  explicit_end_date current_year description = Some dt ->
  DT.valid_date (year dt) (month dt) (day dt) = true /\
  (hour dt, minute dt, second dt, microsecond dt) = (0, 0, 0, 0)%Z /\
  exists mt,
    In mt (date_matches description) /\
    TimeframeParsingTool.date_of_match current_year mt = Val (Some dt) /\
    ((year dt < 100)%Z ->
     exists month_name d y, mt = Re.FTuple [month_name; d; y]).
Proof.
  intro H. unfold explicit_end_date in H.
  apply fold_pick_origin in H. destruct H as [H | (mt & Hin & Hmt)];
    [discriminate |].
  destruct (date_of_match_calendar_day _ _ _ Hmt) as (Hv & Hmid & Hy).
  repeat split; [exact Hv | exact Hmid |].
  exists mt. repeat split; assumption.
Qed.

Lemma explicit_date_is_calendar_day_witness :
  let dt := {| year := 50; month := 3; day := 5; hour := 0; minute := 0;
               second := 0; microsecond := 0 |} in
  DT.valid_date (year dt) (month dt) (day dt) = true /\
  (hour dt, minute dt, second dt, microsecond dt) = (0, 0, 0, 0)%Z /\
  exists mt,
    In mt (date_matches "Found the city by March 5, 0050") /\
    TimeframeParsingTool.date_of_match 2025 mt = Val (Some dt) /\
    exists month_name d y, mt = Re.FTuple [month_name; d; y].
Proof.
  intro dt.
  destruct (explicit_date_is_calendar_day 2025
              "Found the city by March 5, 0050" dt)
    as (Hv & Hmid & mt & Hin & Hmt & Hy).
  - vm_compute. reflexivity.
  - split; [exact Hv |]. split; [exact Hmid |].
    exists mt. split; [exact Hin |]. split; [exact Hmt |].
    apply Hy. reflexivity.
Defined.

(** ** Descriptions without digits *)

Module DigitFacts.

Import Re ReFacts.

Local Open Scope string_scope.

Fixpoint has_digit (s : string) : bool :=
  match s with
  | EmptyString => false
  | String c s' => Py.is_digit c || has_digit s'
  end.

(** the pattern cannot match without consuming a digit *)
Fixpoint needs_digit (r : regex) : bool :=
  match r with
  | Lit l => has_digit l
  | Cls Digit => true
  | Cls _ => false
  | Seq r1 r2 => needs_digit r1 || needs_digit r2
  | Alt r1 r2 => needs_digit r1 && needs_digit r2
  | Opt _ => false
  | Rep Digit lo _ _ => (0 <? lo)%nat
  | Rep _ _ _ _ => false
  | Grp _ r1 => needs_digit r1
  | WordB | Eos => false
  end.

Lemma has_digit_app (a b : string) :
  has_digit (a ++ b) = has_digit a || has_digit b.
Proof.
  induction a as [| c a IH]; simpl; [reflexivity |].
  rewrite IH, orb_assoc. reflexivity.
Qed.

Lemma matches_needs_digit r w cs cs' :
  matches r w cs cs' -> needs_digit r = true -> has_digit w = true.
Proof.
  induction 1 as [l cs | c a cs Ha | r1 r2 w1 w2 cs cs1 cs2 _ IH1 _ IH2
                  | r1 r2 w cs cs' _ IH | r1 r2 w cs cs' _ IH
                  | r w cs cs' _ IH | | c lo hi g w cs Hall Hlen
                  | i r w cs cs' _ IH | |];
    simpl; intro Hn; try discriminate.
  - exact Hn.
  - destruct c; try discriminate. simpl in Ha. rewrite Ha. reflexivity.
  - rewrite has_digit_app. apply orb_true_iff in Hn.
    destruct Hn as [Hn | Hn]; [rewrite IH1 by exact Hn; reflexivity |].
    rewrite IH2 by exact Hn. apply orb_true_r.
  - apply andb_true_iff in Hn. apply IH, Hn.
  - apply andb_true_iff in Hn. apply IH, Hn.
  - destruct c; try discriminate. apply Nat.ltb_lt in Hn.
    destruct w as [| a w]; [simpl in Hlen; lia |].
    destruct Hall as [Ha _]. simpl in Ha |- *. rewrite Ha. reflexivity.
  - apply IH, Hn.
Qed.

Lemma match_in_needs_digit r s x :
  match_in r s x -> needs_digit r = true -> has_digit s = true.
Proof.
  intros (before & after & -> & M) Hn.
  rewrite !has_digit_app, (matches_needs_digit _ _ _ _ M Hn).
  rewrite orb_true_l. apply orb_true_r.
Qed.

(** a pattern that needs a digit finds nothing in a text without one *)
Lemma findall_without_digit r s :
  needs_digit r = true -> has_digit s = false -> findall r s = [].
Proof.
  intros Hn Hs. destruct (findall r s) as [| f l] eqn:E; [reflexivity |].
  exfalso. destruct (findall_sound r s f) as (x & Hx & _);
    [rewrite E; left; reflexivity |].
  rewrite (match_in_needs_digit _ _ _ Hx Hn) in Hs. discriminate.
Qed.

Lemma search_without_digit r s :
  needs_digit r = true -> has_digit s = false -> search r s = None.
Proof.
  intros Hn Hs. destruct (search r s) as [x |] eqn:E; [| reflexivity].
  exfalso. apply search_sound in E.
  rewrite (match_in_needs_digit _ _ _ E Hn) in Hs. discriminate.
Qed.

Lemma lower_char_digit (c : ascii) :
  Py.is_digit (Py.lower_char c) = Py.is_digit c.
Proof.
  destruct c as [[] [] [] [] [] [] [] []]; reflexivity.
Qed.

Lemma has_digit_lower (s : string) : has_digit (Py.lower s) = has_digit s.
Proof.
  induction s as [| c s IH]; simpl; [reflexivity |].
  rewrite lower_char_digit, IH. reflexivity.
Qed.

End DigitFacts.

Section WithoutDigits.

Import DigitFacts.

Variable description : string.
Hypothesis no_digit : has_digit description = false.

Lemma lower_no_digit : has_digit (Py.lower description) = false.
Proof. rewrite has_digit_lower. exact no_digit. Qed.

Lemma no_duration_without_digit :
  TimeframeParsingTool._extract_duration description = Val [].
Proof.
  unfold TimeframeParsingTool._extract_duration,
    TimeframeParsingTool.scan_durations,
    TimeframeParsingTool.duration_patterns.
  cbn [fold_left TimeframeParsingTool.scan_step].
  repeat match goal with
         | |- context [Re.findall ?r (Py.lower description)] =>
             rewrite (findall_without_digit r (Py.lower description)
                        eq_refl lower_no_digit)
         end.
  reflexivity.
Qed.

Lemma no_explicit_metric_without_digit :
  has_explicit_metric description = false.
Proof.
  unfold has_explicit_metric. apply not_true_is_false. intro H.
  apply existsb_exists in H. destruct H as ([[p t] u] & Hin & Hne).
  unfold MetricsIdentificationTool.numeric_patterns in Hin.
  repeat (destruct Hin as [Hin | Hin];
          [injection Hin as <- _ _;
           match type of Hne with
           | context [Re.findall ?r (Py.lower description)] =>
               rewrite (findall_without_digit r (Py.lower description)
                          eq_refl lower_no_digit) in Hne
           end;
           discriminate |]).
  contradiction.
Qed.

Lemma no_explicit_date_without_digit (current_year : Z) :
  explicit_end_date current_year description = None.
Proof.
  unfold explicit_end_date, date_matches, TimeframeParsingTool.date_patterns.
  cbn [flat_map].
  repeat match goal with
         | |- context [Re.findall ?r (Py.lower description)] =>
             rewrite (findall_without_digit r (Py.lower description)
                        eq_refl lower_no_digit)
         end.
  reflexivity.
Qed.

End WithoutDigits.

(** A description of ASCII characters without any digit has no duration, no
    explicit date and no explicit metric: every metric it gets is an
    implicit or the default one, never one of confidence "high".  (Outside
    ASCII there are other decimal digits, which [\d], [int] and [float]
    accept.) *)
Theorem digit_free_description (description : string) (w : world) :
  Py.is_ascii description = true ->
  DigitFacts.has_digit description = false ->
  TimeframeParsingTool._extract_duration description = Val [] /\
  (forall current_year, explicit_end_date current_year description = None) /\
  has_explicit_metric description = false /\
  returns (fun r => forall m, In m (metrics r) -> confidence m <> "high")
    (MetricsIdentificationTool.run description w).
Proof.
  intros _ Hd.
  split; [apply no_duration_without_digit; exact Hd |].
  split; [intro y; apply no_explicit_date_without_digit; exact Hd |].
  pose proof (no_explicit_metric_without_digit description Hd) as Hnone.
  split; [exact Hnone |].
  destruct (MetricFacts2.explicit_metrics description)
    as (explicit & Hrun & Hnil & Hexp).
  destruct (MetricFacts2.metrics_run_normal description w)
    as (explicit' & Hrun' & H).
  rewrite Hrun in Hrun'. injection Hrun' as <-.
  cbv zeta in H. destruct H as [_ Hr].
  unfold returns. rewrite Hr. cbn [fst metrics].
  apply Hnil in Hnone. subst explicit. cbn [app].
  intros m Hin. apply firstn_In in Hin.
  destruct (MetricsIdentificationTool._identify_implicit_metrics description)
    as [| m0 l] eqn:E.
  - destruct Hin as [<- | []]. discriminate.
  - rewrite <- E in Hin.
    destruct (MetricFacts2.implicit_metrics_medium description m Hin)
      as (Hc & _). rewrite Hc. discriminate.
Qed.

Lemma digit_free_description_witness :
  TimeframeParsingTool._extract_duration "Be happy and exercise daily"
  = Val [] /\
  (forall current_year,
     explicit_end_date current_year "Be happy and exercise daily" = None) /\
  has_explicit_metric "Be happy and exercise daily" = false /\
  returns (fun r => forall m, In m (metrics r) -> confidence m <> "high")
    (MetricsIdentificationTool.run "Be happy and exercise daily"
       Sample.monday).
Proof.
  apply digit_free_description; vm_compute; reflexivity.
Defined.

(** ** When the timeframe parser cannot fail *)

Module DTFacts.

Local Open Scope Z_scope.

Lemma valid_date_iff y mth d :
  DT.valid_date y mth d = true <->
  1 <= y <= 9999 /\ 1 <= mth <= 12 /\ 1 <= d <= DT.days_in_month y mth.
Proof.
  unfold DT.valid_date, DT.MINYEAR, DT.MAXYEAR.
  rewrite !andb_true_iff, !Z.leb_le. tauto.
Qed.

Lemma month_cases mth :
  1 <= mth <= 12 ->
  mth = 1 \/ mth = 2 \/ mth = 3 \/ mth = 4 \/ mth = 5 \/ mth = 6 \/
  mth = 7 \/ mth = 8 \/ mth = 9 \/ mth = 10 \/ mth = 11 \/ mth = 12.
Proof. lia. Qed.

Lemma days_in_month_bounds y mth :
  1 <= mth <= 12 -> 28 <= DT.days_in_month y mth <= 31.
Proof.
  intro H. apply month_cases in H. unfold DT.days_in_month.
  repeat (destruct H as [-> | H]; [destruct (DT.is_leap y); simpl; lia |]).
  subst. destruct (DT.is_leap y); simpl; lia.
Qed.

Lemma days_in_month_other_year y y' mth :
  1 <= mth <= 12 -> mth <> 2 ->
  DT.days_in_month y' mth = DT.days_in_month y mth.
Proof.
  intros H H2. apply month_cases in H. unfold DT.days_in_month.
  repeat (destruct H as [-> | H];
          [first [contradiction H2; reflexivity | reflexivity] |]).
  subst. reflexivity.
Qed.

Lemma days_before_month_bounds y mth :
  1 <= mth <= 12 -> 0 <= DT.days_before_month y mth <= 335.
Proof.
  intro H. apply month_cases in H. unfold DT.days_before_month.
  repeat (destruct H as [-> | H]; [destruct (DT.is_leap y); simpl; lia |]).
  subst. destruct (DT.is_leap y); simpl; lia.
Qed.

Lemma days_before_year_bounds y :
  1 <= y <= 9998 -> 0 <= DT.days_before_year y <= 3651329.
Proof.
  intro H. unfold DT.days_before_year. Z.div_mod_to_equations. lia.
Qed.

Lemma toordinal_bounds (t : datetime) :
  DT.valid_date (year t) (month t) (day t) = true -> year t <= 9998 ->
  1 <= DT.toordinal t <= 3651695.
Proof.
  intros Hv Hy. apply valid_date_iff in Hv. destruct Hv as (Hy1 & Hm & Hd).
  pose proof (days_in_month_bounds (year t) (month t) Hm).
  pose proof (days_before_month_bounds (year t) (month t) Hm).
  pose proof (days_before_year_bounds (year t) ltac:(lia)).
  unfold DT.toordinal, DT.ymd2ord. lia.
Qed.

(** adding up to thirty days to a date before the year 9999 succeeds *)
Lemma add_days_ok (t : datetime) (n : Z) :
  DT.valid_date (year t) (month t) (day t) = true -> year t <= 9998 ->
  0 <= n <= 30 ->
  exists dt, DT.add_days t n = Val dt.
Proof.
  intros Hv Hy Hn. pose proof (toordinal_bounds t Hv Hy) as Ho.
  unfold DT.add_days, DT.MAXORDINAL.
  replace ((2 ^ 31 <=? n) || (n <? - 2 ^ 31)) with false
    by (symmetry; apply orb_false_iff; rewrite Z.leb_gt, Z.ltb_ge; lia).
  replace (999999999 <? Z.abs n) with false
    by (symmetry; apply Z.ltb_ge; lia).
  replace ((1 <=? DT.toordinal t + n) && (DT.toordinal t + n <=? 3652059))
    with true
    by (symmetry; apply andb_true_iff; rewrite !Z.leb_le; lia).
  destruct (DT.ord2ymd _) as [[y mth] d]. eexists. reflexivity.
Qed.

Lemma weekday_bounds (t : datetime) : 0 <= DT.weekday t <= 6.
Proof.
  unfold DT.weekday.
  pose proof (Z.mod_pos_bound (DT.toordinal t + 6) 7 ltac:(lia)). lia.
Qed.

Lemma replace_ok (t : datetime) y mth d :
  DT.valid_date y mth d = true -> exists dt, DT.replace t y mth d = Val dt.
Proof. intro H. unfold DT.replace. rewrite H. eexists. reflexivity. Qed.

End DTFacts.
(** on a day of the calendar before the year 9999 other than the 29th of
    February, the seven dates of the table of relative dates exist *)
Lemma relative_table_ok (t : datetime) :
  DT.valid_date (year t) (month t) (day t) = true ->
  (year t <= 9998)%Z ->
  ~ (month t = 2%Z /\ day t = 29%Z) ->
  exists d1 d2 d3 d4 d5 d6 d7,
    DT.add_days t 1 = Val d1 /\
    DT.add_days t (1 * 7) = Val d2 /\
    DT.add_days t (7 - DT.weekday t) = Val d3 /\
    DT.add_days t 30 = Val d4 /\
    DT.replace t (year t) (month t) 28 = Val d5 /\
    DT.replace t (year t + 1) (month t) (day t) = Val d6 /\
    DT.replace t (year t) 12 31 = Val d7.
Proof.
  intros Hv Hy Hleap.
  pose proof (proj1 (DTFacts.valid_date_iff _ _ _) Hv) as (Hy1 & Hm & Hday).
  pose proof (DTFacts.days_in_month_bounds (year t) (month t) Hm) as Hdim.
  pose proof (DTFacts.weekday_bounds t) as Hwd.
  destruct (DTFacts.add_days_ok t 1 Hv Hy ltac:(lia)) as (d1 & E1).
  destruct (DTFacts.add_days_ok t (1 * 7) Hv Hy ltac:(lia)) as (d2 & E2).
  destruct (DTFacts.add_days_ok t (7 - DT.weekday t) Hv Hy ltac:(lia))
    as (d3 & E3).
  destruct (DTFacts.add_days_ok t 30 Hv Hy ltac:(lia)) as (d4 & E4).
  destruct (DTFacts.replace_ok t (year t) (month t) 28) as (d5 & E5).
  { apply DTFacts.valid_date_iff. lia. }
  destruct (DTFacts.replace_ok t (year t + 1) (month t) (day t)) as (d6 & E6).
  { apply DTFacts.valid_date_iff. repeat split; try lia.
    destruct (Z.eq_dec (month t) 2) as [Em | Em].
    - pose proof (DTFacts.days_in_month_bounds (year t + 1) (month t) Hm).
      assert (day t <> 29%Z) by (intro C; apply Hleap; split; assumption).
      assert (DT.days_in_month (year t) (month t) <= 29)%Z.
      { rewrite Em. unfold DT.days_in_month.
        destruct (DT.is_leap (year t)); simpl; lia. }
      lia.
    - rewrite (DTFacts.days_in_month_other_year (year t) (year t + 1)
                 (month t) Hm Em). lia. }
  destruct (DTFacts.replace_ok t (year t) 12 31) as (d7 & E7).
  { apply DTFacts.valid_date_iff. repeat split; try lia.
    unfold DT.days_in_month. simpl. lia. }
  exists d1, d2, d3, d4, d5, d6, d7. repeat split; assumption.
Qed.

Lemma relative_dates_ok (description : string) (w : world) :
  let t := clock w (ticks w) in
  DT.valid_date (year t) (month t) (day t) = true ->
  (year t <= 9998)%Z ->
  ~ (month t = 2%Z /\ day t = 29%Z) ->
  DigitFacts.has_digit description = false ->
  exists o,
    TimeframeParsingTool._parse_relative_dates description w
    = (Val o, {| clock := clock w; ticks := S (ticks w) |}).
Proof.
  intros t Hv Hy Hleap Hd.
  destruct (relative_table_ok t Hv Hy Hleap)
    as (d1 & d2 & d3 & d4 & d5 & d6 & d7 & E1 & E2 & E3 & E4 & E5 & E6 & E7).
  unfold TimeframeParsingTool._parse_relative_dates, bind, now, lift.
  cbv beta iota zeta. fold t.
  rewrite E1, E2, E3, E4, E5, E6, E7.
  cbv beta iota zeta.
  destruct (TimeframeParsingTool.first_cue _ _) as [date_value |];
    [eexists; reflexivity |].
  pose proof (lower_no_digit description Hd) as Hl.
  rewrite (DigitFacts.search_without_digit
             (TimeframeParsingTool.in_pattern "day") _ eq_refl Hl).
  rewrite (DigitFacts.search_without_digit
             (TimeframeParsingTool.in_pattern "week") _ eq_refl Hl).
  rewrite (DigitFacts.search_without_digit
             (TimeframeParsingTool.in_pattern "month") _ eq_refl Hl).
  eexists. reflexivity.
Qed.

(** the word "today" comes first in the table of relative dates *)
Lemma relative_dates_today (description : string) (w : world) :
  let t := clock w (ticks w) in
  DT.valid_date (year t) (month t) (day t) = true ->
  (year t <= 9998)%Z ->
  ~ (month t = 2%Z /\ day t = 29%Z) ->
  IntentExtractionTool.found_in (TimeframeParsingTool.relative_cue "today")
    (Py.lower description) = true ->
  TimeframeParsingTool._parse_relative_dates description w
  = (Val (Some t), {| clock := clock w; ticks := S (ticks w) |}).
Proof.
  intros t Hv Hy Hleap Htoday.
  destruct (relative_table_ok t Hv Hy Hleap)
    as (d1 & d2 & d3 & d4 & d5 & d6 & d7 & E1 & E2 & E3 & E4 & E5 & E6 & E7).
  unfold TimeframeParsingTool._parse_relative_dates, bind, now, lift.
  cbv beta iota zeta. fold t.
  rewrite E1, E2, E3, E4, E5, E6, E7.
  cbv beta iota zeta.
  cbn [TimeframeParsingTool.first_cue]. rewrite Htoday. reflexivity.
Qed.

(** The timeframe parser cannot fail on a description of ASCII characters
    without digits when the clock shows a day of the calendar before the
    year 9999 other than the 29th of February: it returns the result of its
    [try] block, without an error message and with an empty duration. *)
Theorem timeframe_safe_without_digits (description : string) (w : world) :
  let t := clock w (S (ticks w)) in
  DT.valid_date (year t) (month t) (day t) = true ->
  (year t <= 9998)%Z ->
  ~ (month t = 2%Z /\ day t = 29%Z) ->
  Py.is_ascii description = true ->
  DigitFacts.has_digit description = false ->
  exists r w',
    TimeframeParsingTool.run description w = (Val r, w') /\
    TimeframeParsingTool.run_body description w = (Val r, w') /\
    t_error r = None /\ duration r = [].
Proof.
  intros t Hv Hy Hleap _ Hd.
  assert (Hbody : exists r w',
             TimeframeParsingTool.run_body description w = (Val r, w') /\
             t_error r = None /\ duration r = []).
  { unfold TimeframeParsingTool.run_body, bind at 1.
    unfold TimeframeParsingTool._parse_dates, bind, now, lift.
    rewrite (no_duration_without_digit description Hd).
    cbv beta iota zeta.
    rewrite date_loop_folds. fold (date_matches description).
    fold (explicit_end_date (year (clock w (ticks w))) description).
    rewrite (no_explicit_date_without_digit description Hd).
    cbv beta iota zeta.
    destruct (relative_dates_ok description
                {| clock := clock w; ticks := S (ticks w) |} Hv Hy Hleap Hd)
      as (o & ->).
    destruct o as [dt |]; cbv beta iota zeta; unfold ret;
      eexists; eexists; (split; [reflexivity |]);
      cbn [t_error duration]; split; reflexivity. }
  destruct Hbody as (r & w' & Hb & He & Hdur).
  exists r, w'. split; [| split; [exact Hb | split; assumption]].
  apply try_except_val. exact Hb.
Qed.

Lemma timeframe_safe_without_digits_witness :
  exists r w',
    TimeframeParsingTool.run "finish the draft tomorrow" Sample.monday
    = (Val r, w') /\
    TimeframeParsingTool.run_body "finish the draft tomorrow" Sample.monday
    = (Val r, w') /\
    t_error r = None /\ duration r = [].
Proof.
  apply timeframe_safe_without_digits.
  - vm_compute. reflexivity.
  - vm_compute. discriminate.
  - intros [_ C]. vm_compute in C. discriminate C.
  - vm_compute. reflexivity.
  - vm_compute. reflexivity.
Defined.

(** A goal for "today" ends before it starts.  Let the clock show a day of
    the calendar before the year 9999 other than the 29th of February, and
    let the description have no explicit date that parses and contain the
    word "today".  Then "today" gives the end date, whatever other relative
    cue follows it in the table: [_parse_dates] returns the second reading
    of the clock as the end date and the third reading, taken after it, as
    the start date.  The parser reports these dates when the duration is
    computed, and its fallback when the duration raises. *)
Theorem today_ends_before_it_starts (description : string) (w : world) :
  let t := clock w (S (ticks w)) in
  DT.valid_date (year t) (month t) (day t) = true ->
  (year t <= 9998)%Z ->
  ~ (month t = 2%Z /\ day t = 29%Z) ->
  explicit_end_date (year (clock w (ticks w))) description = None ->
  IntentExtractionTool.found_in (TimeframeParsingTool.relative_cue "today")
    (Py.lower description) = true ->
  (forall phrases,
     TimeframeParsingTool._parse_dates description phrases w
     = (Val (Some (clock w (S (S (ticks w)))), Some t), advance 3 w)) /\
  match TimeframeParsingTool._extract_duration description with
  | Val dur =>
      exists r,
        TimeframeParsingTool.run description w = (Val r, advance 3 w) /\
        endDate r = Some (DT.isoformat t) /\
        startDate r = Some (DT.isoformat (clock w (S (S (ticks w))))) /\
        duration r = dur /\
        t_error r = None
  | Raise e =>
      TimeframeParsingTool.run description w
      = (Val (TimeframeParsingTool.fallback e), advance 3 w)
  end.
Proof.
  intros t Hv Hy Hleap Hnone Htoday.
  assert (Hdates : forall phrases,
             TimeframeParsingTool._parse_dates description phrases w
             = (Val (Some (clock w (S (S (ticks w)))), Some t),
                advance 3 w)).
  { intro phrases.
    unfold TimeframeParsingTool._parse_dates, bind, now.
    cbv beta iota zeta.
    rewrite date_loop_folds. fold (date_matches description).
    fold (explicit_end_date (year (clock w (ticks w))) description).
    rewrite Hnone. cbv beta iota zeta.
    rewrite (relative_dates_today description
               {| clock := clock w; ticks := S (ticks w) |} Hv Hy Hleap
               Htoday).
    cbv beta iota zeta. unfold ret. cbn [clock ticks]. fold t.
    f_equal. unfold advance. f_equal. lia. }
  split; [exact Hdates |].
  unfold TimeframeParsingTool.run, TimeframeParsingTool.run_with, try_except,
    TimeframeParsingTool.run_body, bind.
  rewrite Hdates. cbv beta iota zeta. unfold lift.
  destruct (TimeframeParsingTool._extract_duration description) as [dur | e];
    [| reflexivity].
  unfold ret. eexists. split; [reflexivity |].
  cbn [endDate startDate duration t_error option_map]. repeat split.
Qed.

Lemma today_ends_before_it_starts_witness :
  (forall phrases,
     TimeframeParsingTool._parse_dates "Call the bank today or tomorrow"
       phrases Sample.monday
     = (Val (Some (clock Sample.monday 2), Some (clock Sample.monday 1)),
        advance 3 Sample.monday)) /\
  exists r,
    TimeframeParsingTool.run "Call the bank today or tomorrow" Sample.monday
    = (Val r, advance 3 Sample.monday) /\
    endDate r = Some "2025-03-10T09:00:00.000001" /\
    startDate r = Some "2025-03-10T09:00:00.000002" /\
    duration r = [] /\
    t_error r = None.
Proof.
  exact (today_ends_before_it_starts "Call the bank today or tomorrow"
           Sample.monday
           ltac:(vm_compute; reflexivity)
           ltac:(vm_compute; discriminate)
           ltac:(intros [_ C]; vm_compute in C; discriminate C)
           ltac:(vm_compute; reflexivity)
           ltac:(vm_compute; reflexivity)).
Defined.

(** ** Phrases are quoted from the description *)

Module QuoteFacts.

Import Re ReFacts.

Local Open Scope string_scope.

Lemma occurs_refl s : occurs_in s s.
Proof. exists "", "". simpl. rewrite sapp_nil_r. reflexivity. Qed.

Lemma occurs_empty s : occurs_in "" s.
Proof. exists "", s. reflexivity. Qed.

Lemma occurs_trans a b c : occurs_in a b -> occurs_in b c -> occurs_in a c.
Proof.
  intros (p1 & q1 & ->) (p2 & q2 & ->).
  exists (p2 ++ p1), (q1 ++ q2). rewrite !sapp_assoc. reflexivity.
Qed.

Lemma occurs_app_l a w1 w2 : occurs_in a w1 -> occurs_in a (w1 ++ w2).
Proof.
  intros (p & q & ->). exists p, (q ++ w2). rewrite !sapp_assoc. reflexivity.
Qed.

Lemma occurs_app_r a w1 w2 : occurs_in a w2 -> occurs_in a (w1 ++ w2).
Proof.
  intros (p & q & ->). exists (w1 ++ p), q. rewrite !sapp_assoc. reflexivity.
Qed.

Lemma rev_string_acc s : forall acc,
  Py.rev_string s acc = Py.rev_string s "" ++ acc.
Proof.
  induction s as [| c s IH]; intro acc; simpl; [reflexivity |].
  rewrite (IH (String c acc)), (IH (String c "")), sapp_assoc. reflexivity.
Qed.

Lemma rev_string_app a b :
  Py.rev_string (a ++ b) "" = Py.rev_string b "" ++ Py.rev_string a "".
Proof.
  induction a as [| c a IH]; simpl.
  - rewrite sapp_nil_r. reflexivity.
  - rewrite (rev_string_acc (a ++ b) (String c "")), IH,
      (rev_string_acc a (String c "")), sapp_assoc.
    reflexivity.
Qed.

Lemma rev_string_involutive s :
  Py.rev_string (Py.rev_string s "") "" = s.
Proof.
  induction s as [| c s IH]; simpl; [reflexivity |].
  rewrite (rev_string_acc s (String c "")), rev_string_app, IH. reflexivity.
Qed.

Lemma lstrip_suffix s : exists blanks, s = blanks ++ Py.lstrip s.
Proof.
  induction s as [| c s (blanks & IH)]; simpl.
  - exists "". reflexivity.
  - destruct (Py.is_space c).
    + exists (String c blanks). simpl. rewrite <- IH. reflexivity.
    + exists "". reflexivity.
Qed.

(** [s.strip()] occurs in [s] *)
Lemma strip_occurs s : occurs_in (Py.strip s) s.
Proof.
  unfold Py.strip.
  destruct (lstrip_suffix s) as (b1 & H1).
  destruct (lstrip_suffix (Py.rev_string (Py.lstrip s) "")) as (b2 & H2).
  exists b1, (Py.rev_string b2 "").
  rewrite <- rev_string_app, <- H2, rev_string_involutive. exact H1.
Qed.

(** whatever a match puts in a group occurs in the matched text *)
Lemma matches_groups_occur r w cs cs' :
  matches r w cs cs' ->
  forall i, get_cap i cs' = get_cap i cs \/ occurs_in (get_cap i cs') w.
Proof.
  induction 1 as [| | r1 r2 w1 w2 cs cs1 cs2 _ IH1 _ IH2
                  | r1 r2 w cs cs' _ IH | r1 r2 w cs cs' _ IH
                  | r w cs cs' _ IH | | | j r w cs cs' _ IH | |];
    intro i; try (left; reflexivity); try apply IH.
  - destruct (IH2 i) as [E2 | O2]; [| right; apply occurs_app_r; exact O2].
    rewrite E2. destruct (IH1 i) as [E1 | O1]; [left; exact E1 |].
    right. apply occurs_app_l. exact O1.
  - unfold set_cap. simpl. destruct (i =? j)%nat.
    + right. apply occurs_refl.
    + apply IH.
Qed.

Lemma group_occurs r s x i :
  match_in r s x -> occurs_in (group i x) s.
Proof.
  intros (before & after & Hs & M).
  apply occurs_trans with (whole x); [| exists before, after; exact Hs].
  unfold group. destruct (matches_groups_occur _ _ _ _ M i) as [E | O].
  - rewrite E. apply occurs_empty.
  - exact O.
Qed.

(** for a pattern with one group at most, what [re.findall] returns occurs
    in the text *)
Lemma findall_occurs r s f :
  (ngroups r <= 1)%nat -> In f (findall r s) -> occurs_in (found_str f) s.
Proof.
  intros Hn Hf. apply findall_sound in Hf. destruct Hf as (x & Hx & ->).
  destruct (ngroups r) as [| [| n]]; [| | lia]; simpl.
  - destruct Hx as (before & after & Hs & _). exists before, after. exact Hs.
  - eapply group_occurs. exact Hx.
Qed.

Lemma stripped_occurs (patterns : list regex) (text phrase : string) :
  forallb (fun r => ngroups r <=? 1)%nat patterns = true ->
  In phrase
    (flat_map
       (fun r => IntentExtractionTool.stripped (map found_str (findall r text)))
       patterns) ->
  phrase <> "" /\ occurs_in phrase text.
Proof.
  intros Hn Hin. split.
  { apply in_flat_map in Hin. destruct Hin as (r & _ & Hin).
    apply stripped_nonempty in Hin. exact Hin. }
  apply in_flat_map in Hin. destruct Hin as (r & Hr & Hin).
  unfold IntentExtractionTool.stripped in Hin.
  apply in_map_iff in Hin. destruct Hin as (raw & <- & Hraw).
  apply filter_In in Hraw. destruct Hraw as [Hraw _].
  apply in_map_iff in Hraw. destruct Hraw as (f & <- & Hf).
  apply occurs_trans with (found_str f); [apply strip_occurs |].
  apply (findall_occurs r); [| exact Hf].
  rewrite forallb_forall in Hn. apply Nat.leb_le, Hn. exact Hr.
Qed.

Lemma stripped_flat_map (patterns : list regex) (text : string) :
  IntentExtractionTool.stripped
    (IntentExtractionTool.findall_strs patterns text)
  = flat_map
      (fun r => IntentExtractionTool.stripped (map found_str (findall r text)))
      patterns.
Proof.
  unfold IntentExtractionTool.findall_strs, IntentExtractionTool.stripped.
  induction patterns as [| r rest IH]; simpl; [reflexivity |].
  rewrite filter_app, map_app, IH. reflexivity.
Qed.

End QuoteFacts.

Section Quotations.

Import QuoteFacts.

Variable description : string.
Variable w : world.

(** single-group categories of the constraint extractor *)
Definition quoting_categories : list string :=
  ["time_constraints"; "external_constraints"; "personal_constraints"].

Lemma quoting_category_texts (cat : string) (l : list string) (text : string) :
  In (cat, l) (ConstraintExtractionTool.by_category description) ->
  In cat quoting_categories ->
  In text l ->
  text <> "" /\ occurs_in text (Py.lower description).
Proof.
  unfold ConstraintExtractionTool.by_category, quoting_categories.
  intros Hl Hcat Htext.
  destruct Hl as [E | [E | [E | [E | [E | []]]]]];
    injection E as <- <-;
    try (exfalso; simpl in Hcat; intuition discriminate).
  all: revert Htext; apply stripped_occurs; reflexivity.
Qed.

(** Every piece of context, time phrase and milestone, and every constraint
    of the time, external and personal categories, is a non-empty piece of
    the lower-cased description, quoted letter for letter: the tools cut
    the description, they never rewrite it. *)
Theorem phrases_quote_description :
  returns
    (fun r => forall phrase, In phrase (context r) ->
       phrase <> "" /\ occurs_in phrase (Py.lower description))
    (IntentExtractionTool.run description w) /\
  returns
    (fun r => forall phrase,
       In phrase (extractedPhrases r) \/ In phrase (milestones r) ->
       phrase <> "" /\ occurs_in phrase (Py.lower description))
    (TimeframeParsingTool.run description w) /\
  returns
    (fun r => forall c, In c (constraints r) ->
       In (category c) quoting_categories ->
       constraint c <> "" /\ occurs_in (constraint c) (Py.lower description))
    (ConstraintExtractionTool.run description w).
Proof.
  split; [| split].
  - apply try_except_returns.
    + intros a w' H. unfold IntentExtractionTool.run_body, ret in H.
      injection H as <- _. cbn [context]. intros phrase Hin.
      unfold IntentExtractionTool._extract_context in Hin. cbv zeta in Hin.
      unfold IntentExtractionTool.findall_strs in Hin.
      rewrite <- flat_map_app in Hin.
      fold (IntentExtractionTool.findall_strs
              (IntentExtractionTool.motivation_patterns
               ++ IntentExtractionTool.constraint_patterns)
              (Py.lower description)) in Hin.
      rewrite stripped_flat_map in Hin.
      revert Hin. apply stripped_occurs. reflexivity.
    + intros e phrase [].
  - apply try_except_returns.
    + intros a w' H. apply timeframe_body_inv in H.
      destruct H as (s & e & dur & w1 & _ & _ & _ & ->).
      cbn [extractedPhrases milestones]. intros phrase [Hin | Hin].
      * unfold TimeframeParsingTool._extract_time_phrases in Hin.
        rewrite stripped_flat_map in Hin.
        revert Hin. apply stripped_occurs. reflexivity.
      * unfold TimeframeParsingTool._extract_milestones in Hin.
        apply firstn_In in Hin.
        revert Hin. apply stripped_occurs. reflexivity.
    + intros e phrase [[] | []].
  - unfold returns. rewrite constraints_run_normal.
    cbv zeta. cbn [fst constraints]. intros c Hc Hcat.
    apply flatten_in in Hc. destruct Hc as (l & Hl & Htext & _).
    exact (quoting_category_texts (category c) l (constraint c) Hl Hcat Htext).
Qed.

End Quotations.

(** ** Percentages *)

Section Percentages.

Import Re MetricsIdentificationTool MetricFacts MetricFacts2 QuoteFacts.

(** the value of a decimal digit *)
Definition digit_value (c : ascii) : Z := (Z.of_nat (Py.code c) - 48)%Z.

Lemma digit_value_bounds (c : ascii) :
  Py.is_digit c = true -> (0 <= digit_value c <= 9)%Z.
Proof.
  unfold Py.is_digit, Py.between, digit_value. intro H.
  apply andb_true_iff in H. destruct H as [Hlo Hhi].
  apply Nat.leb_le in Hlo. apply Nat.leb_le in Hhi. lia.
Qed.

Lemma float_digit (c : ascii) :
  Py.is_digit c = true -> Py.float (char_str c) = inject_Z (digit_value c).
Proof.
  intro H. unfold Py.float, char_str. cbn [Py.float_lit]. rewrite H.
  cbn [Py.float_lit]. f_equal.
  unfold Py.is_digit, Py.between in H. apply andb_true_iff in H.
  destruct H as [Hlo _]. apply Nat.leb_le in Hlo.
  unfold digit_value. lia.
Qed.

(** A percentage is read from the first character of the matched number
    only (the percentage pattern has a single group, so its match is a
    string and [match[0]] is a character).  Every "percentage_target" metric
    comes from a number matched in the lower-cased description: its target
    is the value of the first character of that number, a single digit, and
    its unit is the second character of the number, or "percent" when the
    number has one character. *)
Theorem percentage_target_single_digit (description : string) (w : world) :
  returns
    (fun r =>
       forall m, In m (metrics r) -> name m = "percentage_target" ->
         exists pattern matched c rest,
           In (pattern, "percentage", "percent") numeric_patterns /\
           In (FStr matched) (findall pattern (Py.lower description)) /\
           occurs_in matched (Py.lower description) /\
           matched = String c rest /\
           Py.is_digit c = true /\
           targetValue m = inject_Z (digit_value c) /\
           (0 <= digit_value c <= 9)%Z /\
           unit m = match rest with
                    | EmptyString => "percent"
                    | String c1 _ => String c1 ""
                    end)
    (run description w).
Proof.
  destruct (explicit_metrics description) as (explicit & Hrun & _ & Hexp).
  destruct (metrics_run_normal description w) as (explicit' & Hrun' & H).
  rewrite Hrun in Hrun'. injection Hrun' as <-.
  cbv zeta in H. destruct H as [_ Hr].
  unfold returns. rewrite Hr. cbn [fst metrics].
  intros m Hin Hname. apply firstn_In in Hin.
  destruct (metric_origin description explicit m Hexp Hin)
    as [(p & t & u & mt & vu & Hp & Hmt & Huse & Hv & ->)
       | [Himp | [_ [<- | []]]]].
  - destruct (explicit_metric_name p t u vu Hp) as [_ Hperc].
    specialize (Hperc Hname). subst t.
    assert (Hu : u = "percent" /\ (ngroups p <= 1)%nat).
    { unfold numeric_patterns in Hp.
      repeat (destruct Hp as [Hp | Hp];
              [injection Hp; intros; subst;
               first [discriminate
                     | split; [reflexivity | vm_compute; lia]] |]).
      contradiction. }
    destruct Hu as [-> Hgroups].
    destruct Huse as [(Hne & _) | (_ & c & rest & -> & Hc)];
      [contradiction Hne; reflexivity |].
    exists p, (String c rest), c, rest.
    split; [exact Hp |]. split; [exact Hmt |].
    split; [exact (findall_occurs p _ _ Hgroups Hmt) |].
    split; [reflexivity |]. split; [exact Hc |].
    destruct rest as [| c1 rest]; simpl in Hv; injection Hv as <-;
      cbn [explicit_metric targetValue unit fst snd];
      (split; [apply float_digit, Hc |]);
      (split; [apply digit_value_bounds, Hc | reflexivity]).
  - destruct (implicit_metrics_medium description m Himp) as (_ & _ & _ & Hn).
    rewrite Hname in Hn. simpl in Hn. exfalso. intuition discriminate.
  - discriminate Hname.
Qed.

End Percentages.
